(** * valorantGameAnalyzer: a shallow embedding of [main.py]

    The program reads per-match text records ([Parser]), derives extra
    fields, scores each record against tiered weight tables
    ([calculate_score]) and appends the results to a csv table ([main]).

    Modelling choices, all taken from the Python source:
    - a Python [float] is an IEEE-754 binary64 number, here a [spec_float]
      with the operations of [SpecFloat] at precision 53;
    - a Python [int] is a [Z]; a [str] is a [string] whose characters are
      read as code points 0..255;
    - a [dict] keeps insertion order, so it is an association list whose
      keys are kept distinct by [dict_set];
    - an exception is the [Raise] case of [result]. *)

From Stdlib Require Import ZArith List String Ascii Bool Lia DecimalString.
From Stdlib Require Import Permutation.
From Stdlib Require Import SpecFloat FloatOps PrimFloat.
Import ListNotations.

Local Open Scope string_scope.
Local Open Scope Z_scope.

(** ** Exceptions *)

Inductive exn : Type :=
| ValueError | TypeError | AttributeError | KeyError
| ZeroDivisionError | OverflowError | StopIteration
| CsvError.

Inductive result (A : Type) : Type :=
| Ok (a : A)
| Raise (e : exn).

Arguments Ok {A} a.
Arguments Raise {A} e.

Definition bind {A B} (r : result A) (k : A -> result B) : result B :=
  match r with
  | Ok a => k a
  | Raise e => Raise e
  end.

Notation "x <- r ;; k" := (bind r (fun x => k))
  (at level 61, r at next level, right associativity).
Notation "' p <- r ;; k" := (bind r (fun p => k))
  (at level 61, p pattern, r at next level, right associativity).

Definition is_ok {A} (r : result A) : bool :=
  match r with Ok _ => true | Raise _ => false end.

(** ** Python text primitives *)

Module Py.

(** A binary64 number. *)
Definition float : Type := spec_float.

Definition code (c : ascii) : nat := nat_of_ascii c.

Definition in_range (lo hi : nat) (c : ascii) : bool :=
  (Nat.leb lo (code c) && Nat.leb (code c) hi)%bool.

(** [str.isspace] on one character: tab to carriage return, the four
    separators 28..31, space, NEL and the no-break space. *)
Definition is_space (c : ascii) : bool :=
  (in_range 9 13 c || in_range 28 32 c
   || Nat.eqb (code c) 133 || Nat.eqb (code c) 160)%bool.

Definition is_digit (c : ascii) : bool := in_range 48 57 c.

Definition digit_val (c : ascii) : Z := Z.of_nat (code c - 48).

Definition is_empty (s : string) : bool :=
  match s with EmptyString => true | String _ _ => false end.

Fixpoint lstrip (s : string) : string :=
  match s with
  | String c r => if is_space c then lstrip r else s
  | EmptyString => EmptyString
  end.

Fixpoint rstrip (s : string) : string :=
  match s with
  | String c r =>
      let r' := rstrip r in
      if (is_space c && is_empty r')%bool then EmptyString else String c r'
  | EmptyString => EmptyString
  end.

(** [s.strip()] *)
Definition strip (s : string) : string := rstrip (lstrip s).

Definition lower_char (c : ascii) : ascii :=
  if (in_range 65 90 c || (in_range 192 222 c && negb (Nat.eqb (code c) 215)))%bool
  then ascii_of_nat (code c + 32) else c.

(** [s.lower()] *)
Fixpoint lower (s : string) : string :=
  match s with
  | String c r => String (lower_char c) (lower r)
  | EmptyString => EmptyString
  end.

(** The longest prefix whose characters satisfy [p], and the rest. *)
Fixpoint span (p : ascii -> bool) (s : string) : string * string :=
  match s with
  | String c r =>
      if p c then let '(a, b) := span p r in (String c a, b)
      else (EmptyString, s)
  | EmptyString => (EmptyString, EmptyString)
  end.

Fixpoint all_chars (p : ascii -> bool) (s : string) : bool :=
  match s with
  | String c r => (p c && all_chars p r)%bool
  | EmptyString => true
  end.

(** [s.endswith(suffix)] *)
Fixpoint endswith (s suffix : string) : bool :=
  (String.eqb s suffix
   || match s with
      | String _ r => endswith r suffix
      | EmptyString => false
      end)%bool.

(** [sep.join(parts)] *)
Fixpoint join (sep : string) (parts : list string) : string :=
  match parts with
  | [] => ""
  | [p] => p
  | p :: rest => p ++ sep ++ join sep rest
  end.

(** [s.split(sep)] for a one-character separator: the fields between
    the occurrences of [sep], never an empty list. *)
Fixpoint split (sep : ascii) (s : string) : list string :=
  match s with
  | EmptyString => [EmptyString]
  | String c r =>
      if Ascii.eqb c sep then EmptyString :: split sep r
      else match split sep r with
           | f :: fs => String c f :: fs
           | [] => [String c EmptyString]
           end
  end.

(** *** Numbers written in decimal *)

(** The white space that [float] and [int] drop around a numeral: the
    ASCII blanks, and NEL and the no-break space, which they first turn
    into blanks.  The separators 28..31, which [str.strip] drops, are
    not among them. *)
Definition is_blank (c : ascii) : bool :=
  (in_range 9 13 c || Nat.eqb (code c) 32
   || Nat.eqb (code c) 133 || Nat.eqb (code c) 160)%bool.

Fixpoint lstrip_blank (s : string) : string :=
  match s with
  | String c r => if is_blank c then lstrip_blank r else s
  | EmptyString => EmptyString
  end.

Fixpoint rstrip_blank (s : string) : string :=
  match s with
  | String c r =>
      let r' := rstrip_blank r in
      if (is_blank c && is_empty r')%bool then EmptyString else String c r'
  | EmptyString => EmptyString
  end.

Definition strip_blank (s : string) : string := rstrip_blank (lstrip_blank s).

(** The most digits [int] reads from a string: the interpreter's
    default limit. *)
Definition max_str_digits : nat := 4300.

(** PEP 515: an underscore is allowed only between two digits.  [prev]
    tells whether the previous character was a digit. *)
Fixpoint underscores_ok (prev : bool) (s : string) : bool :=
  match s with
  | EmptyString => true
  | String c r =>
      if Ascii.eqb c "_"
      then (prev && match r with
                    | String d _ => is_digit d
                    | EmptyString => false
                    end && underscores_ok false r)%bool
      else underscores_ok (is_digit c) r
  end.

Fixpoint remove_underscores (s : string) : string :=
  match s with
  | EmptyString => EmptyString
  | String c r =>
      if Ascii.eqb c "_" then remove_underscores r
      else String c (remove_underscores r)
  end.

(** The value of a run of decimal digits read after the value [acc]. *)
Fixpoint digits_value (acc : Z) (s : string) : Z :=
  match s with
  | EmptyString => acc
  | String c r => digits_value (10 * acc + digit_val c) r
  end.

(** An optional sign: [true] for minus. *)
Definition take_sign (s : string) : bool * string :=
  match s with
  | String "-" r => (true, r)
  | String "+" r => (false, r)
  | _ => (false, s)
  end.

(** [int(s)] for a string: surrounding white space, a sign, digits,
    no more of them than the limit. *)
Definition int_of_string (s : string) : option Z :=
  let t := strip_blank s in
  if underscores_ok false t then
    let '(neg, u) := take_sign (remove_underscores t) in
    if (negb (is_empty u) && all_chars is_digit u
        && Nat.leb (String.length u) max_str_digits)%bool
    then Some (if neg then - digits_value 0 u else digits_value 0 u)
    else None
  else None.

(** *** Binary64 arithmetic *)

Definition fzero : float := S754_zero false.
Definition fone : float := binary_normalize prec emax 1 0 false.
Definition fnan : float := S754_nan.

Definition fadd : float -> float -> float := SFadd prec emax.
Definition fsub : float -> float -> float := SFsub prec emax.
Definition fmul : float -> float -> float := SFmul prec emax.

(** [x == y], [x < y], [x <= y] and [x >= y] on floats. *)
Definition feq : float -> float -> bool := SFeqb.
Definition flt : float -> float -> bool := SFltb.
Definition fle : float -> float -> bool := SFleb.
Definition fge (x y : float) : bool := SFleb y x.

(** [x / y]: Python raises on a zero divisor of either sign. *)
Definition fdiv (x y : float) : result float :=
  if feq y fzero then Raise ZeroDivisionError else Ok (SFdiv prec emax x y).

(** The binary64 number nearest to [p / q], ties to even. *)
Definition float_of_ratio (neg : bool) (p q : positive) : float :=
  SFdiv prec emax (S754_finite neg p 0) (S754_finite false q 0).

(** [float(n)] for an int. *)
Definition float_of_int (n : Z) : result float :=
  match binary_normalize prec emax n 0 false with
  | S754_infinity _ => Raise OverflowError
  | f => Ok f
  end.

(** The binary64 number nearest to [m * 10 ^ e] for a mantissa [m >= 0]. *)
Definition float_of_decimal (neg : bool) (m e : Z) : float :=
  match m with
  | Z0 => S754_zero neg
  | Zpos p =>
      if 0 <=? e then
        match Zpos p * 10 ^ e with
        | Zpos n => binary_round prec emax neg n 0
        | _ => fnan
        end
      else match 10 ^ (- e) with
           | Zpos q => float_of_ratio neg p q
           | _ => fnan
           end
  | Zneg _ => fnan
  end.

(** The exponent after [e] or [E]: a sign and at least one digit. *)
Definition parse_exponent (s : string) : option Z :=
  let '(neg, r) := take_sign s in
  if (negb (is_empty r) && all_chars is_digit r)%bool
  then Some (if neg then - digits_value 0 r else digits_value 0 r)
  else None.

(** A decimal numeral without sign: digits, an optional point and
    digits, an optional exponent; at least one digit before the
    exponent.  The result is the pair mantissa, power of ten. *)
Definition parse_decimal (s : string) : option (Z * Z) :=
  let '(ip, r1) := span is_digit s in
  let '(fp, r2) := match r1 with
                   | String "." r => span is_digit r
                   | _ => (EmptyString, r1)
                   end in
  if (is_empty ip && is_empty fp)%bool then None
  else
    let oe := match r2 with
              | EmptyString => Some 0
              | String c r =>
                  if (Ascii.eqb c "e" || Ascii.eqb c "E")%bool
                  then parse_exponent r else None
              end in
    match oe with
    | Some e => Some (digits_value 0 (ip ++ fp), e - Z.of_nat (String.length fp))
    | None => None
    end.

(** [float(s)] for a string. *)
Definition float_of_string (s : string) : option float :=
  let t := strip_blank s in
  if underscores_ok false t then
    let '(neg, u) := take_sign (remove_underscores t) in
    let l := lower u in
    if (String.eqb l "inf" || String.eqb l "infinity")%bool
    then Some (S754_infinity neg)
    else if String.eqb l "nan" then Some fnan
    else match parse_decimal u with
         | Some (m, e) => Some (float_of_decimal neg m e)
         | None => None
         end
  else None.

(** [int(x)] for a float: truncation towards zero. *)
Definition int_of_float (x : float) : result Z :=
  match x with
  | S754_zero _ => Ok 0
  | S754_finite s m e =>
      let n := if 0 <=? e then Zpos m * 2 ^ e else Zpos m / 2 ^ (- e) in
      Ok (if s then - n else n)
  | S754_infinity _ => Raise OverflowError
  | S754_nan => Raise ValueError
  end.

(** The integer nearest to [p / q] for [q > 0], ties to even. *)
Definition round_half_even (p q : Z) : Z :=
  let d := p / q in
  match (2 * (p mod q)) ?= q with
  | Lt => d
  | Gt => d + 1
  | Eq => if Z.even d then d else d + 1
  end.

(** [round(x, 2)]: the exact value of [x] is rounded to two decimals,
    ties to even, and the decimal is read back as a float. *)
Definition round2 (x : float) : float :=
  match x with
  | S754_finite s m e =>
      let n := if 0 <=? e then 100 * Zpos m * 2 ^ e
               else round_half_even (100 * Zpos m) (2 ^ (- e)) in
      match n with
      | Z0 => S754_zero s
      | Zpos p => float_of_ratio s p 100
      | Zneg _ => fnan
      end
  | _ => x
  end.

(** A float written as a literal of the proof assistant. *)
Definition lit (x : PrimFloat.float) : float := Prim2SF x.

End Py.

(** ** Values and dictionaries *)

(** What a record field can hold: the parser stores [bool], [float] and
    [str]; the derived fields add [int]. *)
Inductive value : Type :=
| VBool (b : bool)
| VInt (n : Z)
| VFloat (f : Py.float)
| VStr (s : string).

Definition dict (V : Type) : Type := list (string * V).

Fixpoint dict_get {V} (d : dict V) (k : string) : option V :=
  match d with
  | [] => None
  | (k', v) :: r => if String.eqb k' k then Some v else dict_get r k
  end.

(** [k in d] *)
Definition dict_contains {V} (d : dict V) (k : string) : bool :=
  match dict_get d k with Some _ => true | None => false end.

(** [d[k]] *)
Definition dict_item {V} (d : dict V) (k : string) : result V :=
  match dict_get d k with Some v => Ok v | None => Raise KeyError end.

(** [d[k] = v]: an existing key keeps its place, a new one goes last. *)
Fixpoint dict_set {V} (d : dict V) (k : string) (v : V) : dict V :=
  match d with
  | [] => [(k, v)]
  | (k', v') :: r =>
      if String.eqb k' k then (k', v) :: r else (k', v') :: dict_set r k v
  end.

Definition dict_keys {V} (d : dict V) : list string := map fst d.

(** [float(v)] *)
Definition to_float (v : value) : result Py.float :=
  match v with
  | VBool b => Ok (if b then Py.fone else Py.fzero)
  | VInt n => Py.float_of_int n
  | VFloat f => Ok f
  | VStr s => match Py.float_of_string s with
              | Some f => Ok f
              | None => Raise ValueError
              end
  end.

(** [int(v)] *)
Definition to_int (v : value) : result Z :=
  match v with
  | VBool b => Ok (if b then 1 else 0)
  | VInt n => Ok n
  | VFloat f => Py.int_of_float f
  | VStr s => match Py.int_of_string s with
              | Some n => Ok n
              | None => Raise ValueError
              end
  end.

(** [v != 0] *)
Definition ne_zero (v : value) : bool :=
  match v with
  | VBool b => b
  | VInt n => negb (n =? 0)
  | VFloat f => negb (Py.feq f Py.fzero)
  | VStr _ => true
  end.

(** [m / n] on two ints: the quotient rounded to the nearest float. *)
Definition int_truediv (m n : Z) : result Py.float :=
  match n with
  | Z0 => Raise ZeroDivisionError
  | _ =>
      let neg := xorb (m <? 0) (n <? 0) in
      match Z.abs m, Z.abs n with
      | Zpos p, Zpos q =>
          match Py.float_of_ratio neg p q with
          | S754_infinity _ => Raise OverflowError
          | f => Ok f
          end
      | _, _ => Ok (S754_zero neg)
      end
  end.

(** A bool counts as the int 0 or 1 in arithmetic. *)
Definition as_number (v : value) : option (Z + Py.float) :=
  match v with
  | VBool b => Some (inl (if b then 1 else 0))
  | VInt n => Some (inl n)
  | VFloat f => Some (inr f)
  | VStr _ => None
  end.

(** [a / b] *)
Definition truediv (a b : value) : result value :=
  match as_number a, as_number b with
  | Some (inl m), Some (inl n) => f <- int_truediv m n ;; Ok (VFloat f)
  | Some x, Some y =>
      fx <- match x with inl m => Py.float_of_int m | inr f => Ok f end ;;
      fy <- match y with inl n => Py.float_of_int n | inr f => Ok f end ;;
      f <- Py.fdiv fx fy ;;
      Ok (VFloat f)
  | _, _ => Raise TypeError
  end.

(** ** The record parser *)

Module Parser.

Definition newline : ascii := ascii_of_nat 10.

(** [re.match(r"^([^:]+): (.+)$", line)]: the two groups.  The first
    group runs to the first colon, which a space must follow; the
    second is the rest of the line, without a final newline. *)
Definition match_line (line : string) : option (string * string) :=
  let '(k, r) := Py.span (fun c => negb (Ascii.eqb c ":")) line in
  if Py.is_empty k then None
  else match r with
       | String ":" (String " " r') =>
           let '(v, tl) := Py.span (fun c => negb (Ascii.eqb c newline)) r' in
           if Py.is_empty v then None
           else match tl with
                | EmptyString => Some (k, v)
                | String _ EmptyString => Some (k, v)
                | _ => None
                end
       | _ => None
       end.

Definition parse_value (text : string) : value :=
  let l := Py.lower text in
  if (String.eqb l "true" || String.eqb l "false")%bool
  then VBool (String.eqb l "true")
  else match Py.float_of_string text with
       | Some f => VFloat f
       | None => VStr text
       end.

(** [None, None] is the [None] case; a key may come out empty. *)
Definition parse_line (line : string) : option (string * value) :=
  match match_line line with
  | Some (k, v) => Some (Py.strip k, parse_value (Py.strip v))
  | None => None
  end.

(** The pattern [\((\d+(?:\.\d+)?)%\)] matched at the head of [s]:
    group 1. *)
Definition match_percent (s : string) : option string :=
  match s with
  | String "(" r =>
      let '(d1, r1) := Py.span Py.is_digit r in
      if Py.is_empty d1 then None
      else
        let '(g, r2) :=
          match r1 with
          | String "." r' =>
              let '(d2, r'') := Py.span Py.is_digit r' in
              if Py.is_empty d2 then (d1, r1) else (d1 ++ "." ++ d2, r'')
          | _ => (d1, r1)
          end in
        match r2 with
        | String "%" (String ")" _) => Some g
        | _ => None
        end
  | _ => None
  end.

(** [re.search] of that pattern: the leftmost match. *)
Fixpoint search_percent (s : string) : option string :=
  match match_percent s with
  | Some g => Some g
  | None => match s with
            | String _ r => search_percent r
            | EmptyString => None
            end
  end.

Definition parse_special_key (data : dict value) (key : string) (v : value)
  : result (dict value) :=
  if String.eqb key "Headshot" then
    match v with
    | VStr s =>
        match search_percent s with
        | Some g =>
            match Py.float_of_string g with
            | Some f => Ok (dict_set data "Headshot %" (VFloat f))
            | None => Raise ValueError
            end
        | None => Raise AttributeError
        end
    | _ => Raise TypeError
    end
  else if String.eqb key "Score" then
    match v with
    | VStr s =>
        match Py.split "-" s with
        | [home_rounds; away_rounds] =>
            h <- to_int (VStr home_rounds) ;;
            a <- to_int (VStr away_rounds) ;;
            Ok (dict_set data "Round Differential" (VInt (h - a)))
        | _ => Raise ValueError
        end
    | _ => Raise AttributeError
    end
  else Ok data.

Definition derive_length (data : dict value) : result (dict value) :=
  if (dict_contains data "Start Time (UNIX)"
      && dict_contains data "End Time (UNIX)")%bool
  then
    e <- dict_item data "End Time (UNIX)" ;;
    e <- to_int e ;;
    s <- dict_item data "Start Time (UNIX)" ;;
    s <- to_int s ;;
    Ok (dict_set data "Length" (VInt (e - s)))
  else Ok data.

Definition derive_damage_ratio (data : dict value) : result (dict value) :=
  if (dict_contains data "Damage Made"
      && dict_contains data "Damage Received")%bool
  then
    r <- dict_item data "Damage Received" ;;
    if ne_zero r then
      m <- dict_item data "Damage Made" ;;
      r <- dict_item data "Damage Received" ;;
      q <- truediv m r ;;
      Ok (dict_set data "Damage Ratio" q)
    else Ok data
  else Ok data.

(** The two [if] statements of the method, in order. *)
Definition calculate_additional_metrics (data : dict value)
  : result (dict value) :=
  data <- derive_length data ;;
  derive_damage_ratio data.

(** The body of the [for line in file] loop. *)
Definition parse_step (data : dict value) (line : string)
  : result (dict value) :=
  match parse_line line with
  | Some (key, v) =>
      if Py.is_empty key then Ok data
      else
        data <- parse_special_key data key v ;;
        Ok (if dict_contains data key then data else dict_set data key v)
  | None => Ok data
  end.

Fixpoint parse_lines (data : dict value) (lines : list string)
  : result (dict value) :=
  match lines with
  | [] => Ok data
  | line :: rest => data <- parse_step data line ;; parse_lines data rest
  end.

(** [Parser(file_path).parse()], the file given by its lines. *)
Definition parse (lines : list string) : result (dict value) :=
  data <- parse_lines [] lines ;;
  calculate_additional_metrics data.

End Parser.

(** ** The scorer *)

(** A tier is a pair target, bonus. *)
Definition tier : Type := (Py.float * Py.float)%type.

(** [sorted(tiers, key=lambda x: x[0])]: a stable sort that compares
    targets with [<].  On targets none of which is NaN the order [<] is
    a total preorder and the result is the one of this stable insertion
    sort.  With a NaN among the targets the result of the interpreter's
    sort depends on the comparisons its merge strategy happens to make,
    which this definition does not follow: what is proved of the scan
    of a table through a particular sorted order assumes targets
    without NaN. *)
Fixpoint insert_tier (t : tier) (l : list tier) : list tier :=
  match l with
  | [] => [t]
  | u :: r => if Py.flt (fst t) (fst u) then t :: l else u :: insert_tier t r
  end.

Definition sorted (tiers : list tier) : list tier :=
  fold_left (fun acc t => insert_tier t acc) tiers [].

Definition calculate_interpolated_bonus
  (value lower_bound upper_bound lower_bonus upper_bonus : Py.float)
  : result Py.float :=
  if Py.feq lower_bound upper_bound then Ok lower_bonus
  else
    q <- Py.fdiv (Py.fsub value lower_bound) (Py.fsub upper_bound lower_bound) ;;
    Ok (Py.fadd lower_bonus (Py.fmul (Py.fsub upper_bonus lower_bonus) q)).

(** One line of the score breakdown, as the values its f-string is
    built from: the interpolated form of the first [append], the
    top-tier form of the second. *)
Inductive entry : Type :=
| Interpolated (metric : string) (metric_value interpolated_bonus : Py.float)
| TopTier (metric : string) (metric_value target bonus : Py.float).

(** The running [score] and [score_breakdown]. *)
Definition tally : Type := (Py.float * list entry)%type.

(** The inner loop over [enumerate(sorted_tiers)], from index [i], where
    [tiers] is what is left of the sorted list.  Returning is the
    [break], or the end of the list. *)
Fixpoint scan_tiers (metric : string) (metric_value : Py.float) (i : nat)
  (tiers : list tier) (acc : tally) : result tally :=
  match tiers with
  | [] => Ok acc
  | (target, bonus) :: rest =>
      let '(score, score_breakdown) := acc in
      if Py.fge metric_value target then
        match rest with
        | (next_target, next_bonus) :: _ =>
            if Py.flt metric_value next_target then
              interpolated_bonus <-
                calculate_interpolated_bonus metric_value target next_target
                  bonus next_bonus ;;
              Ok (Py.fadd score interpolated_bonus,
                  (score_breakdown
                     ++ [Interpolated metric metric_value interpolated_bonus])%list)
            else scan_tiers metric metric_value (S i) rest acc
        | [] =>
            Ok (Py.fadd score bonus,
                (score_breakdown
                   ++ [TopTier metric metric_value target bonus])%list)
        end
      else if (Nat.eqb i 0 && Py.flt metric_value target)%bool then Ok acc
      else scan_tiers metric metric_value (S i) rest acc
  end.

(** [data.get(metric, 0)] *)
Definition get_metric (data : dict value) (metric : string) : value :=
  match dict_get data metric with
  | Some v => v
  | None => VInt 0
  end.

(** The body of the loop over [weights.items()]. *)
Definition score_metric (data : dict value) (acc : tally)
  (item : string * list tier) : result tally :=
  let '(metric, tiers) := item in
  metric_value <- to_float (get_metric data metric) ;;
  scan_tiers metric metric_value 0 (sorted tiers) acc.

Fixpoint score_metrics (data : dict value) (weights : dict (list tier))
  (acc : tally) : result tally :=
  match weights with
  | [] => Ok acc
  | item :: rest =>
      acc <- score_metric data acc item ;;
      score_metrics data rest acc
  end.

Definition calculate_score (data : dict value) (weights : dict (list tier))
  : result tally :=
  '(score, score_breakdown) <- score_metrics data weights (Py.fzero, []) ;;
  Ok (Py.round2 score, score_breakdown).

(** ** The weight table loader *)

(** [weights.setdefault(metric, []).append(t)] *)
Fixpoint setdefault_append (weights : dict (list tier)) (metric : string)
  (t : tier) : dict (list tier) :=
  match weights with
  | [] => [(metric, [t])]
  | (k, ts) :: r =>
      if String.eqb k metric then (k, (ts ++ [t])%list) :: r
      else (k, ts) :: setdefault_append r metric t
  end.

Fixpoint load_weight_rows (weights : dict (list tier))
  (rows : list (list string)) : result (dict (list tier)) :=
  match rows with
  | [] => Ok weights
  | [metric; target; bonus] :: rest =>
      t <- to_float (VStr target) ;;
      b <- to_float (VStr bonus) ;;
      load_weight_rows (setdefault_append weights metric (t, b)) rest
  | _ :: _ => Raise ValueError
  end.

(** [load_weights], the file given by the records [csv.reader] yields. *)
Definition load_weights (weights_file : list (list string))
  : result (dict (list tier)) :=
  match weights_file with
  | [] => Raise StopIteration
  | _ :: rows => load_weight_rows [] rows
  end.

(** ** The result store *)

(** A csv file seen as the list of records [csv.reader] reads from it,
    each a list of cells.  [None] is a file that does not exist.
    Appending to the file is seen as adding records after these, which
    is what it does to a file that is empty or ends with a line
    terminator, as the files the writer leaves do.  The file as the text
    it holds, whatever its last line, is in [Bytes] below. *)
Definition csv_file : Type := option (list (list string)).

Definition records (f : csv_file) : list (list string) :=
  match f with
  | Some rs => rs
  | None => []
  end.

Definition is_nil {A} (l : list A) : bool :=
  match l with [] => true | _ :: _ => false end.

(** The dict [csv.DictReader] builds for one record: the cells under
    the field names, and [None] under the names the record is too short
    for.  Cells beyond the field names go under the key [None], which
    no lookup here reads. *)
Fixpoint zip_row (fieldnames row : list string) (d : dict (option string))
  : dict (option string) :=
  match fieldnames, row with
  | name :: names, cell :: cells => zip_row names cells (dict_set d name (Some cell))
  | names, [] => fold_left (fun d name => dict_set d name None) names d
  | [], _ :: _ => d
  end.

(** The rows of a [DictReader]: the first record is the header, blank
    records are skipped. *)
Definition dict_reader (rs : list (list string)) : list (dict (option string)) :=
  match rs with
  | [] => []
  | fieldnames :: rows =>
      map (fun row => zip_row fieldnames row [])
          (filter (fun row => negb (is_nil row)) rows)
  end.

(** [existing_results], as the list of its items in reading order.
    Only its keys are used, as a set. *)
Fixpoint index_rows (rows : list (dict (option string)))
  : result (list (option string * dict (option string))) :=
  match rows with
  | [] => Ok []
  | row :: rest =>
      k <- dict_item row "Filename" ;;
      items <- index_rows rest ;;
      Ok ((k, row) :: items)
  end.

Definition load_existing_results (output_file : csv_file)
  : result (list (option string * dict (option string))) :=
  match output_file with
  | Some rs => index_rows (dict_reader rs)
  | None => Ok []
  end.

(** [filename in processed_files] *)
Definition in_set (filename : string) (processed_files : list (option string))
  : bool :=
  existsb (fun k => match k with
                    | Some name => String.eqb name filename
                    | None => false
                    end) processed_files.

(** ** The orchestrator *)

(** What a run reads and writes: the listing of the content directory
    in the order [os.listdir] gives it, each name with the lines of the
    file, and the two csv files. *)
Record world : Type := {
  content : list (string * list string);
  weights_file : list (list string);
  output_file : csv_file
}.

Section Orchestrator.

(** The text of a float: its [repr], and its [:.2f] format. *)
Variable float_repr : Py.float -> string.
Variable format_2f : Py.float -> string.

(** The two f-strings of [calculate_score]. *)
Definition entry_text (e : entry) : string :=
  match e with
  | Interpolated metric metric_value interpolated_bonus =>
      metric ++ ": " ++ float_repr metric_value
        ++ ", Bonus: " ++ format_2f interpolated_bonus ++ ")"
  | TopTier metric metric_value target bonus =>
      metric ++ ": " ++ float_repr metric_value
        ++ " (Tier: " ++ metric ++ ":" ++ float_repr target ++ ":"
        ++ float_repr bonus ++ ", Bonus: " ++ float_repr bonus ++ ")"
  end.

(** [str(v)], the text the csv writer puts in a cell. *)
Definition str (v : value) : string :=
  match v with
  | VBool b => if b then "True" else "False"
  | VInt n => NilZero.string_of_int (Z.to_int n)
  | VFloat f => float_repr f
  | VStr s => s
  end.

(** The body of the loop over the directory, for a file to score. *)
Definition process_file (weights : dict (list tier)) (filename : string)
  (lines : list string) : result (dict value) :=
  data <- Parser.parse lines ;;
  '(score, score_breakdown) <- calculate_score data weights ;;
  let data := dict_set data "Score" (VFloat score) in
  let data := dict_set data "Log"
                (VStr (Py.join "; " (map entry_text score_breakdown))) in
  let data := dict_set data "Filename" (VStr filename) in
  Ok data.

Fixpoint process_files (weights : dict (list tier))
  (processed_files : list (option string))
  (files : list (string * list string)) (results : list (dict value))
  : result (list (dict value)) :=
  match files with
  | [] => Ok results
  | (filename, lines) :: rest =>
      if (Py.endswith filename ".md" && negb (in_set filename processed_files))%bool
      then
        data <- process_file weights filename lines ;;
        process_files weights processed_files rest (results ++ [data])%list
      else process_files weights processed_files rest results
  end.

(** The cells of one row under [fieldnames]; a missing field is left
    empty. *)
Definition row_cells (fieldnames : list string) (row : dict value)
  : list string :=
  map (fun k => match dict_get row k with
                | Some v => str v
                | None => ""
                end) fieldnames.

(** [DictWriter._dict_to_list]: a field outside [fieldnames] is an
    error. *)
Definition dict_to_list (fieldnames : list string) (row : dict value)
  : result (list string) :=
  if forallb (fun k => existsb (String.eqb k) fieldnames) (dict_keys row)
  then Ok (row_cells fieldnames row)
  else Raise ValueError.

(** [writer.writerows(results)]: each row is written before the next
    one is converted, so the rows before a failing one stay written. *)
Fixpoint writerows (fieldnames : list string) (results : list (dict value))
  (file : list (list string)) : list (list string) * result unit :=
  match results with
  | [] => (file, Ok tt)
  | row :: rest =>
      match dict_to_list fieldnames row with
      | Ok cells => writerows fieldnames rest (file ++ [cells])%list
      | Raise e => (file, Raise e)
      end
  end.

(** The [if results:] block: the file is opened for appending, the
    header is written when no file was processed before. *)
Definition append_results (processed_files : list (option string))
  (results : list (dict value)) (output : csv_file)
  : csv_file * result unit :=
  match results with
  | [] => (output, Ok tt)
  | first :: _ =>
      let fieldnames := dict_keys first in
      let file := records output in
      let file := if is_nil processed_files
                  then (file ++ [fieldnames])%list else file in
      let '(file, r) := writerows fieldnames results file in
      (Some file, r)
  end.

(** One run.  The result is the world the run leaves and the records
    it scored, which are also what it prints. *)
Definition main (w : world) : world * result (list (dict value)) :=
  let scored :=
    weights <- load_weights (weights_file w) ;;
    existing_results <- load_existing_results (output_file w) ;;
    let processed_files := map fst existing_results in
    results <- process_files weights processed_files (content w) [] ;;
    Ok (processed_files, results) in
  match scored with
  | Ok (processed_files, results) =>
      let '(output, r) := append_results processed_files results (output_file w) in
      ({| content := content w;
          weights_file := weights_file w;
          output_file := output |},
       _ <- r ;; Ok results)
  | Raise e => (w, Raise e)
  end.

End Orchestrator.

(** ** The result store as text *)

(** The orchestrator once more, with the output table as the text of
    its file instead of the records read from it.  Opening the file for
    appending adds text at its end, wherever its last line stops. *)
Module Bytes.

Record world : Type := {
  content : list (string * list string);
  weights_file : list (list string);
  output_file : option string
}.

Section Run.

Variable float_repr : Py.float -> string.
Variable format_2f : Py.float -> string.

(** The module [csv] of the interpreter: the records [csv.reader] reads
    from a text before it stops, with the error that stops it when one
    does, and the text [csv.writer] writes for one record, its line
    terminator included. *)
Variable csv_reader : string -> list (list string) * option exn.
Variable csv_writerow : list string -> string.

(** The rows are indexed as they are read: a row without the column
    [Filename] raises before an error of the reader further down. *)
Definition load_existing_results (output_file : option string)
  : result (list (option string * dict (option string))) :=
  match output_file with
  | Some text =>
      let '(rs, stop) := csv_reader text in
      existing_results <- index_rows (dict_reader rs) ;;
      match stop with
      | Some e => Raise e
      | None => Ok existing_results
      end
  | None => Ok []
  end.

Fixpoint writerows (fieldnames : list string) (results : list (dict value))
  (text : string) : string * result unit :=
  match results with
  | [] => (text, Ok tt)
  | row :: rest =>
      match dict_to_list float_repr fieldnames row with
      | Ok cells => writerows fieldnames rest (text ++ csv_writerow cells)
      | Raise e => (text, Raise e)
      end
  end.

(** The [if results:] block.  Mode ['a'] creates a file that does not
    exist and writes after the last character of one that does. *)
Definition append_results (processed_files : list (option string))
  (results : list (dict value)) (output : option string)
  : option string * result unit :=
  match results with
  | [] => (output, Ok tt)
  | first :: _ =>
      let fieldnames := dict_keys first in
      let text := match output with Some t => t | None => "" end in
      let text := if is_nil processed_files
                  then text ++ csv_writerow fieldnames else text in
      let '(text, r) := writerows fieldnames results text in
      (Some text, r)
  end.

Definition main (w : world) : world * result (list (dict value)) :=
  let scored :=
    weights <- load_weights (weights_file w) ;;
    existing_results <- load_existing_results (output_file w) ;;
    let processed_files := map fst existing_results in
    results <- process_files float_repr format_2f
                 weights processed_files (content w) [] ;;
    Ok (processed_files, results) in
  match scored with
  | Ok (processed_files, results) =>
      let '(output, r) := append_results processed_files results (output_file w) in
      ({| content := content w;
          weights_file := weights_file w;
          output_file := output |},
       _ <- r ;; Ok results)
  | Raise e => (w, Raise e)
  end.

End Run.

End Bytes.


(** ** Inputs named in the properties *)

(** The tiers [(0,0),(10,5),(20,10)]. *)
Definition example_tiers : list tier :=
  [(Py.lit 0, Py.lit 0); (Py.lit 10, Py.lit 5); (Py.lit 20, Py.lit 10)].

(** The tiers [(10,5),(10,8)], with one target for both. *)
Definition equal_target_tiers : list tier :=
  [(Py.lit 10, Py.lit 5); (Py.lit 10, Py.lit 8)].

(** [c in s] *)
Fixpoint has_char (c : ascii) (s : string) : bool :=
  match s with
  | String a r => (Ascii.eqb a c || has_char c r)%bool
  | EmptyString => false
  end.

(** A line that the pattern [^([^:]+): (.+)$] matches, with the text of
    its two groups: a key without colon, a colon and a space, a value
    without newline, and at most a final newline. *)
Inductive matches_pattern : string -> string -> string -> Prop :=
| Matches (k v tl : string) :
    k <> "" -> has_char ":" k = false ->
    v <> "" -> has_char Parser.newline v = false ->
    tl = "" \/ tl = String Parser.newline "" ->
    matches_pattern (k ++ ": " ++ v ++ tl) k v.

(** The special keys and the key each one derives. *)
Definition derived_of (key : string) : option string :=
  if String.eqb key "Headshot" then Some "Headshot %"
  else if String.eqb key "Score" then Some "Round Differential"
  else None.

(** The keys that the parser computes rather than copies. *)
Definition derived_names : list string :=
  ["Headshot %"; "Round Differential"; "Length"; "Damage Ratio"].

(** No line of [lines] has the key [k]. *)
Definition no_line_with (k : string) (lines : list string) : Prop :=
  forall line v, In line lines -> Parser.parse_line line <> Some (k, v).

(** The parser binds [k] to the typed value of the first line that has
    the key [k]. *)
Definition binds_first_line (k : string) : Prop :=
  forall (pre post : list string) (line : string) (v : value) (data : dict value),
    no_line_with k pre ->
    Parser.parse_line line = Some (k, v) ->
    Parser.parse (pre ++ line :: post) = Ok data ->
    dict_get data k = Some v.

(** A line with the key [k] leaves a binding that [k] already has. *)
Definition later_lines_keep (k : string) : Prop :=
  forall (data data' : dict value) (line : string) (v : value),
    Parser.parse_line line = Some (k, v) ->
    dict_contains data k = true ->
    Parser.parse_step data line = Ok data' ->
    dict_get data' k = dict_get data k.

(** A later line with a special key leaves the derived key as it was. *)
Definition raw_key_keeps_derived : Prop :=
  forall (data data' : dict value) (line raw dk : string) (v : value),
    derived_of raw = Some dk ->
    Parser.parse_line line = Some (raw, v) ->
    dict_contains data dk = true ->
    Parser.parse_step data line = Ok data' ->
    dict_get data' dk = dict_get data dk.

(** The text group 1 of the percentage pattern can hold: digits, or
    digits, a point and digits. *)
Definition percent_text (g : string) : Prop :=
  exists d1 d2,
    d1 <> "" /\ Py.all_chars Py.is_digit d1 = true
    /\ Py.all_chars Py.is_digit d2 = true
    /\ (g = d1 \/ (d2 <> "" /\ g = d1 ++ "." ++ d2)).

(** The prerequisites of [Length]: both times present and accepted by
    [int], or one of them missing. *)
Definition length_ready (data : dict value) (start_time end_time : Z) : Prop :=
  exists s e,
    dict_get data "Start Time (UNIX)" = Some s
    /\ dict_get data "End Time (UNIX)" = Some e
    /\ to_int e = Ok end_time /\ to_int s = Ok start_time.

Definition length_missing (data : dict value) : Prop :=
  dict_get data "Start Time (UNIX)" = None
  \/ dict_get data "End Time (UNIX)" = None.

(** The prerequisites of [Damage Ratio]: both damages present, the
    received one not zero and the quotient [q] defined; or one of them
    missing, or the received one zero. *)
Definition ratio_ready (data : dict value) (q : value) : Prop :=
  exists m r,
    dict_get data "Damage Made" = Some m
    /\ dict_get data "Damage Received" = Some r
    /\ ne_zero r = true /\ truediv m r = Ok q.

Definition ratio_missing (data : dict value) : Prop :=
  dict_get data "Damage Made" = None
  \/ dict_get data "Damage Received" = None
  \/ exists r, dict_get data "Damage Received" = Some r /\ ne_zero r = false.

(** The data rows a [DictReader] sees in a file: the records after the
    header that are not blank. *)
Definition data_rows (f : csv_file) : list (list string) :=
  filter (fun row => negb (is_nil row)) (tl (records f)).

(** What a successful run writes: the header when no file was processed
    before, then one row per result under the field names of the first
    result. *)
Definition rows_written (float_repr : Py.float -> string)
  (no_prior : bool) (results : list (dict value)) : list (list string) :=
  match results with
  | [] => []
  | first :: _ =>
      ((if no_prior then [dict_keys first] else [])
         ++ map (row_cells float_repr (dict_keys first)) results)%list
  end.

(** The text of a file; a file that does not exist has none. *)
Definition text_of (f : option string) : string :=
  match f with
  | Some text => text
  | None => ""
  end.

(** The records the reader finds in a file. *)
Definition records_read (csv_reader : string -> list (list string) * option exn)
  (f : option string) : csv_file :=
  match f with
  | Some text => Some (fst (csv_reader text))
  | None => None
  end.

(** The text of some records, as the writer writes them one after the
    other. *)
Definition lines_of (csv_writerow : list string -> string)
  (rows : list (list string)) : string :=
  fold_right String.append "" (map csv_writerow rows).

(** A weight file with one tier, a match file, and a second match file
    with one more field. *)
Definition kills_weights : list (list string) :=
  [["metric"; "target"; "bonus"]; ["Kills"; "20"; "5"]].

Definition file_a : string * list string := ("a.md", ["Kills: 10"]).
Definition file_b : string * list string := ("b.md", ["Kills: 10"; "Deaths: 5"]).

(** The world before the first run: one match file, no output table. *)
Definition first_world : world :=
  {| content := [file_a]; weights_file := kills_weights; output_file := None |}.

(** The second match file arrives in the content directory. *)
Definition arrive (w : world) : world :=
  {| content := [file_a; file_b];
     weights_file := weights_file w;
     output_file := output_file w |}.

(** The file names of the records a run scored. *)
Definition scored_names (r : result (list (dict value))) : list (option value) :=
  match r with
  | Ok results => map (fun data => dict_get data "Filename") results
  | Raise _ => []
  end.

(** The rows of a table written for the file [name]: those whose last
    cell is [name]. *)
Definition rows_for (name : string) (f : csv_file) : list (list string) :=
  filter (fun row => String.eqb (last row "") name) (records f).

(** A character of a plain decimal: a digit or the point. *)
Definition plain_char (c : ascii) : bool :=
  (Py.is_digit c || Ascii.eqb c ".")%bool.

(** A fact about every character, proved on each of the 256. *)
Ltac by_cases_on_char c :=
  destruct c as [[] [] [] [] [] [] [] []]; vm_compute; intros;
  try discriminate; repeat split; try reflexivity.

(** ** Vocabulary of the further properties *)

(** The metric a breakdown entry is about. *)
Definition entry_metric (e : entry) : string :=
  match e with
  | Interpolated metric _ _ => metric
  | TopTier metric _ _ _ => metric
  end.

(** [l] is [m] with some of its elements left out, the others in the
    order and number they have in [m]. *)
Inductive sublist {A : Type} : list A -> list A -> Prop :=
| sublist_nil : sublist [] []
| sublist_skip (x : A) (l m : list A) : sublist l m -> sublist l (x :: m)
| sublist_keep (x : A) (l m : list A) : sublist l m -> sublist (x :: l) (x :: m).

(** The targets of a list of tiers are in non-decreasing order. *)
Fixpoint ascending (l : list tier) : Prop :=
  match l with
  | [] => True
  | t :: r =>
      match r with
      | [] => True
      | u :: _ => Py.fle (fst t) (fst u) = true
      end /\ ascending r
  end.

(** What one row of the weight file holds, when it is well formed:
    three cells, the last two numbers. *)
Definition row_tier (row : list string) : option (string * tier) :=
  match row with
  | [metric; target; bonus] =>
      match Py.float_of_string target, Py.float_of_string bonus with
      | Some t, Some b => Some (metric, (t, b))
      | _, _ => None
      end
  | _ => None
  end.

(** The tiers the rows give for one metric, in the order of the rows. *)
Fixpoint tiers_for (metric : string) (rows : list (list string)) : list tier :=
  match rows with
  | [] => []
  | row :: rest =>
      match row_tier row with
      | Some (m, t) =>
          if String.eqb m metric then t :: tiers_for metric rest
          else tiers_for metric rest
      | None => tiers_for metric rest
      end
  end.

(** The tiers a weight table holds for a metric, none when it is not a
    key. *)
Definition tiers_in (weights : dict (list tier)) (metric : string) : list tier :=
  match dict_get weights metric with
  | Some ts => ts
  | None => []
  end.

(** The names a run is to score: the [.md] files outside the skip-set,
    in the order of the listing. *)
Definition to_score (processed_files : list (option string))
  (files : list (string * list string)) : list string :=
  filter (fun name => (Py.endswith name ".md"
                       && negb (in_set name processed_files))%bool)
         (map fst files).

(** A stand-in for the text of a float, to run examples with. *)
Definition sample_repr (f : Py.float) : string := "0.0".

(** The table keeps its keys distinct and gives no key an empty list. *)
Definition well_grouped (weights : dict (list tier)) : Prop :=
  NoDup (dict_keys weights)
  /\ forall m, In m (dict_keys weights) <-> tiers_in weights m <> [].

(** A character of a score text: a digit or the dash. *)
Definition score_char (c : ascii) : bool :=
  (Py.is_digit c || Ascii.eqb c "-")%bool.

(** A run of decimal digits, at least one. *)
Definition digits (s : string) : Prop :=
  s <> "" /\ Py.all_chars Py.is_digit s = true.

(** The field names of a record are distinct and none is empty. *)
Definition good_keys (data : dict value) : Prop :=
  NoDup (dict_keys data) /\ ~ In "" (dict_keys data).

(** * Properties *)

(** ** Checks of the runtime model

    The decimal reader against the literals of the proof assistant, and
    a few values of the other primitives. *)

Example float_of_string_checks :
  Py.float_of_string "37.5" = Some (Py.lit 37.5)
  /\ Py.float_of_string "0.1" = Some (Py.lit 0x1.999999999999ap-4)
  /\ Py.float_of_string " -1e23 " = Some (Py.lit (-0x1.52d02c7e14af6p+76))
  /\ Py.float_of_string "5e-324" = Some (Py.lit 0x0.0000000000001p-1022)
  /\ Py.float_of_string "9007199254740993" = Some (Py.lit 9007199254740992)
  /\ Py.float_of_string "1_000.5" = Some (Py.lit 1000.5)
  /\ Py.float_of_string "1e400" = Some (S754_infinity false)
  /\ Py.float_of_string "-INF" = Some (S754_infinity true)
  /\ Py.float_of_string "13-7" = None
  /\ Py.float_of_string "1_" = None
  /\ Py.float_of_string "." = None
  /\ Py.float_of_string "" = None.
Proof. vm_compute. repeat split; reflexivity. Qed.

Example round2_checks :
  Py.round2 (Py.lit 0.125) = Py.lit 0x1.eb851eb851eb8p-4
  /\ Py.round2 (Py.lit 0.375) = Py.lit 0x1.851eb851eb852p-2
  /\ Py.round2 (Py.lit 7.5) = Py.lit 7.5
  /\ Py.round2 (Py.lit (-0.0009765625)) = Py.lit (-0.0)
  /\ Py.fadd (Py.lit 0x1.999999999999ap-4) (Py.lit 0x1.999999999999ap-3)
     = Py.lit 0x1.3333333333334p-2.
Proof. vm_compute. repeat split; reflexivity. Qed.

Example text_checks :
  Py.int_of_string " -1_000 " = Some (-1000)
  /\ Py.int_of_string "1.5" = None
  /\ Py.int_of_float (Py.lit (-1500.5)) = Ok (-1500)
  /\ Py.split "-" "13-7" = ["13"; "7"]
  /\ Py.split "-" "-5-3" = [""; "5"; "3"]
  /\ Py.strip "  a b  " = "a b"
  /\ Py.endswith "a.md" ".md" = true
  /\ Py.endswith "a.mdx" ".md" = false
  /\ Py.join "; " ["a"; "b"; "c"] = "a; b; c".
Proof. vm_compute. repeat split; reflexivity. Qed.

(** The separators 28 to 31 are white space for [str.strip] and not for
    the readers of numbers, which drop NEL and the no-break space with
    the ASCII blanks. *)
Example separator_checks :
  Py.strip (String (ascii_of_nat 28) "5") = "5"
  /\ Py.float_of_string (String (ascii_of_nat 28) "5") = None
  /\ Py.int_of_string (String (ascii_of_nat 31) "5") = None
  /\ Py.float_of_string (String (ascii_of_nat 160) "5 ") = Some (Py.lit 5)
  /\ Py.int_of_string (String (ascii_of_nat 133) " 5") = Some 5
  /\ row_tier ["Kills"; String (ascii_of_nat 28) "5"; "1"] = None.
Proof. vm_compute. repeat split; reflexivity. Qed.

Example parse_check :
  Parser.parse
    ["Kills: 10"; "# a comment"; "Headshot: 12 (37.5%)"; "Score: 13-7";
     "Won: True"; "Map: Ascent"]
  = Ok [("Kills", VFloat (Py.lit 10)); ("Headshot %", VFloat (Py.lit 37.5));
        ("Headshot", VStr "12 (37.5%)"); ("Round Differential", VInt 6);
        ("Score", VStr "13-7"); ("Won", VBool true); ("Map", VStr "Ascent")].
Proof. vm_compute. reflexivity. Qed.

(** ** Dictionaries *)

Section DictFacts.

Context {V : Type}.
Implicit Types (d : dict V) (k : string) (v : V).

Lemma dict_get_set_same d k v : dict_get (dict_set d k v) k = Some v.
Proof.
  induction d as [|[k' v'] r IH]; simpl.
  - now rewrite String.eqb_refl.
  - destruct (String.eqb k' k) eqn:E; simpl; rewrite E; auto.
Qed.

Lemma dict_get_set_other d k k' v :
  k <> k' -> dict_get (dict_set d k v) k' = dict_get d k'.
Proof.
  intros Hne.
  induction d as [|[k0 v0] r IH]; simpl.
  - destruct (String.eqb k k') eqn:E; auto.
    apply String.eqb_eq in E. contradiction.
  - destruct (String.eqb k0 k) eqn:E; simpl.
    + apply String.eqb_eq in E. subst k0.
      destruct (String.eqb k k') eqn:E'; auto.
      apply String.eqb_eq in E'. contradiction.
    + now rewrite IH.
Qed.

Lemma dict_contains_set_same d k v : dict_contains (dict_set d k v) k = true.
Proof. unfold dict_contains. now rewrite dict_get_set_same. Qed.

Lemma dict_contains_set_other d k k' v :
  k <> k' -> dict_contains (dict_set d k v) k' = dict_contains d k'.
Proof. intros. unfold dict_contains. now rewrite dict_get_set_other. Qed.

Lemma dict_get_None_keys d k : dict_get d k = None <-> ~ In k (dict_keys d).
Proof.
  induction d as [|[k' v'] r IH]; simpl.
  - tauto.
  - destruct (String.eqb k' k) eqn:E.
    + apply String.eqb_eq in E. split; [discriminate | tauto].
    + apply String.eqb_neq in E. rewrite IH. tauto.
Qed.

End DictFacts.

(** ** Comparisons of floats *)

Lemma flt_zero_not_fge (t : Py.float) :
  Py.flt Py.fzero t = true -> Py.fge Py.fzero t = false.
Proof.
  unfold Py.flt, Py.fge, Py.fzero, SFltb, SFleb.
  destruct t as [s|s| |s m e]; try destruct s; simpl; congruence.
Qed.

Lemma feq_refl_compare (t : Py.float) :
  Py.feq t t = true -> SFcompare t t = Some Eq.
Proof.
  unfold Py.feq, SFeqb.
  destruct (SFcompare t t) as [[]|]; congruence.
Qed.

Lemma feq_refl_fge (t : Py.float) : Py.feq t t = true -> Py.fge t t = true.
Proof. intros H. unfold Py.fge, SFleb. now rewrite feq_refl_compare. Qed.

Lemma feq_refl_flt (t : Py.float) : Py.feq t t = true -> Py.flt t t = false.
Proof. intros H. unfold Py.flt, SFltb. now rewrite feq_refl_compare. Qed.

(** ** The scorer *)

Lemma insert_tier_In (t u : tier) (l : list tier) :
  In u (insert_tier t l) -> u = t \/ In u l.
Proof.
  induction l as [|h r IH]; simpl.
  - intuition.
  - destruct (Py.flt (fst t) (fst h)); simpl; intuition.
Qed.

Lemma fold_insert_In (tiers acc : list tier) (u : tier) :
  In u (fold_left (fun acc t => insert_tier t acc) tiers acc) ->
  In u tiers \/ In u acc.
Proof.
  revert acc. induction tiers as [|t r IH]; simpl; intros acc H.
  - auto.
  - apply IH in H. destruct H as [H|H]; auto.
    apply insert_tier_In in H. intuition.
Qed.

Lemma sorted_In (tiers : list tier) (u : tier) : In u (sorted tiers) -> In u tiers.
Proof.
  intros H. apply fold_insert_In in H. destruct H as [H|[]]. exact H.
Qed.

(** A metric the record gives no value for is read as the int [0]. *)
Lemma get_metric_absent (data : dict value) (metric : string) :
  dict_get data metric = None -> get_metric data metric = VInt 0.
Proof. unfold get_metric. now intros ->. Qed.

(** Two records that agree on the metrics of a weight table score the
    same. *)
Lemma score_metrics_ext (data data' : dict value) (weights : dict (list tier)) :
  (forall metric, In metric (dict_keys weights) ->
                  to_float (get_metric data metric)
                  = to_float (get_metric data' metric)) ->
  forall acc, score_metrics data weights acc = score_metrics data' weights acc.
Proof.
  induction weights as [|[metric tiers] rest IH]; intros Hagree acc; simpl.
  - reflexivity.
  - rewrite (Hagree metric) by (simpl; auto).
    destruct (to_float (get_metric data' metric)) as [mv|e]; simpl; auto.
    destruct (scan_tiers metric mv 0 (sorted tiers) acc) as [acc'|e]; simpl; auto.
    apply IH. intros k Hk. apply Hagree. simpl. auto.
Qed.

Lemma calculate_score_ext (data data' : dict value) (weights : dict (list tier)) :
  (forall metric, In metric (dict_keys weights) ->
                  to_float (get_metric data metric)
                  = to_float (get_metric data' metric)) ->
  calculate_score data weights = calculate_score data' weights.
Proof.
  intros H. unfold calculate_score. now rewrite (score_metrics_ext _ _ _ H).
Qed.

(** Scanning from a first tier whose target is above the value stops at
    once and changes nothing. *)
Lemma scan_below_first (metric : string) (tiers : list tier) (acc : tally) :
  Forall (fun t => Py.flt Py.fzero (fst t) = true) tiers ->
  scan_tiers metric Py.fzero 0 (sorted tiers) acc = Ok acc.
Proof.
  intros Hpos.
  destruct (sorted tiers) as [|[target bonus] rest] eqn:E; simpl.
  - reflexivity.
  - destruct acc as [score bd].
    assert (Hin : In (target, bonus) tiers).
    { apply sorted_In. rewrite E. simpl. auto. }
    rewrite Forall_forall in Hpos. specialize (Hpos _ Hin). simpl in Hpos.
    rewrite (flt_zero_not_fge _ Hpos), Hpos. reflexivity.
Qed.

(** What one metric adds to the tally, when the record holds the float
    [v] for it. *)
Lemma score_metric_float (data : dict value) (metric : string) (v : Py.float)
  (tiers : list tier) (acc : tally) :
  dict_get data metric = Some (VFloat v) ->
  score_metric data acc (metric, tiers)
  = scan_tiers metric v 0 (sorted tiers) acc.
Proof. intros H. unfold score_metric, get_metric. now rewrite H. Qed.

Lemma calculate_score_single (data : dict value) (metric : string)
  (tiers : list tier) :
  calculate_score data [(metric, tiers)]
  = ('(score, bd) <- score_metric data (Py.fzero, []) (metric, tiers) ;;
     Ok (Py.round2 score, bd)).
Proof.
  unfold calculate_score. cbn [score_metrics].
  destruct (score_metric data (Py.fzero, []) (metric, tiers)); reflexivity.
Qed.

(** C1. With the tiers [(0,0),(10,5),(20,10)] for a metric, a record
    value of 5 is awarded the bonus 2.5 and a value of 15 the bonus 7.5,
    both by interpolation; a value of 25 is awarded the flat bonus 10 of
    the top tier; a value of -1 is awarded nothing and gets no breakdown
    entry.  Each bonus is what the metric adds to the running score, and
    the total when the table holds this metric alone. *)
Theorem interpolation_examples (metric : string) (data : dict value) :
  (dict_get data metric = Some (VFloat (Py.lit 5)) ->
   (forall score bd,
      score_metric data (score, bd) (metric, example_tiers)
      = Ok (Py.fadd score (Py.lit 2.5),
            (bd ++ [Interpolated metric (Py.lit 5) (Py.lit 2.5)])%list)) /\
   calculate_score data [(metric, example_tiers)]
   = Ok (Py.lit 2.5, [Interpolated metric (Py.lit 5) (Py.lit 2.5)])) /\
  (dict_get data metric = Some (VFloat (Py.lit 15)) ->
   (forall score bd,
      score_metric data (score, bd) (metric, example_tiers)
      = Ok (Py.fadd score (Py.lit 7.5),
            (bd ++ [Interpolated metric (Py.lit 15) (Py.lit 7.5)])%list)) /\
   calculate_score data [(metric, example_tiers)]
   = Ok (Py.lit 7.5, [Interpolated metric (Py.lit 15) (Py.lit 7.5)])) /\
  (dict_get data metric = Some (VFloat (Py.lit 25)) ->
   (forall score bd,
      score_metric data (score, bd) (metric, example_tiers)
      = Ok (Py.fadd score (Py.lit 10),
            (bd ++ [TopTier metric (Py.lit 25) (Py.lit 20) (Py.lit 10)])%list)) /\
   calculate_score data [(metric, example_tiers)]
   = Ok (Py.lit 10, [TopTier metric (Py.lit 25) (Py.lit 20) (Py.lit 10)])) /\
  (dict_get data metric = Some (VFloat (Py.lit (-1))) ->
   (forall score bd,
      score_metric data (score, bd) (metric, example_tiers) = Ok (score, bd)) /\
   calculate_score data [(metric, example_tiers)] = Ok (Py.lit 0, [])).
Proof.
  repeat split; intros;
    rewrite ?calculate_score_single;
    rewrite (score_metric_float _ _ _ _ _ H);
    vm_compute; reflexivity.
Qed.

Lemma interpolation_examples_witness :
  calculate_score [("Kills", VFloat (Py.lit 5))] [("Kills", example_tiers)]
  = Ok (Py.lit 2.5, [Interpolated "Kills" (Py.lit 5) (Py.lit 2.5)])
  /\ calculate_score [("Kills", VFloat (Py.lit 15))] [("Kills", example_tiers)]
     = Ok (Py.lit 7.5, [Interpolated "Kills" (Py.lit 15) (Py.lit 7.5)])
  /\ calculate_score [("Kills", VFloat (Py.lit 25))] [("Kills", example_tiers)]
     = Ok (Py.lit 10, [TopTier "Kills" (Py.lit 25) (Py.lit 20) (Py.lit 10)])
  /\ calculate_score [("Kills", VFloat (Py.lit (-1)))] [("Kills", example_tiers)]
     = Ok (Py.lit 0, []).
Proof.
  split; [|split; [|split]].
  - apply (proj1 (interpolation_examples "Kills" _)). reflexivity.
  - apply (proj1 (proj2 (interpolation_examples "Kills" _))). reflexivity.
  - apply (proj1 (proj2 (proj2 (interpolation_examples "Kills" _)))). reflexivity.
  - apply (proj2 (proj2 (proj2 (interpolation_examples "Kills" _)))). reflexivity.
Defined.

(** Two tiers with one target [t] stay in the order they were given. *)
Lemma sorted_equal_targets (t b1 b2 : Py.float) :
  Py.feq t t = true -> sorted [(t, b1); (t, b2)] = [(t, b1); (t, b2)].
Proof.
  intros H. unfold sorted. simpl. now rewrite (feq_refl_flt _ H).
Qed.

(** C2, as the code has it.  Between two tiers with the same target the
    interpolation returns the lower bonus and divides nothing, whatever
    the value.  The scorer never asks for that interpolation: a value
    equal to the shared target is not below the next target, so the scan
    moves on and awards the flat bonus of the second tier, 8 for the
    tiers [(10,5),(10,8)], without any error. *)
Theorem equal_targets_award_last_tier
  (metric : string) (data : dict value) (t b1 b2 : Py.float) :
  Py.feq t t = true ->
  dict_get data metric = Some (VFloat t) ->
  (forall value, calculate_interpolated_bonus value t t b1 b2 = Ok b1) /\
  (forall score bd,
     score_metric data (score, bd) (metric, [(t, b1); (t, b2)])
     = Ok (Py.fadd score b2, (bd ++ [TopTier metric t t b2])%list)) /\
  calculate_score data [(metric, [(t, b1); (t, b2)])]
  = Ok (Py.round2 (Py.fadd Py.fzero b2), [TopTier metric t t b2]).
Proof.
  intros Ht Hget.
  assert (Hscan : forall acc,
             score_metric data acc (metric, [(t, b1); (t, b2)])
             = Ok (Py.fadd (fst acc) b2,
                   (snd acc ++ [TopTier metric t t b2])%list)).
  { intros [score bd].
    rewrite (score_metric_float _ _ _ _ _ Hget), (sorted_equal_targets _ _ _ Ht).
    cbn [scan_tiers fst snd].
    rewrite (feq_refl_fge _ Ht), (feq_refl_flt _ Ht). reflexivity. }
  split; [|split].
  - intros value. unfold calculate_interpolated_bonus. now rewrite Ht.
  - intros score bd. apply (Hscan (score, bd)).
  - rewrite calculate_score_single, Hscan. reflexivity.
Qed.

Lemma equal_targets_award_last_tier_witness :
  calculate_interpolated_bonus (Py.lit 10) (Py.lit 10) (Py.lit 10)
    (Py.lit 5) (Py.lit 8) = Ok (Py.lit 5)
  /\ calculate_score [("Kills", VFloat (Py.lit 10))] [("Kills", equal_target_tiers)]
     = Ok (Py.lit 8, [TopTier "Kills" (Py.lit 10) (Py.lit 10) (Py.lit 8)]).
Proof.
  pose proof (equal_targets_award_last_tier "Kills"
                [("Kills", VFloat (Py.lit 10))] (Py.lit 10) (Py.lit 5) (Py.lit 8)
                eq_refl eq_refl) as [Hi [_ Hs]].
  split.
  - apply Hi.
  - exact Hs.
Defined.

(** C2, as the claim has it, fails: the record value 10 under the tiers
    [(10,5),(10,8)] is not awarded the lower bonus 5. *)
Lemma equal_targets_not_lower_bonus :
  ~ (exists bd,
       calculate_score [("Kills", VFloat (Py.lit 10))]
         [("Kills", equal_target_tiers)]
       = Ok (Py.lit 5, bd)).
Proof. intros [bd H]. vm_compute in H. discriminate H. Qed.

(** C3. A metric of the weight table that the record does not hold is
    scored as if the record held 0 for it, and when all its targets are
    positive it leaves the running score and the breakdown as they were,
    so the score is the one of the table without that metric.  A field
    of the record that the weight table does not list changes nothing,
    whatever its value. *)
Theorem absent_fields_do_not_score (data : dict value) (weights : dict (list tier)) :
  (forall metric,
     dict_get data metric = None ->
     calculate_score data weights
     = calculate_score (dict_set data metric (VInt 0)) weights
     /\ calculate_score data weights
        = calculate_score (dict_set data metric (VFloat Py.fzero)) weights) /\
  (forall metric tiers before after,
     dict_get data metric = None ->
     Forall (fun t => Py.flt Py.fzero (fst t) = true) tiers ->
     weights = (before ++ (metric, tiers) :: after)%list ->
     (forall acc, score_metric data acc (metric, tiers) = Ok acc)
     /\ calculate_score data weights = calculate_score data (before ++ after)%list) /\
  (forall field v,
     ~ In field (dict_keys weights) ->
     calculate_score (dict_set data field v) weights
     = calculate_score data weights).
Proof.
  split; [|split].
  - intros metric Habs.
    split; apply calculate_score_ext; intros k _;
      unfold get_metric;
      (destruct (String.eqb metric k) eqn:E;
       [ apply String.eqb_eq in E; subst k;
         rewrite dict_get_set_same, Habs; reflexivity
       | apply String.eqb_neq in E;
         rewrite (dict_get_set_other _ _ _ _ E); reflexivity ]).
  - intros metric tiers before after Habs Hpos ->.
    assert (Hskip : forall acc, score_metric data acc (metric, tiers) = Ok acc).
    { intros acc. unfold score_metric.
      rewrite (get_metric_absent _ _ Habs).
      change (to_float (VInt 0)) with (Ok Py.fzero). cbn [bind].
      now apply scan_below_first. }
    split; [exact Hskip|].
    unfold calculate_score. f_equal.
    generalize (Py.fzero, @nil entry).
    induction before as [|item rest IH]; intros acc; cbn [score_metrics app].
    + now rewrite Hskip.
    + destruct (score_metric data acc item); cbn [bind]; auto.
  - intros field v Hnot. apply calculate_score_ext. intros k Hk.
    unfold get_metric. rewrite dict_get_set_other; auto.
    intros ->. contradiction.
Qed.

Lemma absent_fields_do_not_score_witness :
  calculate_score [("Kills", VFloat (Py.lit 25))] [("Kills", example_tiers)]
  = calculate_score [("Kills", VFloat (Py.lit 25)); ("Deaths", VInt 0)]
      [("Kills", example_tiers)]
  /\ calculate_score [("Kills", VFloat (Py.lit 25))]
       [("Deaths", [(Py.lit 3, Py.lit 1)]); ("Kills", example_tiers)]
     = calculate_score [("Kills", VFloat (Py.lit 25))] [("Kills", example_tiers)]
  /\ calculate_score [("Kills", VFloat (Py.lit 25)); ("Map", VStr "Ascent")]
       [("Kills", example_tiers)]
     = calculate_score [("Kills", VFloat (Py.lit 25))] [("Kills", example_tiers)].
Proof.
  split; [|split].
  - apply (proj1 (proj1 (absent_fields_do_not_score
                           [("Kills", VFloat (Py.lit 25))]
                           [("Kills", example_tiers)]) "Deaths" eq_refl)).
  - refine (proj2 (proj1 (proj2 (absent_fields_do_not_score
                                   [("Kills", VFloat (Py.lit 25))]
                                   [("Deaths", [(Py.lit 3, Py.lit 1)]);
                                    ("Kills", example_tiers)]))
                    "Deaths" [(Py.lit 3, Py.lit 1)] [] [("Kills", example_tiers)]
                    _ _ _)).
    + reflexivity.
    + constructor; [reflexivity | constructor].
    + reflexivity.
  - apply (proj2 (proj2 (absent_fields_do_not_score
                           [("Kills", VFloat (Py.lit 25))]
                           [("Kills", example_tiers)])) "Map" (VStr "Ascent")).
    simpl. intros [H|[]]. discriminate H.
Defined.

(** ** Text *)

Lemma span_spec (p : ascii -> bool) (s a b : string) :
  Py.span p s = (a, b) ->
  s = a ++ b /\ Py.all_chars p a = true
  /\ match b with String c _ => p c = false | EmptyString => True end.
Proof.
  revert a b. induction s as [|c r IH]; simpl; intros a b H.
  - inversion H. subst. auto.
  - destruct (p c) eqn:Hc.
    + destruct (Py.span p r) as [a' b'] eqn:E. inversion H. subst.
      destruct (IH _ _ eq_refl) as [-> [Ha Hb]].
      simpl. rewrite Hc, Ha. auto.
    + inversion H. subst. simpl. auto.
Qed.

Lemma span_app (p : ascii -> bool) (a b : string) :
  Py.all_chars p a = true ->
  match b with String c _ => p c = false | EmptyString => True end ->
  Py.span p (a ++ b) = (a, b).
Proof.
  intros Ha Hb. induction a as [|c r IH]; simpl in *.
  - destruct b as [|c r]; simpl; [reflexivity | now rewrite Hb].
  - apply andb_true_iff in Ha. destruct Ha as [Hc Hr].
    now rewrite Hc, (IH Hr).
Qed.

Lemma is_empty_true (s : string) : Py.is_empty s = true <-> s = "".
Proof. destruct s; simpl; split; congruence. Qed.

Lemma is_empty_false (s : string) : Py.is_empty s = false <-> s <> "".
Proof. destruct s; simpl; split; congruence. Qed.

Lemma has_char_app (c : ascii) (a b : string) :
  has_char c (a ++ b) = (has_char c a || has_char c b)%bool.
Proof.
  induction a as [|x r IH]; simpl; auto.
  rewrite IH. now rewrite orb_assoc.
Qed.

Lemma all_chars_not_has (c : ascii) (s : string) :
  Py.all_chars (fun x => negb (Ascii.eqb x c)) s = negb (has_char c s).
Proof.
  induction s as [|x r IH]; simpl; auto.
  rewrite IH. now rewrite negb_orb.
Qed.

Lemma all_chars_impl (p q : ascii -> bool) (s : string) :
  (forall c, p c = true -> q c = true) ->
  Py.all_chars p s = true -> Py.all_chars q s = true.
Proof.
  intros Hpq. induction s as [|x r IH]; simpl; auto.
  rewrite !andb_true_iff. intros [Hx Hr]. auto.
Qed.

(** ** The line pattern *)

Lemma match_line_sound (line k v : string) :
  Parser.match_line line = Some (k, v) -> matches_pattern line k v.
Proof.
  unfold Parser.match_line.
  destruct (Py.span _ line) as [k0 r] eqn:Ek.
  destruct (Py.is_empty k0) eqn:Hk0; [discriminate|].
  destruct r as [|c1 r]; [discriminate|].
  destruct (Ascii.eqb c1 ":") eqn:Hc1;
    [apply Ascii.eqb_eq in Hc1; subst c1
    | apply Ascii.eqb_neq in Hc1;
      destruct c1 as [[] [] [] [] [] [] [] []]; try discriminate; congruence].
  destruct r as [|c2 r']; [discriminate|].
  destruct (Ascii.eqb c2 " ") eqn:Hc2;
    [apply Ascii.eqb_eq in Hc2; subst c2
    | apply Ascii.eqb_neq in Hc2;
      destruct c2 as [[] [] [] [] [] [] [] []]; try discriminate; congruence].
  destruct (Py.span _ r') as [v0 tl] eqn:Ev.
  destruct (Py.is_empty v0) eqn:Hv0; [discriminate|].
  apply span_spec in Ek. destruct Ek as [-> [Hk _]].
  apply span_spec in Ev. destruct Ev as [-> [Hv Htl]].
  rewrite all_chars_not_has in Hk, Hv.
  apply negb_true_iff in Hk, Hv.
  apply is_empty_false in Hk0, Hv0.
  intros H.
  assert (Hkv : k0 = k /\ v0 = v /\ (tl = "" \/ tl = String Parser.newline "")).
  { destruct tl as [|c [|c' tl']]; inversion H; subst; auto.
    repeat split; auto. right. f_equal.
    apply negb_false_iff in Htl. now apply Ascii.eqb_eq in Htl. }
  destruct Hkv as [<- [<- Htl']].
  change (k0 ++ String ":" (String " " (v0 ++ tl))) with (k0 ++ ": " ++ v0 ++ tl).
  now constructor.
Qed.

Lemma match_line_complete (line k v : string) :
  matches_pattern line k v -> Parser.match_line line = Some (k, v).
Proof.
  intros [k0 v0 tl Hk Hkc Hv Hvc Htl].
  unfold Parser.match_line.
  rewrite (span_app _ k0 (": " ++ v0 ++ tl)).
  - apply is_empty_false in Hk. rewrite Hk.
    change (": " ++ v0 ++ tl) with (String ":" (String " " (v0 ++ tl))).
    cbv iota beta.
    rewrite (span_app _ v0 tl).
    + apply is_empty_false in Hv. rewrite Hv.
      destruct Htl as [-> | ->]; reflexivity.
    + rewrite all_chars_not_has. now rewrite Hvc.
    + destruct Htl as [-> | ->]; simpl; auto.
  - rewrite all_chars_not_has. now rewrite Hkc.
  - reflexivity.
Qed.

Lemma parse_line_matches (line k v : string) :
  matches_pattern line k v ->
  Parser.parse_line line = Some (Py.strip k, Parser.parse_value (Py.strip v)).
Proof.
  intros H. unfold Parser.parse_line. now rewrite (match_line_complete _ _ _ H).
Qed.

Lemma parse_line_no_match (line : string) :
  (forall k v, ~ matches_pattern line k v) -> Parser.parse_line line = None.
Proof.
  intros H. unfold Parser.parse_line.
  destruct (Parser.match_line line) as [[k v]|] eqn:E; auto.
  apply match_line_sound in E. now apply H in E.
Qed.

(** ** The parser, line by line *)

Lemma derived_of_neq (key dk : string) : derived_of key = Some dk -> key <> dk.
Proof.
  unfold derived_of.
  destruct (String.eqb key "Headshot") eqn:E1.
  - apply String.eqb_eq in E1. subst. intros H. inversion H. discriminate.
  - destruct (String.eqb key "Score") eqn:E2; [|discriminate].
    apply String.eqb_eq in E2. subst. intros H. inversion H. discriminate.
Qed.

Lemma derived_of_names (key dk : string) :
  derived_of key = Some dk -> In dk derived_names.
Proof.
  unfold derived_of, derived_names.
  destruct (String.eqb key "Headshot"); [intros H; inversion H; simpl; auto|].
  destruct (String.eqb key "Score"); [intros H; inversion H; simpl; auto|].
  discriminate.
Qed.

(** The special-key step writes the derived key of [key] and nothing
    else. *)
Lemma parse_special_key_frame (data data' : dict value) (key k : string) (v : value) :
  Parser.parse_special_key data key v = Ok data' ->
  derived_of key <> Some k ->
  dict_get data' k = dict_get data k.
Proof.
  unfold Parser.parse_special_key, derived_of.
  destruct (String.eqb key "Headshot").
  - destruct v as [b|n|f|s]; try discriminate.
    destruct (Parser.search_percent s); [|discriminate].
    destruct (Py.float_of_string s0); [|discriminate].
    intros H Hk. inversion H. apply dict_get_set_other. congruence.
  - destruct (String.eqb key "Score").
    + destruct v as [b|n|f|s]; try discriminate.
      destruct (Py.split "-" s) as [|h [|a [|x l]]]; try discriminate.
      destruct (to_int (VStr h)); [|discriminate].
      destruct (to_int (VStr a)); [|discriminate].
      intros H Hk. inversion H. apply dict_get_set_other. congruence.
    + intros H _. now inversion H.
Qed.

(** When it returns, the derived key of a special key is bound. *)
Lemma parse_special_key_binds (data data' : dict value) (key dk : string) (v : value) :
  Parser.parse_special_key data key v = Ok data' ->
  derived_of key = Some dk ->
  dict_contains data' dk = true.
Proof.
  unfold Parser.parse_special_key, derived_of.
  destruct (String.eqb key "Headshot").
  - destruct v as [b|n|f|s]; try discriminate.
    destruct (Parser.search_percent s); [|discriminate].
    destruct (Py.float_of_string s0); [|discriminate].
    intros H Hk. inversion H. inversion Hk. apply dict_contains_set_same.
  - destruct (String.eqb key "Score"); [|discriminate].
    destruct v as [b|n|f|s]; try discriminate.
    destruct (Py.split "-" s) as [|h [|a [|x l]]]; try discriminate.
    destruct (to_int (VStr h)); [|discriminate].
    destruct (to_int (VStr a)); [|discriminate].
    intros H Hk. inversion H. inversion Hk. apply dict_contains_set_same.
Qed.

(** The derived value comes from the line alone, not from the record
    so far. *)
Lemma parse_special_key_derives (data data' : dict value) (key dk : string) (v : value) :
  Parser.parse_special_key data key v = Ok data' ->
  derived_of key = Some dk ->
  exists d,
    Parser.parse_special_key [] key v = Ok [(dk, d)]
    /\ dict_get data' dk = Some d.
Proof.
  unfold Parser.parse_special_key, derived_of.
  destruct (String.eqb key "Headshot").
  - destruct v as [b|n|f|s]; try discriminate.
    destruct (Parser.search_percent s); [|discriminate].
    destruct (Py.float_of_string s0); [|discriminate].
    intros H Hk. inversion H. inversion Hk.
    eexists. split; [reflexivity|]. apply dict_get_set_same.
  - destruct (String.eqb key "Score"); [|discriminate].
    destruct v as [b|n|f|s]; try discriminate.
    destruct (Py.split "-" s) as [|h [|a [|x l]]]; try discriminate.
    destruct (to_int (VStr h)); [|discriminate].
    destruct (to_int (VStr a)); [|discriminate].
    intros H Hk. inversion H. inversion Hk.
    eexists. split; [reflexivity|]. apply dict_get_set_same.
Qed.

Lemma parse_special_key_plain (data : dict value) (key : string) (v : value) :
  derived_of key = None -> Parser.parse_special_key data key v = Ok data.
Proof.
  unfold Parser.parse_special_key, derived_of.
  destruct (String.eqb key "Headshot"); [discriminate|].
  destruct (String.eqb key "Score"); [discriminate|]. reflexivity.
Qed.

(** What a returning step looks like. *)
Lemma parse_step_inv (data data' : dict value) (line : string) :
  Parser.parse_step data line = Ok data' ->
  data' = data
  \/ exists key v d1,
       Parser.parse_line line = Some (key, v) /\ key <> ""
       /\ Parser.parse_special_key data key v = Ok d1
       /\ data' = (if dict_contains d1 key then d1 else dict_set d1 key v).
Proof.
  unfold Parser.parse_step.
  destruct (Parser.parse_line line) as [[key v]|] eqn:E.
  - destruct (Py.is_empty key) eqn:Hk.
    + intros H. inversion H. auto.
    + destruct (Parser.parse_special_key data key v) as [d1|e] eqn:Ed; [|discriminate].
      cbn [bind]. intros H. inversion H. right.
      exists key, v, d1. apply is_empty_false in Hk. auto.
  - intros H. inversion H. auto.
Qed.

(** A step changes the binding of [k] only through a line whose key is
    [k] or derives [k]. *)
Lemma parse_step_frame (data data' : dict value) (line k : string) :
  Parser.parse_step data line = Ok data' ->
  (forall key v, Parser.parse_line line = Some (key, v) ->
                 key <> k /\ derived_of key <> Some k) ->
  dict_get data' k = dict_get data k.
Proof.
  intros H Hline. apply parse_step_inv in H.
  destruct H as [-> | (key & v & d1 & Hl & Hne & Hs & ->)]; auto.
  destruct (Hline _ _ Hl) as [Hk Hd].
  rewrite <- (parse_special_key_frame _ _ _ _ _ Hs Hd).
  destruct (dict_contains d1 key); auto.
  now apply dict_get_set_other.
Qed.

(** A binding stays as it is unless the line derives its key. *)
Lemma parse_step_keeps (data data' : dict value) (line k : string) (v : value) :
  Parser.parse_step data line = Ok data' ->
  dict_get data k = Some v ->
  (forall key v', Parser.parse_line line = Some (key, v') ->
                  derived_of key <> Some k) ->
  dict_get data' k = Some v.
Proof.
  intros H Hget Hline. apply parse_step_inv in H.
  destruct H as [-> | (key & v' & d1 & Hl & Hne & Hs & ->)]; auto.
  pose proof (parse_special_key_frame _ _ _ _ _ Hs (Hline _ _ Hl)) as Hf.
  destruct (dict_contains d1 key) eqn:Hc.
  - congruence.
  - destruct (String.eqb key k) eqn:E.
    + apply String.eqb_eq in E. subst key.
      unfold dict_contains in Hc. rewrite Hf, Hget in Hc. discriminate.
    + apply String.eqb_neq in E. rewrite dict_get_set_other; congruence.
Qed.

(** A line with a new, non-empty key binds it to its typed value. *)
Lemma parse_step_binds (data data' : dict value) (line k : string) (v : value) :
  Parser.parse_line line = Some (k, v) -> k <> "" ->
  dict_get data k = None ->
  Parser.parse_step data line = Ok data' ->
  dict_get data' k = Some v.
Proof.
  intros Hl Hne Hget. unfold Parser.parse_step. rewrite Hl.
  apply is_empty_false in Hne. rewrite Hne.
  destruct (Parser.parse_special_key data k v) as [d1|e] eqn:Hs; [|discriminate].
  cbn [bind]. intros H. inversion H.
  assert (Hd : derived_of k <> Some k).
  { intros Hd. now apply derived_of_neq in Hd. }
  pose proof (parse_special_key_frame _ _ _ _ _ Hs Hd) as Hf.
  unfold dict_contains. rewrite Hf, Hget. apply dict_get_set_same.
Qed.

(** ** The parser, over a file *)

Lemma parse_lines_app (data : dict value) (a b : list string) :
  Parser.parse_lines data (a ++ b)
  = (d <- Parser.parse_lines data a ;; Parser.parse_lines d b).
Proof.
  revert data. induction a as [|line rest IH]; intros data; simpl.
  - reflexivity.
  - destruct (Parser.parse_step data line); simpl; auto.
Qed.

Lemma parse_lines_keeps (lines : list string) (data data' : dict value)
  (k : string) (v : value) :
  ~ In k derived_names ->
  Parser.parse_lines data lines = Ok data' ->
  dict_get data k = Some v ->
  dict_get data' k = Some v.
Proof.
  intros Hk. revert data.
  induction lines as [|line rest IH]; simpl; intros data H Hget.
  - inversion H; subst; auto.
  - destruct (Parser.parse_step data line) as [d1|e] eqn:E; [|discriminate].
    apply (IH d1 H).
    apply (parse_step_keeps _ _ _ _ _ E Hget).
    intros key v' _ Hd. apply derived_of_names in Hd. contradiction.
Qed.

Lemma parse_lines_absent (lines : list string) (data data' : dict value)
  (k : string) :
  ~ In k derived_names ->
  no_line_with k lines ->
  Parser.parse_lines data lines = Ok data' ->
  dict_get data k = None ->
  dict_get data' k = None.
Proof.
  intros Hk. revert data.
  induction lines as [|line rest IH]; simpl; intros data Hno H Hget.
  - inversion H; subst; auto.
  - destruct (Parser.parse_step data line) as [d1|e] eqn:E; [|discriminate].
    apply (IH d1); auto.
    + intros l v Hin. apply Hno. simpl. auto.
    + rewrite (parse_step_frame _ _ _ k E); auto.
      intros key v Hl. split.
      * intros ->. apply (Hno line v); simpl; auto.
      * intros Hd. apply derived_of_names in Hd. contradiction.
Qed.

(** The keys a record has are never taken away. *)
Lemma parse_step_contains (data data' : dict value) (line k : string) :
  Parser.parse_step data line = Ok data' ->
  dict_contains data k = true -> dict_contains data' k = true.
Proof.
  intros H Hc. apply parse_step_inv in H.
  destruct H as [-> | (key & v & d1 & Hl & Hne & Hs & ->)]; auto.
  assert (Hd1 : dict_contains d1 k = true).
  { destruct (derived_of key) as [dk|] eqn:Ed.
    - destruct (String.eqb dk k) eqn:E.
      + apply String.eqb_eq in E. subst dk.
        apply (parse_special_key_binds _ _ _ _ _ Hs Ed).
      + apply String.eqb_neq in E. unfold dict_contains.
        rewrite (parse_special_key_frame _ _ _ k _ Hs); [exact Hc | congruence].
    - rewrite (parse_special_key_plain _ _ _ Ed) in Hs. inversion Hs. now subst. }
  destruct (dict_contains d1 key) eqn:Hk; auto.
  destruct (String.eqb key k) eqn:E.
  - apply String.eqb_eq in E. subst. apply dict_contains_set_same.
  - apply String.eqb_neq in E. now rewrite dict_contains_set_other.
Qed.

Lemma parse_lines_contains (lines : list string) (data data' : dict value)
  (k : string) :
  Parser.parse_lines data lines = Ok data' ->
  dict_contains data k = true -> dict_contains data' k = true.
Proof.
  revert data. induction lines as [|line rest IH]; simpl; intros data H Hc.
  - inversion H; subst; auto.
  - destruct (Parser.parse_step data line) as [d1|e] eqn:E; [|discriminate].
    apply (IH d1 H). apply (parse_step_contains _ _ _ _ E Hc).
Qed.

(** ** The deriver *)

Lemma derive_length_frame (data data' : dict value) (k : string) :
  Parser.derive_length data = Ok data' -> k <> "Length" ->
  dict_get data' k = dict_get data k.
Proof.
  unfold Parser.derive_length.
  destruct (_ && _)%bool.
  - destruct (dict_item data "End Time (UNIX)") as [e|]; [|discriminate]. cbn [bind].
    destruct (to_int e); [|discriminate]. cbn [bind].
    destruct (dict_item data "Start Time (UNIX)") as [s|]; [|discriminate]. cbn [bind].
    destruct (to_int s); [|discriminate]. cbn [bind].
    intros H Hk. inversion H. apply dict_get_set_other. congruence.
  - intros H _. now inversion H.
Qed.

Lemma derive_damage_ratio_frame (data data' : dict value) (k : string) :
  Parser.derive_damage_ratio data = Ok data' -> k <> "Damage Ratio" ->
  dict_get data' k = dict_get data k.
Proof.
  unfold Parser.derive_damage_ratio.
  destruct (_ && _)%bool.
  - destruct (dict_item data "Damage Received") as [r|]; [|discriminate]. cbn [bind].
    destruct (ne_zero r).
    + destruct (dict_item data "Damage Made") as [m|]; [|discriminate]. cbn [bind].
      destruct (truediv m r); [|discriminate]. cbn [bind].
      intros H Hk. inversion H. apply dict_get_set_other. congruence.
    + intros H _. now inversion H.
  - intros H _. now inversion H.
Qed.

Lemma calculate_additional_metrics_frame (data data' : dict value) (k : string) :
  Parser.calculate_additional_metrics data = Ok data' ->
  k <> "Length" -> k <> "Damage Ratio" ->
  dict_get data' k = dict_get data k.
Proof.
  unfold Parser.calculate_additional_metrics.
  destruct (Parser.derive_length data) as [d1|] eqn:E; [|discriminate]. cbn [bind].
  intros H Hl Hd.
  rewrite (derive_damage_ratio_frame _ _ _ H Hd).
  apply (derive_length_frame _ _ _ E Hl).
Qed.

(** The first line with a key that is not a derived name decides its
    binding in the parsed record. *)
Lemma first_line_binds (k : string) :
  k <> "" -> ~ In k derived_names -> binds_first_line k.
Proof.
  intros Hne Hk pre post line v data Hno Hl.
  unfold Parser.parse. rewrite parse_lines_app.
  destruct (Parser.parse_lines [] pre) as [d0|] eqn:E0; [|discriminate].
  cbn [bind Parser.parse_lines].
  destruct (Parser.parse_step d0 line) as [d1|] eqn:E1; [|discriminate].
  cbn [bind].
  destruct (Parser.parse_lines d1 post) as [d2|] eqn:E2; [|discriminate].
  cbn [bind]. intros H.
  rewrite (calculate_additional_metrics_frame _ _ k H).
  - apply (parse_lines_keeps _ _ _ _ _ Hk E2).
    apply (parse_step_binds d0 d1 line k v Hl Hne); auto.
    apply (parse_lines_absent _ _ _ _ Hk Hno E0). reflexivity.
  - intros ->. apply Hk. simpl. auto.
  - intros ->. apply Hk. simpl. auto.
Qed.

Lemma later_line_keeps (k : string) : later_lines_keep k.
Proof.
  intros data data' line v Hl Hc H.
  unfold dict_contains in Hc.
  destruct (dict_get data k) as [v0|] eqn:Hget; [|discriminate].
  apply (parse_step_keeps _ _ _ _ _ H Hget).
  intros key v' Hl' Hd. rewrite Hl in Hl'. inversion Hl'. subst key.
  now apply derived_of_neq in Hd.
Qed.

Lemma derived_of_raw (raw dk : string) :
  derived_of raw = Some dk ->
  raw <> "" /\ ~ In raw derived_names /\ dk <> "" /\ derived_of dk = None
  /\ dk <> "Length" /\ dk <> "Damage Ratio".
Proof.
  unfold derived_of.
  destruct (String.eqb raw "Headshot") eqn:E1.
  - apply String.eqb_eq in E1. subst. intros H. inversion H.
    repeat split; try discriminate.
    simpl. intros [H'|[H'|[H'|[H'|[]]]]]; discriminate.
  - destruct (String.eqb raw "Score") eqn:E2; [|discriminate].
    apply String.eqb_eq in E2. subst. intros H. inversion H.
    repeat split; try discriminate.
    simpl. intros [H'|[H'|[H'|[H'|[]]]]]; discriminate.
Qed.

(** A returning step over a line with a special key leaves the derived
    key bound. *)
Lemma parse_step_derives (data data' : dict value) (line raw dk : string) (v : value) :
  Parser.parse_line line = Some (raw, v) ->
  derived_of raw = Some dk ->
  Parser.parse_step data line = Ok data' ->
  dict_contains data' dk = true.
Proof.
  intros Hl Hd. unfold Parser.parse_step. rewrite Hl.
  destruct (derived_of_raw _ _ Hd) as [Hne _].
  apply is_empty_false in Hne. rewrite Hne.
  destruct (Parser.parse_special_key data raw v) as [d1|e] eqn:Hs; [|discriminate].
  cbn [bind]. intros H. inversion H.
  pose proof (parse_special_key_binds _ _ _ _ _ Hs Hd) as Hb.
  destruct (dict_contains d1 raw); auto.
  rewrite dict_contains_set_other; auto.
  now apply derived_of_neq.
Qed.

(** C10, as the code has it.  For every key that is not empty and is
    not one of the names the parser derives ([Headshot %], [Round
    Differential], [Length], [Damage Ratio]), the parsed record binds the
    key to the typed value of the first line of the file with that key.
    For every key at all, a later line with the same key leaves its
    binding as it is. *)
Theorem first_line_wins (k : string) :
  later_lines_keep k
  /\ (k <> "" -> ~ In k derived_names -> binds_first_line k).
Proof.
  split.
  - apply later_line_keeps.
  - apply first_line_binds.
Qed.

Lemma first_line_wins_witness :
  dict_get [("Kills", VFloat (Py.lit 10))] "Kills" = Some (VFloat (Py.lit 10)).
Proof.
  refine (proj2 (first_line_wins "Kills") _ _
            [] ["Kills: 12"] "Kills: 10" (VFloat (Py.lit 10))
            [("Kills", VFloat (Py.lit 10))] _ _ _).
  - discriminate.
  - simpl. intros [H|[H|[H|[H|[]]]]]; discriminate H.
  - intros line v [].
  - vm_compute. reflexivity.
  - vm_compute. reflexivity.
Defined.

(** C10, as the claim has it, fails for the derived names and for the
    empty key: a [Headshot %] line is overwritten by the derivation of a
    later [Headshot] line, a [Length] line by the deriver, and a line
    whose key is blank is not stored at all. *)
Lemma first_line_loses_on_derived_names :
  ~ binds_first_line "Headshot %"
  /\ ~ binds_first_line "Length"
  /\ ~ binds_first_line "".
Proof.
  split; [|split]; intros H.
  - specialize (H [] ["Headshot: 7 (20%)"] "Headshot %: 5" (VFloat (Py.lit 5))
                  [("Headshot %", VFloat (Py.lit 20)); ("Headshot", VStr "7 (20%)")]).
    assert (E : dict_get
                  [("Headshot %", VFloat (Py.lit 20)); ("Headshot", VStr "7 (20%)")]
                  "Headshot %" = Some (VFloat (Py.lit 5))).
    { apply H.
      - intros line v [].
      - vm_compute. reflexivity.
      - vm_compute. reflexivity. }
    vm_compute in E. discriminate E.
  - specialize (H [] ["Start Time (UNIX): 1"; "End Time (UNIX): 5"]
                  "Length: 3" (VFloat (Py.lit 3))
                  [("Length", VInt 4); ("Start Time (UNIX)", VFloat (Py.lit 1));
                   ("End Time (UNIX)", VFloat (Py.lit 5))]).
    assert (E : dict_get
                  [("Length", VInt 4); ("Start Time (UNIX)", VFloat (Py.lit 1));
                   ("End Time (UNIX)", VFloat (Py.lit 5))]
                  "Length" = Some (VFloat (Py.lit 3))).
    { apply H.
      - intros line v [].
      - vm_compute. reflexivity.
      - vm_compute. reflexivity. }
    vm_compute in E. discriminate E.
  - specialize (H [] [] " : 5" (VFloat (Py.lit 5)) []).
    assert (E : dict_get (V := value) [] "" = Some (VFloat (Py.lit 5))).
    { apply H.
      - intros line v [].
      - vm_compute. reflexivity.
      - vm_compute. reflexivity. }
    discriminate E.
Qed.

(** C5, as the code has it.  In every parsed record, a special key
    ([Headshot], [Score]) is bound under its own name to the value of its
    first line, typed as any other value, and its derived key is bound as
    well.  A later line whose own key is the derived name does not
    overwrite the derived key: it leaves the whole record as it is. *)
Theorem special_keys_stored (raw dk : string) :
  derived_of raw = Some dk ->
  (forall pre post line ktext vtext data,
     no_line_with raw pre ->
     matches_pattern line ktext vtext -> Py.strip ktext = raw ->
     Parser.parse (pre ++ line :: post) = Ok data ->
     dict_get data raw = Some (Parser.parse_value (Py.strip vtext))
     /\ dict_contains data dk = true)
  /\ (forall data line v,
        Parser.parse_line line = Some (dk, v) ->
        dict_contains data dk = true ->
        Parser.parse_step data line = Ok data)
  /\ (forall data data' line v,
        Parser.parse_line line = Some (raw, v) ->
        Parser.parse_step data line = Ok data' ->
        exists d,
          Parser.parse_special_key [] raw v = Ok [(dk, d)]
          /\ dict_get data' dk = Some d).
Proof.
  intros Hd.
  destruct (derived_of_raw _ _ Hd) as (Hne & Hnd & Hdk & Hplain & HL & HD).
  split; [|split].
  - intros pre post line ktext vtext data Hno Hm Hk Hp.
    pose proof (parse_line_matches _ _ _ Hm) as Hl. rewrite Hk in Hl.
    split.
    + apply (first_line_binds raw Hne Hnd pre post line _ data Hno Hl Hp).
    + revert Hp. unfold Parser.parse. rewrite parse_lines_app.
      destruct (Parser.parse_lines [] pre) as [d0|]; [|discriminate].
      cbn [bind Parser.parse_lines].
      destruct (Parser.parse_step d0 line) as [d1|] eqn:E1; [|discriminate].
      cbn [bind].
      destruct (Parser.parse_lines d1 post) as [d2|] eqn:E2; [|discriminate].
      cbn [bind]. intros H.
      pose proof (parse_step_derives _ _ _ _ _ _ Hl Hd E1) as Hc1.
      pose proof (parse_lines_contains _ _ _ _ E2 Hc1) as Hc2.
      unfold dict_contains in *.
      now rewrite (calculate_additional_metrics_frame _ _ dk H HL HD).
  - intros data line v Hl Hc. unfold Parser.parse_step. rewrite Hl.
    apply is_empty_false in Hdk. rewrite Hdk.
    rewrite (parse_special_key_plain _ _ _ Hplain). cbn [bind]. now rewrite Hc.
  - intros data data' line v Hl. unfold Parser.parse_step. rewrite Hl.
    apply is_empty_false in Hne. rewrite Hne.
    destruct (Parser.parse_special_key data raw v) as [d1|e] eqn:Hs; [|discriminate].
    cbn [bind]. intros H. inversion H. subst data'. clear H.
    destruct (parse_special_key_derives _ _ _ _ _ Hs Hd) as (d & Hnil & Hget).
    exists d. split; [exact Hnil|].
    destruct (dict_contains d1 raw); auto.
    rewrite dict_get_set_other; auto. now apply derived_of_neq.
Qed.

Lemma special_keys_stored_witness :
  dict_get [("Headshot %", VFloat (Py.lit 37.5)); ("Headshot", VStr "12 (37.5%)")]
    "Headshot"
  = Some (Parser.parse_value (Py.strip "12 (37.5%)"))
  /\ dict_contains
       [("Headshot %", VFloat (Py.lit 37.5)); ("Headshot", VStr "12 (37.5%)")]
       "Headshot %" = true.
Proof.
  refine (proj1 (special_keys_stored "Headshot" "Headshot %" eq_refl)
            [] [] "Headshot: 12 (37.5%)" "Headshot" "12 (37.5%)" _ _ _ _ _).
  - intros line v [].
  - apply (Matches "Headshot" "12 (37.5%)" ""); try discriminate; auto.
  - reflexivity.
  - vm_compute. reflexivity.
Defined.

(** C5, as the claim has it, fails: a second [Headshot] line derives
    [Headshot %] again and overwrites the value the first line gave. *)
Lemma raw_key_overwrites_derived : ~ raw_key_keeps_derived.
Proof.
  intros H.
  specialize (H [("Headshot %", VFloat (Py.lit 10)); ("Headshot", VStr "5 (10%)")]
                [("Headshot %", VFloat (Py.lit 20)); ("Headshot", VStr "5 (10%)")]
                "Headshot: 7 (20%)" "Headshot" "Headshot %" (VStr "7 (20%)")).
  assert (E : dict_get
                [("Headshot %", VFloat (Py.lit 20)); ("Headshot", VStr "5 (10%)")]
                "Headshot %"
              = dict_get
                  [("Headshot %", VFloat (Py.lit 10)); ("Headshot", VStr "5 (10%)")]
                  "Headshot %").
  { apply H; vm_compute; reflexivity. }
  vm_compute in E. discriminate E.
Qed.

(** C8. A line that matches the pattern yields its key and value
    stripped, and the value is typed: [true] or [false] in any case
    becomes the boolean, otherwise a text that [float] accepts becomes
    that number, otherwise the text is kept.  The typed value is what a
    new, non-empty key is bound to.  A line that does not match leaves
    the record as it is and raises nothing. *)
Theorem value_typing :
  (forall line k text,
     matches_pattern line k text ->
     Parser.parse_line line
     = Some (Py.strip k, Parser.parse_value (Py.strip text)))
  /\ (forall text,
        (Py.lower text = "true" -> Parser.parse_value text = VBool true)
        /\ (Py.lower text = "false" -> Parser.parse_value text = VBool false)
        /\ (Py.lower text <> "true" -> Py.lower text <> "false" ->
            forall f, Py.float_of_string text = Some f ->
                      Parser.parse_value text = VFloat f)
        /\ (Py.lower text <> "true" -> Py.lower text <> "false" ->
            Py.float_of_string text = None ->
            Parser.parse_value text = VStr text))
  /\ (forall data data' line key v,
        Parser.parse_line line = Some (key, v) -> key <> "" ->
        dict_get data key = None ->
        Parser.parse_step data line = Ok data' ->
        dict_get data' key = Some v)
  /\ (forall data line,
        (forall k text, ~ matches_pattern line k text) ->
        Parser.parse_step data line = Ok data).
Proof.
  split; [|split; [|split]].
  - apply parse_line_matches.
  - intros text. unfold Parser.parse_value.
    repeat split.
    + intros ->. reflexivity.
    + intros ->. reflexivity.
    + intros Ht Hf f Hfl.
      apply String.eqb_neq in Ht, Hf. now rewrite Ht, Hf, Hfl.
    + intros Ht Hf Hfl.
      apply String.eqb_neq in Ht, Hf. now rewrite Ht, Hf, Hfl.
  - intros data data' line key v Hl Hne Hget H.
    apply (parse_step_binds _ _ _ _ _ Hl Hne Hget H).
  - intros data line Hno. unfold Parser.parse_step.
    now rewrite (parse_line_no_match _ Hno).
Qed.

Lemma value_typing_witness :
  Parser.parse_line "Won: TRUE" = Some ("Won", VBool true)
  /\ Parser.parse_value "37.5" = VFloat (Py.lit 37.5)
  /\ Parser.parse_value "Ascent" = VStr "Ascent"
  /\ dict_get [("Kills", VFloat (Py.lit 10))] "Kills" = Some (VFloat (Py.lit 10)).
Proof.
  destruct value_typing as (Hline & Htype & Hbind & _).
  split; [|split; [|split]].
  - apply (Hline "Won: TRUE" "Won" "TRUE").
    apply (Matches "Won" "TRUE" ""); try discriminate; auto.
  - apply (proj1 (proj2 (proj2 (Htype "37.5")))); try discriminate.
    vm_compute. reflexivity.
  - apply (proj2 (proj2 (proj2 (Htype "Ascent")))); try discriminate.
    reflexivity.
  - apply (Hbind [] _ "Kills: 10" "Kills" (VFloat (Py.lit 10))).
    + vm_compute. reflexivity.
    + discriminate.
    + reflexivity.
    + vm_compute. reflexivity.
Defined.

(** ** Characters *)

Lemma digit_char (c : ascii) :
  Py.is_digit c = true ->
  Py.is_space c = false /\ Ascii.eqb c "_" = false /\ Py.lower_char c = c
  /\ Ascii.eqb c "(" = false /\ Ascii.eqb c "i" = false
  /\ Ascii.eqb c "n" = false /\ Py.take_sign (String c "") = (false, String c "").
Proof. by_cases_on_char c. Qed.

Lemma point_char :
  Py.is_space "." = false /\ Ascii.eqb "." "_" = false /\ Py.lower_char "." = "."%char
  /\ Py.is_digit "." = false.
Proof. repeat split. Qed.

Lemma lower_char_paren (c : ascii) :
  Ascii.eqb (Py.lower_char c) "(" = Ascii.eqb c "(".
Proof. by_cases_on_char c. Qed.

Lemma take_sign_digit (c : ascii) (r : string) :
  Py.is_digit c = true -> Py.take_sign (String c r) = (false, String c r).
Proof. revert r. by_cases_on_char c. Qed.

Lemma take_sign_paren (s : string) :
  has_char "(" (snd (Py.take_sign s)) = has_char "(" s.
Proof.
  destruct s as [|c r]; [reflexivity|].
  destruct c as [[] [] [] [] [] [] [] []]; reflexivity.
Qed.

Lemma blank_is_space (c : ascii) :
  Py.is_space c = false -> Py.is_blank c = false.
Proof. by_cases_on_char c. Qed.

Lemma has_char_lstrip_blank (c : ascii) (s : string) :
  Py.is_blank c = false -> has_char c (Py.lstrip_blank s) = has_char c s.
Proof.
  intros Hc. induction s as [|a r IH]; simpl; auto.
  destruct (Py.is_blank a) eqn:Ha; simpl; auto.
  rewrite IH. destruct (Ascii.eqb a c) eqn:E; auto.
  apply Ascii.eqb_eq in E. congruence.
Qed.

Lemma has_char_rstrip_blank (c : ascii) (s : string) :
  Py.is_blank c = false -> has_char c (Py.rstrip_blank s) = has_char c s.
Proof.
  intros Hc. induction s as [|a r IH]; simpl; auto.
  destruct (Py.is_blank a && Py.is_empty (Py.rstrip_blank r))%bool eqn:Ha; simpl.
  - apply andb_true_iff in Ha. destruct Ha as [Ha Hr].
    apply is_empty_true in Hr. rewrite Hr in IH. simpl in IH. rewrite <- IH.
    destruct (Ascii.eqb a c) eqn:E; auto.
    apply Ascii.eqb_eq in E. congruence.
  - now rewrite IH.
Qed.

Lemma has_char_strip_blank (c : ascii) (s : string) :
  Py.is_blank c = false -> has_char c (Py.strip_blank s) = has_char c s.
Proof.
  intros Hc. unfold Py.strip_blank.
  now rewrite has_char_rstrip_blank, has_char_lstrip_blank.
Qed.

Lemma has_char_remove_underscores (c : ascii) (s : string) :
  Ascii.eqb "_" c = false ->
  has_char c (Py.remove_underscores s) = has_char c s.
Proof.
  intros Hc. induction s as [|a r IH]; simpl; auto.
  destruct (Ascii.eqb a "_") eqn:Ha; simpl.
  - apply Ascii.eqb_eq in Ha. subst a. now rewrite Hc, IH.
  - now rewrite IH.
Qed.

Lemma has_paren_lower (s : string) :
  has_char "(" (Py.lower s) = has_char "(" s.
Proof.
  induction s as [|a r IH]; simpl; auto.
  now rewrite lower_char_paren, IH.
Qed.

Lemma digits_no_paren (s : string) :
  Py.all_chars Py.is_digit s = true -> has_char "(" s = false.
Proof.
  induction s as [|a r IH]; simpl; auto.
  rewrite andb_true_iff. intros [Ha Hr].
  destruct (digit_char _ Ha) as (_ & _ & _ & Hp & _).
  now rewrite Hp, IH.
Qed.

(** ** Numerals *)

Lemma parse_exponent_no_paren (s : string) (e : Z) :
  Py.parse_exponent s = Some e -> has_char "(" s = false.
Proof.
  unfold Py.parse_exponent.
  rewrite <- (take_sign_paren s).
  destruct (Py.take_sign s) as [neg r]. simpl.
  destruct (negb (Py.is_empty r) && Py.all_chars Py.is_digit r)%bool eqn:E;
    [|discriminate].
  apply andb_true_iff in E. destruct E as [_ E]. intros _.
  now apply digits_no_paren.
Qed.

Lemma parse_decimal_no_paren (s : string) (res : Z * Z) :
  Py.parse_decimal s = Some res -> has_char "(" s = false.
Proof.
  unfold Py.parse_decimal.
  destruct (Py.span Py.is_digit s) as [ip r1] eqn:E1.
  apply span_spec in E1. destruct E1 as [-> [Hip _]].
  rewrite has_char_app, (digits_no_paren _ Hip). simpl.
  assert (Htail : forall fp r2,
             has_char "(" r2 = has_char "(" r1 \/
             (exists r, r1 = String "." r /\ Py.span Py.is_digit r = (fp, r2)) ->
             (if (Py.is_empty ip && Py.is_empty fp)%bool then None
              else match match r2 with
                         | EmptyString => Some 0
                         | String c r =>
                             if (Ascii.eqb c "e" || Ascii.eqb c "E")%bool
                             then Py.parse_exponent r else None
                         end with
                   | Some e => Some (Py.digits_value 0 (ip ++ fp),
                                     e - Z.of_nat (String.length fp))
                   | None => None
                   end) = Some res ->
             has_char "(" r1 = false).
  { intros fp r2 Hr.
    destruct (Py.is_empty ip && Py.is_empty fp)%bool; [discriminate|].
    assert (H2 : (match r2 with
                  | EmptyString => Some 0
                  | String c r =>
                      if (Ascii.eqb c "e" || Ascii.eqb c "E")%bool
                      then Py.parse_exponent r else None
                  end) <> None -> has_char "(" r2 = false).
    { destruct r2 as [|c r]; [reflexivity|].
      destruct (Ascii.eqb c "e" || Ascii.eqb c "E")%bool eqn:Ec; [|congruence].
      destruct (Py.parse_exponent r) as [e|] eqn:Ee; [|congruence].
      intros _. simpl. rewrite (parse_exponent_no_paren _ _ Ee).
      apply orb_true_iff in Ec.
      destruct Ec as [Ec|Ec]; apply Ascii.eqb_eq in Ec; subst c; reflexivity. }
    intros H.
    assert (H2' : has_char "(" r2 = false).
    { apply H2. destruct r2 as [|c r]; [discriminate|].
      destruct (Ascii.eqb c "e" || Ascii.eqb c "E")%bool; [|discriminate].
      destruct (Py.parse_exponent r); [discriminate|discriminate]. }
    destruct Hr as [Hr | (r0 & -> & Hs)].
    - congruence.
    - apply span_spec in Hs. destruct Hs as [-> [Hfp _]].
      simpl. now rewrite has_char_app, (digits_no_paren _ Hfp), H2'. }
  destruct r1 as [|c r0].
  - reflexivity.
  - destruct (Ascii.eqb c ".") eqn:Ec.
    + apply Ascii.eqb_eq in Ec. subst c.
      destruct (Py.span Py.is_digit r0) as [fp r2] eqn:E2.
      apply Htail. right. eauto.
    + intros H. apply (Htail "" (String c r0)); [now left|].
      revert H. apply Ascii.eqb_neq in Ec.
      destruct c as [[] [] [] [] [] [] [] []]; try exact (fun H => H).
      congruence.
Qed.

(** A text with a parenthesis is not a number. *)
Lemma float_of_string_no_paren (s : string) (f : Py.float) :
  Py.float_of_string s = Some f -> has_char "(" s = false.
Proof.
  unfold Py.float_of_string.
  destruct (Py.underscores_ok false (Py.strip_blank s)); [|discriminate].
  rewrite <- (has_char_strip_blank "(" s) by reflexivity.
  rewrite <- (has_char_remove_underscores "(" (Py.strip_blank s)) by reflexivity.
  rewrite <- (take_sign_paren (Py.remove_underscores (Py.strip_blank s))).
  destruct (Py.take_sign (Py.remove_underscores (Py.strip_blank s))) as [neg u].
  cbn [snd].
  rewrite <- (has_paren_lower u).
  destruct (String.eqb (Py.lower u) "inf") eqn:E1.
  { apply String.eqb_eq in E1. now rewrite E1. }
  destruct (String.eqb (Py.lower u) "infinity") eqn:E2.
  { apply String.eqb_eq in E2. now rewrite E2. }
  cbn [orb].
  destruct (String.eqb (Py.lower u) "nan") eqn:E3.
  { apply String.eqb_eq in E3. now rewrite E3. }
  destruct (Py.parse_decimal u) as [[m e]|] eqn:Ed; [|discriminate].
  intros _. rewrite has_paren_lower. apply (parse_decimal_no_paren _ _ Ed).
Qed.

(** A text with a parenthesis is kept as a string. *)
Lemma parse_value_paren (s : string) :
  has_char "(" s = true -> Parser.parse_value s = VStr s.
Proof.
  intros H. unfold Parser.parse_value.
  destruct (String.eqb (Py.lower s) "true") eqn:E1.
  { apply String.eqb_eq in E1.
    rewrite <- has_paren_lower, E1 in H. discriminate. }
  destruct (String.eqb (Py.lower s) "false") eqn:E2.
  { apply String.eqb_eq in E2.
    rewrite <- has_paren_lower, E2 in H. discriminate. }
  cbn [orb].
  destruct (Py.float_of_string s) as [f|] eqn:Ef; auto.
  apply float_of_string_no_paren in Ef. congruence.
Qed.

Lemma plain_char_facts (c : ascii) :
  plain_char c = true ->
  Py.is_space c = false /\ Ascii.eqb c "_" = false /\ Py.lower_char c = c.
Proof. by_cases_on_char c. Qed.

Lemma rstrip_blank_plain (s : string) :
  Py.all_chars plain_char s = true -> Py.rstrip_blank s = s.
Proof.
  induction s as [|a r IH]; simpl; auto.
  rewrite andb_true_iff. intros [Ha Hr].
  destruct (plain_char_facts _ Ha) as (Hs & _).
  now rewrite (blank_is_space _ Hs), (IH Hr).
Qed.

Lemma underscores_ok_plain (s : string) (prev : bool) :
  Py.all_chars plain_char s = true -> Py.underscores_ok prev s = true.
Proof.
  revert prev. induction s as [|a r IH]; simpl; auto.
  intros prev. rewrite andb_true_iff. intros [Ha Hr].
  destruct (plain_char_facts _ Ha) as (_ & Hu & _).
  rewrite Hu. now apply IH.
Qed.

Lemma remove_underscores_plain (s : string) :
  Py.all_chars plain_char s = true -> Py.remove_underscores s = s.
Proof.
  induction s as [|a r IH]; simpl; auto.
  rewrite andb_true_iff. intros [Ha Hr].
  destruct (plain_char_facts _ Ha) as (_ & Hu & _).
  now rewrite Hu, (IH Hr).
Qed.

(** On such a text [float] is the decimal reading alone. *)
Lemma float_of_string_plain (c : ascii) (r : string) :
  Py.is_digit c = true -> Py.all_chars plain_char r = true ->
  Py.float_of_string (String c r)
  = match Py.parse_decimal (String c r) with
    | Some (m, e) => Some (Py.float_of_decimal false m e)
    | None => None
    end.
Proof.
  intros Hc Hr.
  assert (Hall : Py.all_chars plain_char (String c r) = true).
  { simpl. unfold plain_char at 1. now rewrite Hc, Hr. }
  destruct (digit_char _ Hc) as (Hs & _ & Hl & _ & Hi & Hn & _).
  unfold Py.float_of_string, Py.strip_blank.
  cbn [Py.lstrip_blank]. rewrite (blank_is_space _ Hs), (rstrip_blank_plain _ Hall).
  rewrite (underscores_ok_plain _ false Hall), (remove_underscores_plain _ Hall).
  rewrite (take_sign_digit _ _ Hc).
  cbn [Py.lower]. rewrite Hl.
  change (String.eqb (String c (Py.lower r)) "inf")
    with (Ascii.eqb c "i" && String.eqb (Py.lower r) "nf")%bool.
  change (String.eqb (String c (Py.lower r)) "infinity")
    with (Ascii.eqb c "i" && String.eqb (Py.lower r) "nfinity")%bool.
  change (String.eqb (String c (Py.lower r)) "nan")
    with (Ascii.eqb c "n" && String.eqb (Py.lower r) "an")%bool.
  rewrite Hi, Hn. reflexivity.
Qed.

Lemma all_chars_app (p : ascii -> bool) (a b : string) :
  Py.all_chars p (a ++ b) = (Py.all_chars p a && Py.all_chars p b)%bool.
Proof.
  induction a as [|x r IH]; simpl; auto.
  now rewrite IH, andb_assoc.
Qed.

Lemma digits_plain (s : string) :
  Py.all_chars Py.is_digit s = true -> Py.all_chars plain_char s = true.
Proof.
  apply all_chars_impl. intros c Hc. unfold plain_char. now rewrite Hc.
Qed.

Lemma span_all (p : ascii -> bool) (s : string) :
  Py.all_chars p s = true -> Py.span p s = (s, "").
Proof.
  induction s as [|x r IH]; simpl; auto.
  rewrite andb_true_iff. intros [Hx Hr]. now rewrite Hx, (IH Hr).
Qed.

(** [float] accepts every text the percentage pattern can capture. *)
Lemma float_of_percent_text (g : string) :
  percent_text g -> exists f, Py.float_of_string g = Some f.
Proof.
  intros (d1 & d2 & Hne & H1 & H2 & Hg).
  destruct d1 as [|c r]; [congruence|].
  simpl in H1. apply andb_true_iff in H1. destruct H1 as [Hc Hr].
  destruct Hg as [-> | [Hd2 ->]].
  - rewrite (float_of_string_plain _ _ Hc (digits_plain _ Hr)).
    unfold Py.parse_decimal.
    rewrite (span_all Py.is_digit (String c r)) by (simpl; now rewrite Hc, Hr).
    simpl. eauto.
  - change (String c r ++ "." ++ d2) with (String c (r ++ "." ++ d2)).
    rewrite (float_of_string_plain _ _ Hc).
    + unfold Py.parse_decimal.
      change (String c (r ++ "." ++ d2)) with (String c r ++ String "." d2).
      rewrite (span_app Py.is_digit (String c r) (String "." d2));
        [| simpl; now rewrite Hc, Hr | reflexivity].
      cbv iota beta.
      rewrite (span_all Py.is_digit d2 H2).
      simpl. eauto.
    + rewrite all_chars_app. rewrite (digits_plain _ Hr). simpl.
      now apply digits_plain.
Qed.

(** ** The percentage pattern *)

Lemma match_percent_spec (s g : string) :
  Parser.match_percent s = Some g ->
  percent_text g /\ has_char "(" s = true.
Proof.
  unfold Parser.match_percent.
  destruct s as [|c r]; [discriminate|].
  destruct (Ascii.eqb c "(") eqn:Ec;
    [apply Ascii.eqb_eq in Ec; subst c
    | apply Ascii.eqb_neq in Ec;
      destruct c as [[] [] [] [] [] [] [] []]; try discriminate; congruence].
  destruct (Py.span Py.is_digit r) as [d1 r1] eqn:E1.
  destruct (Py.is_empty d1) eqn:Hd1; [discriminate|].
  apply is_empty_false in Hd1.
  apply span_spec in E1. destruct E1 as [_ [H1 _]].
  intros H. split; [|reflexivity].
  assert (Hg : forall g' r2,
             (g' = d1 \/ exists d2, d2 <> "" /\ Py.all_chars Py.is_digit d2 = true
                                    /\ g' = d1 ++ "." ++ d2) ->
             match r2 with
             | String "%" (String ")" _) => Some g'
             | _ => None
             end = Some g -> percent_text g).
  { intros g' r2 Hshape Hm.
    assert (g' = g).
    { destruct r2 as [|a [|b r3]]; try discriminate.
      - destruct a as [[] [] [] [] [] [] [] []]; discriminate.
      - destruct a as [[] [] [] [] [] [] [] []]; try discriminate.
        destruct b as [[] [] [] [] [] [] [] []]; try discriminate.
        now inversion Hm. }
    subst g'.
    destruct Hshape as [-> | (d2 & Hd2 & H2 & ->)].
    - exists d1, "". auto.
    - exists d1, d2. repeat split; auto. }
  destruct r1 as [|a r'].
  - apply (Hg d1 ""); auto.
  - destruct (Ascii.eqb a ".") eqn:Ea.
    + apply Ascii.eqb_eq in Ea. subst a.
      destruct (Py.span Py.is_digit r') as [d2 r''] eqn:E2.
      destruct (Py.is_empty d2) eqn:Hd2.
      * apply (Hg d1 (String "." r')); auto.
      * apply is_empty_false in Hd2.
        apply span_spec in E2. destruct E2 as [_ [H2 _]].
        apply (Hg (d1 ++ "." ++ d2) r''); auto.
        right. exists d2. auto.
    + apply (Hg d1 (String a r')); auto.
      revert H. apply Ascii.eqb_neq in Ea.
      destruct a as [[] [] [] [] [] [] [] []]; try exact (fun H => H).
      congruence.
Qed.

Lemma search_percent_spec (s g : string) :
  Parser.search_percent s = Some g ->
  percent_text g /\ has_char "(" s = true.
Proof.
  induction s as [|c r IH]; cbn [Parser.search_percent].
  - discriminate.
  - destruct (Parser.match_percent (String c r)) as [g'|] eqn:E.
    + intros H. inversion H; subst.
      apply match_percent_spec in E. exact E.
    + intros H. destruct (IH H) as [Hg Hp]. split; auto.
      cbn [has_char]. rewrite Hp. apply orb_true_r.
Qed.

(** ** Malformed and well-formed [Headshot] lines *)

Lemma parse_value_str (text s : string) :
  Parser.parse_value text = VStr s -> s = text.
Proof.
  unfold Parser.parse_value.
  destruct (_ || _)%bool; [discriminate|].
  destruct (Py.float_of_string text); [discriminate|].
  intros H. now inversion H.
Qed.

(** A [Headshot] line without the percentage makes the step raise. *)
Lemma parse_step_bad_headshot (data : dict value) (line ktext vtext : string) :
  matches_pattern line ktext vtext -> Py.strip ktext = "Headshot" ->
  Parser.search_percent (Py.strip vtext) = None ->
  exists e, Parser.parse_step data line = Raise e.
Proof.
  intros Hm Hk Hs. unfold Parser.parse_step.
  rewrite (parse_line_matches _ _ _ Hm), Hk. cbn [Py.is_empty].
  unfold Parser.parse_special_key. cbn [String.eqb Ascii.eqb Bool.eqb andb].
  destruct (Parser.parse_value (Py.strip vtext)) as [b|n|f|s] eqn:Ev;
    cbn [bind]; eauto.
  apply parse_value_str in Ev. subst s. rewrite Hs. cbn [bind]. eauto.
Qed.

Lemma parse_lines_raise (lines : list string) (line : string) :
  In line lines ->
  (forall data, exists e, Parser.parse_step data line = Raise e) ->
  forall data, exists e, Parser.parse_lines data lines = Raise e.
Proof.
  intros Hin Hbad.
  induction lines as [|l rest IH]; [destruct Hin|].
  intros data. cbn [Parser.parse_lines].
  destruct Hin as [-> | Hin].
  - destruct (Hbad data) as [e He]. rewrite He. cbn [bind]. eauto.
  - destruct (Parser.parse_step data l) as [d1|e]; cbn [bind]; eauto.
Qed.

(** C6. A file with a [Headshot] line whose value lacks the percentage
    pattern does not parse: [parse] raises, so there is no record, and
    the orchestrator's processing of the file raises as well.  A
    [Headshot] line whose value holds the pattern sets [Headshot %] to
    the captured text read as a float. *)
Theorem headshot_percentage :
  (forall lines line ktext vtext,
     In line lines ->
     matches_pattern line ktext vtext -> Py.strip ktext = "Headshot" ->
     Parser.search_percent (Py.strip vtext) = None ->
     (exists e, Parser.parse lines = Raise e)
     /\ (forall float_repr format_2f weights filename,
           exists e,
             process_file float_repr format_2f weights filename lines = Raise e))
  /\ (forall data line ktext vtext g,
        matches_pattern line ktext vtext -> Py.strip ktext = "Headshot" ->
        Parser.search_percent (Py.strip vtext) = Some g ->
        exists f data',
          Py.float_of_string g = Some f
          /\ Parser.parse_step data line = Ok data'
          /\ dict_get data' "Headshot %" = Some (VFloat f)).
Proof.
  split.
  - intros lines line ktext vtext Hin Hm Hk Hs.
    assert (Hp : exists e, Parser.parse lines = Raise e).
    { unfold Parser.parse.
      destruct (parse_lines_raise lines line Hin
                  (fun d => parse_step_bad_headshot d _ _ _ Hm Hk Hs) [])
        as [e He].
      rewrite He. cbn [bind]. eauto. }
    split; [exact Hp|].
    intros float_repr format_2f weights filename.
    destruct Hp as [e He]. unfold process_file. rewrite He. cbn [bind]. eauto.
  - intros data line ktext vtext g Hm Hk Hs.
    destruct (search_percent_spec _ _ Hs) as [Hg Hparen].
    destruct (float_of_percent_text _ Hg) as [f Hf].
    exists f.
    unfold Parser.parse_step.
    rewrite (parse_line_matches _ _ _ Hm), Hk. cbn [Py.is_empty].
    rewrite (parse_value_paren _ Hparen).
    unfold Parser.parse_special_key. cbn [String.eqb Ascii.eqb Bool.eqb andb].
    rewrite Hs, Hf. cbn [bind].
    eexists. split; [reflexivity|]. split; [reflexivity|].
    destruct (dict_contains _ "Headshot").
    + apply dict_get_set_same.
    + rewrite dict_get_set_other by discriminate. apply dict_get_set_same.
Qed.

Lemma headshot_percentage_witness :
  (exists e, Parser.parse ["Kills: 10"; "Headshot: 12 of 32"] = Raise e)
  /\ exists f data',
       Py.float_of_string "37.5" = Some f
       /\ Parser.parse_step [] "Headshot: 12 (37.5%)" = Ok data'
       /\ dict_get data' "Headshot %" = Some (VFloat f).
Proof.
  destruct headshot_percentage as [Hbad Hgood].
  split.
  - refine (proj1 (Hbad ["Kills: 10"; "Headshot: 12 of 32"] "Headshot: 12 of 32"
                     "Headshot" "12 of 32" _ _ _ _)).
    + simpl. auto.
    + apply (Matches "Headshot" "12 of 32" ""); try discriminate; auto.
    + reflexivity.
    + reflexivity.
  - refine (Hgood [] "Headshot: 12 (37.5%)" "Headshot" "12 (37.5%)" "37.5" _ _ _).
    + apply (Matches "Headshot" "12 (37.5%)" ""); try discriminate; auto.
    + reflexivity.
    + reflexivity.
Defined.

(** ** The derived metrics *)

Lemma dict_item_get {V} (d : dict V) (k : string) (v : V) :
  dict_get d k = Some v -> dict_item d k = Ok v.
Proof. unfold dict_item. now intros ->. Qed.

Lemma dict_contains_get {V} (d : dict V) (k : string) (v : V) :
  dict_get d k = Some v -> dict_contains d k = true.
Proof. unfold dict_contains. now intros ->. Qed.

Lemma dict_contains_none {V} (d : dict V) (k : string) :
  dict_get d k = None -> dict_contains d k = false.
Proof. unfold dict_contains. now intros ->. Qed.

Lemma derive_length_ready (data : dict value) (sz ez : Z) :
  length_ready data sz ez ->
  Parser.derive_length data = Ok (dict_set data "Length" (VInt (ez - sz))).
Proof.
  intros (s & e & Hs & He & Hez & Hsz). unfold Parser.derive_length.
  rewrite (dict_contains_get _ _ _ Hs), (dict_contains_get _ _ _ He).
  rewrite (dict_item_get _ _ _ Hs), (dict_item_get _ _ _ He).
  cbn [andb bind]. rewrite Hez. cbn [bind]. rewrite Hsz. reflexivity.
Qed.

Lemma derive_length_missing (data : dict value) :
  length_missing data -> Parser.derive_length data = Ok data.
Proof.
  intros [H|H]; unfold Parser.derive_length;
    rewrite (dict_contains_none _ _ H); [reflexivity|].
  now rewrite andb_false_r.
Qed.

Lemma derive_damage_ratio_ready (data : dict value) (q : value) :
  ratio_ready data q ->
  Parser.derive_damage_ratio data = Ok (dict_set data "Damage Ratio" q).
Proof.
  intros (m & r & Hm & Hr & Hnz & Hq). unfold Parser.derive_damage_ratio.
  rewrite (dict_contains_get _ _ _ Hm), (dict_contains_get _ _ _ Hr).
  rewrite (dict_item_get _ _ _ Hm), (dict_item_get _ _ _ Hr).
  cbn [andb bind]. rewrite Hnz. cbn [bind]. rewrite Hq. reflexivity.
Qed.

Lemma derive_damage_ratio_missing (data : dict value) :
  ratio_missing data -> Parser.derive_damage_ratio data = Ok data.
Proof.
  intros [H|[H|(r & Hr & Hz)]]; unfold Parser.derive_damage_ratio.
  - now rewrite (dict_contains_none _ _ H).
  - rewrite (dict_contains_none _ _ H). now rewrite andb_false_r.
  - rewrite (dict_item_get _ _ _ Hr). cbn [bind]. rewrite Hz.
    now destruct (_ && _)%bool.
Qed.

(** Setting [Length] does not touch the prerequisites of the ratio. *)
Lemma ratio_ready_after_length (data : dict value) (n : value) (q : value) :
  ratio_ready data q -> ratio_ready (dict_set data "Length" n) q.
Proof.
  intros (m & r & Hm & Hr & H). exists m, r.
  rewrite !dict_get_set_other by discriminate. auto.
Qed.

Lemma ratio_missing_after_length (data : dict value) (n : value) :
  ratio_missing data -> ratio_missing (dict_set data "Length" n).
Proof.
  unfold ratio_missing. rewrite !dict_get_set_other by discriminate. auto.
Qed.

(** C7, as the code has it.  [Length] is set to [int(end) - int(start)]
    when both times are present and [int] accepts both; [Damage Ratio]
    is set to made / received when both damages are present, the
    received one is not zero and the division is defined, as it is for
    two floats.  A field whose prerequisite is missing, or whose
    received damage is zero, is not derived and nothing is raised for
    it.  A time that is present but that [int] rejects makes the deriver
    raise. *)
Theorem derived_fields (data : dict value) :
  (length_missing data -> ratio_missing data ->
   Parser.calculate_additional_metrics data = Ok data)
  /\ (forall sz ez,
        length_ready data sz ez -> ratio_missing data ->
        Parser.calculate_additional_metrics data
        = Ok (dict_set data "Length" (VInt (ez - sz))))
  /\ (forall q,
        length_missing data -> ratio_ready data q ->
        Parser.calculate_additional_metrics data
        = Ok (dict_set data "Damage Ratio" q))
  /\ (forall sz ez q,
        length_ready data sz ez -> ratio_ready data q ->
        Parser.calculate_additional_metrics data
        = Ok (dict_set (dict_set data "Length" (VInt (ez - sz)))
                "Damage Ratio" q))
  /\ (forall x y,
        Py.feq y Py.fzero = false ->
        ne_zero (VFloat y) = true
        /\ truediv (VFloat x) (VFloat y) = Ok (VFloat (SFdiv prec emax x y)))
  /\ (forall s e x,
        dict_get data "Start Time (UNIX)" = Some s ->
        dict_get data "End Time (UNIX)" = Some e ->
        to_int e = Raise x \/ (is_ok (to_int e) = true /\ to_int s = Raise x) ->
        Parser.calculate_additional_metrics data = Raise x)
  /\ (forall m r x,
        length_missing data ->
        dict_get data "Damage Made" = Some m ->
        dict_get data "Damage Received" = Some r ->
        ne_zero r = true -> truediv m r = Raise x ->
        Parser.calculate_additional_metrics data = Raise x).
Proof.
  unfold Parser.calculate_additional_metrics.
  repeat split.
  - intros HL HR.
    rewrite (derive_length_missing _ HL). cbn [bind].
    now apply derive_damage_ratio_missing.
  - intros sz ez HL HR.
    rewrite (derive_length_ready _ _ _ HL). cbn [bind].
    now apply derive_damage_ratio_missing, ratio_missing_after_length.
  - intros q HL HR.
    rewrite (derive_length_missing _ HL). cbn [bind].
    now apply derive_damage_ratio_ready.
  - intros sz ez q HL HR.
    rewrite (derive_length_ready _ _ _ HL). cbn [bind].
    now apply derive_damage_ratio_ready, ratio_ready_after_length.
  - cbn [ne_zero]. now rewrite H.
  - unfold truediv, Py.fdiv. cbn [as_number bind]. now rewrite H.
  - intros s e x Hs He Hx. unfold Parser.derive_length.
    rewrite (dict_contains_get _ _ _ Hs), (dict_contains_get _ _ _ He).
    rewrite (dict_item_get _ _ _ He), (dict_item_get _ _ _ Hs).
    cbn [andb bind].
    destruct Hx as [Hx | [Hok Hx]].
    + rewrite Hx. reflexivity.
    + destruct (to_int e); [|discriminate]. cbn [bind]. rewrite Hx. reflexivity.
  - intros m r x HL Hm Hr Hnz Hx.
    rewrite (derive_length_missing _ HL). cbn [bind].
    unfold Parser.derive_damage_ratio.
    rewrite (dict_contains_get _ _ _ Hm), (dict_contains_get _ _ _ Hr).
    rewrite (dict_item_get _ _ _ Hm), (dict_item_get _ _ _ Hr).
    cbn [andb bind]. rewrite Hnz. cbn [bind]. rewrite Hx. reflexivity.
Qed.

Lemma derived_fields_witness :
  Parser.calculate_additional_metrics
    [("Start Time (UNIX)", VFloat (Py.lit 1000));
     ("End Time (UNIX)", VFloat (Py.lit 1500));
     ("Damage Made", VFloat (Py.lit 200));
     ("Damage Received", VFloat (Py.lit 0))]
  = Ok [("Start Time (UNIX)", VFloat (Py.lit 1000));
        ("End Time (UNIX)", VFloat (Py.lit 1500));
        ("Damage Made", VFloat (Py.lit 200));
        ("Damage Received", VFloat (Py.lit 0));
        ("Length", VInt 500)].
Proof.
  refine (proj1 (proj2 (derived_fields _)) 1000 1500 _ _).
  - exists (VFloat (Py.lit 1000)), (VFloat (Py.lit 1500)).
    repeat split; vm_compute; reflexivity.
  - right. right. exists (VFloat (Py.lit 0)). split; reflexivity.
Defined.

(** C7, as the claim has it, fails: with both times present the deriver
    adds no [Length] when a time is a text that is not a number, and
    with both damages present and the received one not zero it adds no
    [Damage Ratio] when the damage made is such a text; it raises. *)
Lemma derived_fields_raise_on_text :
  (exists data,
     Parser.parse_lines [] ["Start Time (UNIX): 1000"; "End Time (UNIX): soon"]
     = Ok data
     /\ dict_contains data "Start Time (UNIX)" = true
     /\ dict_contains data "End Time (UNIX)" = true
     /\ Parser.calculate_additional_metrics data = Raise ValueError)
  /\ (exists data,
        Parser.parse_lines [] ["Damage Made: lots"; "Damage Received: 5"]
        = Ok data
        /\ dict_contains data "Damage Made" = true
        /\ dict_get data "Damage Received" = Some (VFloat (Py.lit 5))
        /\ ne_zero (VFloat (Py.lit 5)) = true
        /\ Parser.calculate_additional_metrics data = Raise TypeError).
Proof.
  split.
  - eexists. split; [vm_compute; reflexivity|]. repeat split.
  - eexists. split; [vm_compute; reflexivity|]. repeat split.
Qed.

(** ** The result store *)

Lemma index_rows_length (rows : list (dict (option string)))
  (items : list (option string * dict (option string))) :
  index_rows rows = Ok items -> List.length items = List.length rows.
Proof.
  revert items. induction rows as [|row rest IH]; simpl; intros items H.
  - inversion H. reflexivity.
  - destruct (dict_item row "Filename"); [|discriminate]. cbn [bind] in H.
    destruct (index_rows rest) as [its|]; [|discriminate]. cbn [bind] in H.
    inversion H. simpl. now rewrite (IH its).
Qed.

Lemma is_nil_length {A B} (l : list A) (l' : list B) :
  List.length l = List.length l' -> is_nil l = is_nil l'.
Proof. destruct l, l'; simpl; congruence. Qed.

(** The skip-set is empty exactly when the table has no data row. *)
Lemma skip_set_empty (f : csv_file)
  (existing : list (option string * dict (option string))) :
  load_existing_results f = Ok existing ->
  is_nil (map fst existing) = is_nil (data_rows f).
Proof.
  unfold load_existing_results, data_rows.
  destruct f as [rs|]; simpl.
  - intros H. apply index_rows_length in H.
    apply is_nil_length. rewrite length_map, H.
    destruct rs as [|fieldnames rows]; simpl; auto.
    now rewrite length_map.
  - intros H. inversion H. reflexivity.
Qed.

Lemma append_assoc (a b c : string) : (a ++ b) ++ c = a ++ b ++ c.
Proof. induction a as [|x a IH]; simpl; congruence. Qed.

Lemma append_empty (a : string) : a ++ "" = a.
Proof. induction a as [|x a IH]; simpl; congruence. Qed.

Section Writing.

Variable float_repr : Py.float -> string.
Variable format_2f : Py.float -> string.
Variable csv_reader : string -> list (list string) * option exn.
Variable csv_writerow : list string -> string.


(** The writer only adds text after the text of the file, the lines of
    the rows it has converted, and on success these are all the rows. *)
Lemma writerows_appends_text (fieldnames : list string)
  (results : list (dict value)) (text : string) :
  exists written,
    fst (Bytes.writerows float_repr csv_writerow fieldnames results text)
    = text ++ lines_of csv_writerow written
    /\ match snd (Bytes.writerows float_repr csv_writerow fieldnames results text) with
       | Ok _ => written = map (row_cells float_repr fieldnames) results
       | Raise _ => True
       end.
Proof.
  revert text. induction results as [|row rest IH]; intros text; simpl.
  - exists []. split; [|reflexivity]. unfold lines_of. simpl.
    now rewrite append_empty.
  - unfold dict_to_list.
    destruct (forallb _ (dict_keys row)).
    + destruct (IH (text ++ csv_writerow (row_cells float_repr fieldnames row)))
        as (written & Hf & Hs).
      exists (row_cells float_repr fieldnames row :: written). split.
      * rewrite Hf, append_assoc. reflexivity.
      * destruct (snd (Bytes.writerows _ _ _ rest _)); auto. now rewrite Hs.
    + exists []. split; [|exact I]. unfold lines_of. simpl.
      now rewrite append_empty.
Qed.

(** The skip-set is empty exactly when the reader finds no data row in
    the table, or there is no table. *)
Lemma skip_set_empty_text (f : option string)
  (existing : list (option string * dict (option string))) :
  Bytes.load_existing_results csv_reader f = Ok existing ->
  is_nil (map fst existing) = is_nil (data_rows (records_read csv_reader f)).
Proof.
  unfold Bytes.load_existing_results, records_read.
  destruct f as [text|].
  - destruct (csv_reader text) as [rs stop]. cbn [fst].
    destruct (index_rows (dict_reader rs)) as [items|] eqn:E; [|discriminate].
    cbn [bind]. destruct stop; [discriminate|].
    intros H. inversion H. subst items.
    now apply skip_set_empty.
  - intros H. inversion H. reflexivity.
Qed.

(** C9. A run leaves the content directory and the weight file alone
    and only appends to the text of the output table: the characters
    the file held come first, unchanged, wherever its last line stops,
    and a run that scores nothing leaves the file as it is, absent if
    it was.  A run that succeeds appends the lines of one row per new
    result, preceded by the line of a header row of the first result's
    field names exactly when its skip-set was empty; and the skip-set
    is empty exactly when the table does not exist or the reader finds
    no data row in it. *)
Theorem run_only_appends (w : Bytes.world) :
  let '(w', r) := Bytes.main float_repr format_2f csv_reader csv_writerow w in
  Bytes.content w' = Bytes.content w
  /\ Bytes.weights_file w' = Bytes.weights_file w
  /\ (exists written,
        Bytes.output_file w'
        = (if is_nil written then Bytes.output_file w
           else Some (text_of (Bytes.output_file w)
                      ++ lines_of csv_writerow written))
        /\ match r with
           | Ok results =>
               exists existing_results,
                 Bytes.load_existing_results csv_reader (Bytes.output_file w)
                 = Ok existing_results
                 /\ written = rows_written float_repr
                                (is_nil (map fst existing_results)) results
           | Raise _ => True
           end)
  /\ match Bytes.load_existing_results csv_reader (Bytes.output_file w) with
     | Ok existing_results =>
         is_nil (map fst existing_results)
         = is_nil (data_rows (records_read csv_reader (Bytes.output_file w)))
     | Raise _ => True
     end.
Proof.
  unfold Bytes.main.
  set (load := Bytes.load_existing_results csv_reader (Bytes.output_file w)).
  assert (Hskip : match load with
                  | Ok existing_results =>
                      is_nil (map fst existing_results)
                      = is_nil (data_rows
                                  (records_read csv_reader (Bytes.output_file w)))
                  | Raise _ => True
                  end).
  { subst load.
    destruct (Bytes.load_existing_results csv_reader (Bytes.output_file w)) eqn:E;
      auto.
    now apply skip_set_empty_text. }
  assert (Hnone : forall e : exn,
             Bytes.content w = Bytes.content w
             /\ Bytes.weights_file w = Bytes.weights_file w
             /\ (exists written : list (list string),
                   Bytes.output_file w
                   = (if is_nil written then Bytes.output_file w
                      else Some (text_of (Bytes.output_file w)
                                 ++ lines_of csv_writerow written))
                   /\ True)
             /\ match load with
                | Ok existing_results =>
                    is_nil (map fst existing_results)
                    = is_nil (data_rows
                                (records_read csv_reader (Bytes.output_file w)))
                | Raise _ => True
                end).
  { intros _. repeat split; auto. exists []. auto. }
  destruct (load_weights (Bytes.weights_file w)) as [weights|e]; cbn [bind];
    [|exact (Hnone e)].
  destruct load as [existing|e] eqn:Eload; cbn [bind]; [|exact (Hnone e)].
  destruct (process_files _ _ weights (map fst existing) (Bytes.content w) [])
    as [results|e]; cbn [bind]; [|exact (Hnone e)].
  unfold Bytes.append_results.
  destruct results as [|first rest].
  - cbn [bind Bytes.content Bytes.weights_file Bytes.output_file].
    repeat split; auto. exists []. split; auto.
    exists existing. auto.
  - set (fieldnames := dict_keys first).
    fold (text_of (Bytes.output_file w)).
    set (text0 := if is_nil (map fst existing)
                  then text_of (Bytes.output_file w) ++ csv_writerow fieldnames
                  else text_of (Bytes.output_file w)).
    destruct (writerows_appends_text fieldnames (first :: rest) text0)
      as (written & Hf & Hs).
    destruct (Bytes.writerows float_repr csv_writerow fieldnames
                (first :: rest) text0) as [text r] eqn:Ew.
    cbn [fst snd] in Hf, Hs.
    cbn [bind Bytes.content Bytes.weights_file Bytes.output_file].
    repeat split; auto.
    exists ((if is_nil (map fst existing) then [fieldnames] else []) ++ written)%list.
    split.
    + subst text text0.
      destruct (is_nil (map fst existing)) eqn:En.
      * cbn [app is_nil]. rewrite append_assoc. reflexivity.
      * cbn [app].
        destruct written as [|x xs]; cbn [is_nil]; auto.
        unfold lines_of. cbn [map fold_right]. rewrite append_empty.
        destruct (Bytes.output_file w) as [t|]; [reflexivity|].
        subst load. simpl in Eload. inversion Eload. subst existing.
        discriminate En.
    + destruct r as [[]|e]; cbn [bind]; auto.
      exists existing. split; auto.
      unfold rows_written. fold fieldnames. now rewrite Hs.
Qed.

(** C4, on the code.  One match file is scored and written; a second
    file with one more field arrives and its row is appended under the
    header of the first, so that its file name lies outside the
    [Filename] column; the third run does not find the name in its
    skip-set, scores the file again and appends a second row for it. *)
Theorem misaligned_row_is_scored_again :
  let run := main float_repr format_2f in
  let w1 := fst (run first_world) in
  let w2 := fst (run (arrive w1)) in
  let w3 := fst (run w2) in
  scored_names (snd (run first_world)) = [Some (VStr "a.md")]
  /\ scored_names (snd (run (arrive w1))) = [Some (VStr "b.md")]
  /\ content w2 = content (arrive w1)
  /\ scored_names (snd (run w2)) = [Some (VStr "b.md")]
  /\ List.length (rows_for "b.md" (output_file w3)) = 2%nat.
Proof. vm_compute. repeat split. Qed.

End Writing.

(** * Further properties *)

(** ** Order on floats *)

Lemma SFcompare_antisym (x y : Py.float) (c : comparison) :
  SFcompare x y = Some c -> SFcompare y x = Some (CompOpp c).
Proof.
  destruct x as [sx|sx| |sx mx ex], y as [sy|sy| |sy my ey]; simpl;
    try discriminate;
    try (destruct sx); try (destruct sy);
    intros H; inversion H; try reflexivity.
  - rewrite (Z.compare_antisym ex ey).
    destruct (ex ?= ey); simpl; try reflexivity.
    repeat rewrite Pos.compare_cont_antisym. reflexivity.
  - rewrite (Z.compare_antisym ex ey).
    destruct (ex ?= ey); simpl; try reflexivity.
    repeat rewrite Pos.compare_cont_antisym. reflexivity.
Qed.

Lemma flt_not_fge (v t : Py.float) : Py.flt v t = true -> Py.fge v t = false.
Proof.
  unfold Py.flt, Py.fge, SFltb, SFleb.
  destruct (SFcompare v t) as [[]|] eqn:E; try discriminate.
  now rewrite (SFcompare_antisym _ _ _ E).
Qed.

Lemma fge_not_flt (v t : Py.float) : Py.fge v t = true -> Py.flt v t = false.
Proof.
  unfold Py.flt, Py.fge, SFltb, SFleb.
  destruct (SFcompare t v) as [[]|] eqn:E; try discriminate;
    now rewrite (SFcompare_antisym _ _ _ E).
Qed.

(** For two numbers, [not (x < y)] is [y <= x]. *)
Lemma not_flt_fle (x y : Py.float) :
  Py.feq x x = true -> Py.feq y y = true ->
  Py.flt x y = false -> Py.fle y x = true.
Proof.
  unfold Py.feq, Py.flt, Py.fle, SFeqb, SFltb, SFleb.
  intros Hx Hy.
  destruct (SFcompare x y) as [c|] eqn:E.
  - rewrite (SFcompare_antisym _ _ _ E). destruct c; simpl; congruence.
  - destruct x, y; simpl in *; try discriminate;
      try (destruct s); try (destruct s0); discriminate.
Qed.

Lemma flt_fle (x y : Py.float) : Py.flt x y = true -> Py.fle x y = true.
Proof.
  unfold Py.flt, Py.fle, SFltb, SFleb.
  destruct (SFcompare x y) as [[]|]; congruence.
Qed.

(** ** The sort of the tiers *)

Lemma insert_tier_length (t : tier) (l : list tier) :
  List.length (insert_tier t l) = S (List.length l).
Proof.
  induction l as [|u r IH]; simpl; auto.
  destruct (Py.flt (fst t) (fst u)); simpl; auto.
Qed.

Lemma sorted_length (tiers : list tier) :
  List.length (sorted tiers) = List.length tiers.
Proof.
  unfold sorted.
  assert (H : forall acc,
             List.length (fold_left (fun acc t => insert_tier t acc) tiers acc)
             = (List.length tiers + List.length acc)%nat).
  { induction tiers as [|t r IH]; intros acc; simpl; auto.
    rewrite IH, insert_tier_length. lia. }
  rewrite H. simpl. lia.
Qed.

Lemma insert_tier_ascending (t : tier) (l : list tier) :
  Py.feq (fst t) (fst t) = true ->
  Forall (fun u => Py.feq (fst u) (fst u) = true) l ->
  ascending l -> ascending (insert_tier t l).
Proof.
  intros Ht. induction l as [|u r IH]; intros Hl Hs.
  - simpl. auto.
  - inversion Hl as [|? ? Hu Hr]; subst.
    cbn [insert_tier].
    destruct (Py.flt (fst t) (fst u)) eqn:E.
    + split; [|exact Hs]. now apply flt_fle.
    + destruct Hs as [Hhd Hs]. specialize (IH Hr Hs).
      split; [|exact IH].
      destruct r as [|w r']; cbn [insert_tier].
      * now apply not_flt_fle.
      * destruct (Py.flt (fst t) (fst w)); [now apply not_flt_fle | exact Hhd].
Qed.

Lemma insert_tier_Forall (P : tier -> Prop) (t : tier) (l : list tier) :
  P t -> Forall P l -> Forall P (insert_tier t l).
Proof.
  intros Ht Hl. rewrite Forall_forall in *. intros u Hu.
  apply insert_tier_In in Hu. destruct Hu as [->|Hu]; auto.
Qed.

Lemma insert_tier_perm (t : tier) (l : list tier) :
  Permutation (t :: l) (insert_tier t l).
Proof.
  induction l as [|u r IH]; simpl.
  - apply Permutation_refl.
  - destruct (Py.flt (fst t) (fst u)).
    + apply Permutation_refl.
    + apply perm_trans with (u :: t :: r).
      * apply perm_swap.
      * now apply perm_skip.
Qed.

Lemma fold_insert_sorts (tiers acc : list tier) :
  Forall (fun u => Py.feq (fst u) (fst u) = true) tiers ->
  Forall (fun u => Py.feq (fst u) (fst u) = true) acc ->
  ascending acc ->
  Permutation (tiers ++ acc)
    (fold_left (fun acc t => insert_tier t acc) tiers acc)
  /\ ascending (fold_left (fun acc t => insert_tier t acc) tiers acc).
Proof.
  revert acc. induction tiers as [|t r IH]; intros acc Ht Ha Hs; simpl.
  - split; [apply Permutation_refl | exact Hs].
  - inversion Ht as [|? ? Hn Hr]; subst.
    destruct (IH (insert_tier t acc) Hr) as [Hp Hasc].
    + now apply insert_tier_Forall.
    + now apply insert_tier_ascending.
    + split; [|exact Hasc].
      apply perm_trans with (r ++ insert_tier t acc)%list; [|exact Hp].
      apply perm_trans with (r ++ t :: acc)%list.
      * apply Permutation_middle.
      * apply Permutation_app_head, insert_tier_perm.
Qed.

(** X1. When no target is NaN, the tiers the scan goes through are the
    tiers of the weight table, each once, with targets in non-decreasing
    order, whatever their order in the table. *)
Theorem sorted_is_ascending_permutation (tiers : list tier) :
  Forall (fun u => Py.feq (fst u) (fst u) = true) tiers ->
  Permutation tiers (sorted tiers) /\ ascending (sorted tiers).
Proof.
  intros H. unfold sorted.
  destruct (fold_insert_sorts tiers [] H (Forall_nil _) I) as [Hp Hs].
  split; [|exact Hs]. now rewrite app_nil_r in Hp.
Qed.

Lemma sorted_is_ascending_permutation_witness :
  Permutation [(Py.lit 20, Py.lit 10); (Py.lit 0, Py.lit 0); (Py.lit 10, Py.lit 5)]
    (sorted [(Py.lit 20, Py.lit 10); (Py.lit 0, Py.lit 0); (Py.lit 10, Py.lit 5)])
  /\ ascending
       (sorted [(Py.lit 20, Py.lit 10); (Py.lit 0, Py.lit 0); (Py.lit 10, Py.lit 5)]).
Proof.
  apply sorted_is_ascending_permutation.
  repeat constructor.
Defined.

(** ** The scan of the tiers *)

(** A value below its first tier stops the scan at once. *)
Lemma scan_below_head (metric : string) (v : Py.float) (t : tier)
  (rest : list tier) (acc : tally) :
  Py.flt v (fst t) = true ->
  scan_tiers metric v 0 (t :: rest) acc = Ok acc.
Proof.
  intros H. destruct t as [target bonus], acc as [score bd]. simpl in *.
  now rewrite (flt_not_fge _ _ H), H.
Qed.

(** X2. A metric whose value is below every target of its tiers adds
    nothing to the score and no entry to the breakdown. *)
Theorem value_below_all_targets (data : dict value) (metric : string)
  (v : Py.float) (tiers : list tier) (acc : tally) :
  to_float (get_metric data metric) = Ok v ->
  Forall (fun t => Py.flt v (fst t) = true) tiers ->
  score_metric data acc (metric, tiers) = Ok acc.
Proof.
  intros Hv Hall. unfold score_metric. rewrite Hv. cbn [bind].
  destruct (sorted tiers) as [|t rest] eqn:E; [reflexivity|].
  apply scan_below_head.
  rewrite Forall_forall in Hall. apply Hall, sorted_In.
  rewrite E. simpl. auto.
Qed.

Lemma value_below_all_targets_witness :
  score_metric [("Kills", VFloat (Py.lit 3))] (Py.lit 1, [])
    ("Kills", [(Py.lit 20, Py.lit 10); (Py.lit 10, Py.lit 5)])
  = Ok (Py.lit 1, []).
Proof.
  apply (value_below_all_targets _ _ (Py.lit 3)).
  - reflexivity.
  - repeat constructor.
Defined.

Lemma last_cons_default {A} (h d : A) (l : list A) :
  last (h :: l) d = last l h.
Proof.
  revert h d. induction l as [|x r IH]; intros h d; [reflexivity|].
  change (last (h :: x :: r) d) with (last (x :: r) d).
  now rewrite (IH x d), (IH x h).
Qed.

(** One turn of the loop, on a tier that the value reaches but that is
    not the last, when the value reaches the next target too. *)
Lemma scan_tiers_continue (metric : string) (v : Py.float) (i : nat)
  (target bonus : Py.float) (u : tier) (r : list tier) (acc : tally) :
  Py.fge v target = true -> Py.flt v (fst u) = false ->
  scan_tiers metric v i ((target, bonus) :: u :: r) acc
  = scan_tiers metric v (S i) (u :: r) acc.
Proof.
  intros Hge Hlt. destruct u as [next_target next_bonus], acc as [score bd].
  simpl in Hlt.
  change (scan_tiers metric v i
            ((target, bonus) :: (next_target, next_bonus) :: r) (score, bd))
    with (if Py.fge v target
          then if Py.flt v next_target
               then interpolated_bonus <-
                      calculate_interpolated_bonus v target next_target
                        bonus next_bonus ;;
                    Ok (Py.fadd score interpolated_bonus,
                        (bd ++ [Interpolated metric v interpolated_bonus])%list)
               else scan_tiers metric v (S i)
                      ((next_target, next_bonus) :: r) (score, bd)
          else if (Nat.eqb i 0 && Py.flt v target)%bool then Ok (score, bd)
               else scan_tiers metric v (S i)
                      ((next_target, next_bonus) :: r) (score, bd)).
  now rewrite Hge, Hlt.
Qed.

(** From any index, a value that reaches every remaining target is
    carried to the last tier and awarded its bonus. *)
Lemma scan_above_all (metric : string) (v : Py.float) (l : list tier)
  (t : tier) (i : nat) (score : Py.float) (bd : list entry) :
  Forall (fun u => Py.fge v (fst u) = true) (t :: l) ->
  scan_tiers metric v i (t :: l) (score, bd)
  = Ok (Py.fadd score (snd (last l t)),
        (bd ++ [TopTier metric v (fst (last l t)) (snd (last l t))])%list).
Proof.
  revert t i. induction l as [|u r IH]; intros [target bonus] i H.
  - inversion H as [|? ? Ht _]; subst. simpl in *. now rewrite Ht.
  - inversion H as [|? ? Ht Hr]; subst.
    inversion Hr as [|? ? Hu _]; subst.
    simpl in Ht.
    rewrite (scan_tiers_continue _ _ _ _ _ _ _ _ Ht (fge_not_flt _ _ Hu)).
    rewrite (IH u (S i) Hr).
    now rewrite (last_cons_default u (target, bonus) r).
Qed.

(** X3. A metric whose value reaches every target of its tiers is
    awarded the bonus of the last tier in sorted order, as it stands,
    with a top-tier entry; there is no interpolation beyond the top. *)
Theorem value_above_all_targets (data : dict value) (metric : string)
  (v : Py.float) (t : tier) (tiers : list tier) (score : Py.float)
  (bd : list entry) :
  to_float (get_metric data metric) = Ok v ->
  Forall (fun u => Py.fge v (fst u) = true) (t :: tiers) ->
  let top := last (sorted (t :: tiers)) t in
  score_metric data (score, bd) (metric, t :: tiers)
  = Ok (Py.fadd score (snd top),
        (bd ++ [TopTier metric v (fst top) (snd top)])%list).
Proof.
  intros Hv Hall top. unfold score_metric. rewrite Hv. cbn [bind].
  subst top.
  destruct (sorted (t :: tiers)) as [|h rest] eqn:E.
  - pose proof (sorted_length (t :: tiers)) as Hl. rewrite E in Hl. discriminate.
  - assert (Hs : Forall (fun u => Py.fge v (fst u) = true) (h :: rest)).
    { rewrite Forall_forall in *. intros u Hu. apply Hall, sorted_In.
      now rewrite E. }
    rewrite (scan_above_all _ _ _ _ _ _ _ Hs).
    now rewrite (last_cons_default h t rest).
Qed.

Lemma value_above_all_targets_witness :
  score_metric [("Kills", VFloat (Py.lit 30))] (Py.lit 1, [])
    ("Kills", [(Py.lit 20, Py.lit 10); (Py.lit 10, Py.lit 5)])
  = Ok (Py.fadd (Py.lit 1) (Py.lit 10),
        [TopTier "Kills" (Py.lit 30) (Py.lit 20) (Py.lit 10)]).
Proof.
  apply (value_above_all_targets [("Kills", VFloat (Py.lit 30))] "Kills"
           (Py.lit 30) (Py.lit 20, Py.lit 10) [(Py.lit 10, Py.lit 5)]
           (Py.lit 1) []).
  - reflexivity.
  - repeat constructor.
Defined.

(** The scan adds at most one entry, about its own metric. *)
Lemma scan_tiers_entries (metric : string) (v : Py.float) (tiers : list tier)
  (i : nat) (acc acc' : tally) :
  scan_tiers metric v i tiers acc = Ok acc' ->
  acc' = acc
  \/ exists e, entry_metric e = metric /\ snd acc' = (snd acc ++ [e])%list.
Proof.
  revert i. induction tiers as [|[target bonus] rest IH]; intros i.
  - simpl. intros H. inversion H. auto.
  - destruct acc as [score bd]. cbn [scan_tiers].
    destruct (Py.fge v target).
    + destruct rest as [|[next_target next_bonus] rest'].
      * intros H. inversion H. right. eexists. split; [|reflexivity]. reflexivity.
      * destruct (Py.flt v next_target).
        -- destruct (calculate_interpolated_bonus _ _ _ _ _) as [b|]; [|discriminate].
           cbn [bind]. intros H. inversion H. right.
           eexists. split; [|reflexivity]. reflexivity.
        -- apply IH.
    + destruct (Nat.eqb i 0 && Py.flt v target)%bool.
      * intros H. inversion H. auto.
      * apply IH.
Qed.

Lemma sublist_In {A : Type} (l m : list A) (x : A) :
  sublist l m -> In x l -> In x m.
Proof.
  induction 1 as [|y l m H IH|y l m H IH]; simpl; auto.
  intros [->|Hx]; auto.
Qed.

Lemma sublist_NoDup {A : Type} (l m : list A) :
  sublist l m -> NoDup m -> NoDup l.
Proof.
  induction 1 as [|y l m H IH|y l m H IH]; intros Hm; auto.
  - inversion Hm; subst. auto.
  - inversion Hm; subst. constructor; auto.
    intros Hy. apply (sublist_In _ _ _ H) in Hy. contradiction.
Qed.

(** The metrics are gone through in the order of the table, and each
    adds its entry, if any, at the end. *)
Lemma score_metrics_entries (data : dict value) (weights : dict (list tier))
  (acc acc' : tally) :
  score_metrics data weights acc = Ok acc' ->
  exists added,
    snd acc' = (snd acc ++ added)%list
    /\ sublist (map entry_metric added) (dict_keys weights).
Proof.
  revert acc. induction weights as [|[metric tiers] rest IH]; intros acc; simpl.
  - intros H. inversion H. exists []. rewrite app_nil_r.
    split; [reflexivity|constructor].
  - destruct (to_float (get_metric data metric)) as [v|]; [|discriminate].
    cbn [bind].
    destruct (scan_tiers metric v 0 (sorted tiers) acc) as [acc1|] eqn:E;
      [|discriminate].
    cbn [bind]. intros H.
    destruct (IH _ H) as (added & Hsnd & Hsub).
    destruct (scan_tiers_entries _ _ _ _ _ _ E) as [-> | (e & He & Hs)].
    + exists added. split; [exact Hsnd|]. now constructor.
    + exists (e :: added). rewrite Hsnd, Hs, <- app_assoc.
      split; [reflexivity|]. cbn [map]. rewrite He. now constructor.
Qed.

(** X4. The metrics of the entries of a breakdown are metrics of the
    weight table, in the order of the table and no more often than the
    table names them: as a table names each metric once, the breakdown
    holds at most one entry per metric. *)
Theorem breakdown_at_most_one_per_metric (data : dict value)
  (weights : dict (list tier)) (score : Py.float) (bd : list entry) :
  calculate_score data weights = Ok (score, bd) ->
  sublist (map entry_metric bd) (dict_keys weights)
  /\ (NoDup (dict_keys weights) -> NoDup (map entry_metric bd)).
Proof.
  unfold calculate_score.
  destruct (score_metrics data weights (Py.fzero, [])) as [[s b]|] eqn:E;
    [|discriminate].
  cbn [bind]. intros H. inversion H. subst.
  destruct (score_metrics_entries _ _ _ _ E) as (added & Hsnd & Hsub).
  simpl in Hsnd. subst bd.
  split; [exact Hsub|]. now apply sublist_NoDup.
Qed.

Lemma breakdown_at_most_one_per_metric_witness :
  sublist
    (map entry_metric
       [TopTier "Kills" (Py.lit 25) (Py.lit 20) (Py.lit 10);
        Interpolated "Assists" (Py.lit 5) (Py.lit 2.5)])
    (dict_keys [("Kills", example_tiers); ("Deaths", [(Py.lit 30, Py.lit 1)]);
                ("Assists", example_tiers)])
  /\ (NoDup (dict_keys [("Kills", example_tiers);
                        ("Deaths", [(Py.lit 30, Py.lit 1)]);
                        ("Assists", example_tiers)]) ->
      NoDup (map entry_metric
               [TopTier "Kills" (Py.lit 25) (Py.lit 20) (Py.lit 10);
                Interpolated "Assists" (Py.lit 5) (Py.lit 2.5)])).
Proof.
  apply (breakdown_at_most_one_per_metric
           [("Kills", VFloat (Py.lit 25)); ("Deaths", VFloat (Py.lit 3));
            ("Assists", VFloat (Py.lit 5))]
           [("Kills", example_tiers); ("Deaths", [(Py.lit 30, Py.lit 1)]);
            ("Assists", example_tiers)]
           (Py.lit 12.5)).
  vm_compute. reflexivity.
Defined.

(** X5. A metric of the weight table for which the record holds a text
    that is not a number makes the scorer raise: no score comes out. *)
Theorem text_metric_raises (data : dict value) (weights : dict (list tier))
  (metric s : string) :
  In metric (dict_keys weights) ->
  dict_get data metric = Some (VStr s) ->
  Py.float_of_string s = None ->
  exists e, calculate_score data weights = Raise e.
Proof.
  intros Hin Hget Hf. unfold calculate_score.
  assert (H : forall acc, exists e, score_metrics data weights acc = Raise e).
  { induction weights as [|[m tiers] rest IH]; [destruct Hin|].
    intros acc. cbn [score_metrics score_metric].
    destruct (String.eqb m metric) eqn:E.
    - apply String.eqb_eq in E. subst m.
      unfold get_metric. rewrite Hget. cbn [to_float]. rewrite Hf.
      cbn [bind]. eauto.
    - destruct Hin as [Hm|Hin].
      + simpl in Hm. apply String.eqb_neq in E. contradiction.
      + destruct (to_float (get_metric data m)) as [v|]; cbn [bind]; eauto.
        destruct (scan_tiers m v 0 (sorted tiers) acc); cbn [bind]; eauto. }
  destruct (H (Py.fzero, [])) as [e He]. rewrite He. cbn [bind]. eauto.
Qed.

Lemma text_metric_raises_witness :
  exists e,
    calculate_score [("Kills", VStr "many")] [("Kills", example_tiers)] = Raise e.
Proof.
  apply (text_metric_raises _ _ "Kills" "many").
  - simpl. auto.
  - reflexivity.
  - reflexivity.
Defined.

(** X6. A metric whose value is NaN never scores: no comparison with a
    target holds, the scan runs off the end of the tiers and leaves the
    score and the breakdown as they were. *)
Theorem nan_never_scores (data : dict value) (metric : string)
  (tiers : list tier) (acc : tally) :
  to_float (get_metric data metric) = Ok Py.fnan ->
  score_metric data acc (metric, tiers) = Ok acc.
Proof.
  intros Hv. unfold score_metric. rewrite Hv. cbn [bind].
  generalize 0%nat. generalize (sorted tiers).
  induction l as [|[target bonus] rest IH]; intros i.
  - reflexivity.
  - destruct acc as [score bd]. cbn [scan_tiers].
    assert (Hge : Py.fge Py.fnan target = false).
    { unfold Py.fge, SFleb. now destruct target. }
    assert (Hlt : Py.flt Py.fnan target = false) by reflexivity.
    rewrite Hge, Hlt, andb_false_r. apply IH.
Qed.

Lemma nan_never_scores_witness :
  score_metric [("Kills", VStr "nan")] (Py.lit 1, []) ("Kills", example_tiers)
  = Ok (Py.lit 1, []).
Proof.
  apply nan_never_scores. reflexivity.
Defined.

(** ** The weight table loader *)

Lemma load_weight_rows_cons (weights : dict (list tier)) (row : list string)
  (rest : list (list string)) :
  load_weight_rows weights (row :: rest)
  = match row_tier row with
    | Some (metric, t) =>
        load_weight_rows (setdefault_append weights metric t) rest
    | None => Raise ValueError
    end.
Proof.
  destruct row as [|m [|t [|b [|x r]]]]; try reflexivity.
  cbn [load_weight_rows row_tier to_float].
  destruct (Py.float_of_string t); cbn [bind]; [|reflexivity].
  destruct (Py.float_of_string b); reflexivity.
Qed.

Lemma tiers_in_setdefault (weights : dict (list tier)) (k m : string) (t : tier) :
  tiers_in (setdefault_append weights k t) m
  = if String.eqb k m then (tiers_in weights m ++ [t])%list
    else tiers_in weights m.
Proof.
  unfold tiers_in.
  induction weights as [|[k' ts] r IH]; simpl.
  - destruct (String.eqb k m); reflexivity.
  - destruct (String.eqb k' k) eqn:E; simpl.
    + apply String.eqb_eq in E. subst k'.
      destruct (String.eqb k m); reflexivity.
    + destruct (String.eqb k' m) eqn:E'.
      * apply String.eqb_eq in E'. subst k'. now rewrite String.eqb_sym, E.
      * exact IH.
Qed.

Lemma setdefault_keys (weights : dict (list tier)) (k : string) (t : tier) :
  dict_keys (setdefault_append weights k t)
  = if dict_contains weights k then dict_keys weights
    else (dict_keys weights ++ [k])%list.
Proof.
  unfold dict_contains.
  induction weights as [|[k' ts] r IH]; simpl; auto.
  destruct (String.eqb k' k) eqn:E; simpl; auto.
  rewrite IH. now destruct (dict_get r k).
Qed.

Lemma NoDup_snoc {A} (l : list A) (x : A) :
  NoDup l -> ~ In x l -> NoDup (l ++ [x]).
Proof.
  intros Hl Hx. induction Hl as [|y l Hy Hl IH]; simpl.
  - constructor; [intros []|constructor].
  - constructor.
    + rewrite in_app_iff. simpl. intros [H|[H|[]]]; [contradiction|].
      subst. apply Hx. simpl. auto.
    + apply IH. intros H. apply Hx. simpl. auto.
Qed.

Lemma dict_contains_keys {V} (d : dict V) (k : string) :
  dict_contains d k = false <-> ~ In k (dict_keys d).
Proof.
  rewrite <- dict_get_None_keys. unfold dict_contains.
  destruct (dict_get d k); split; congruence.
Qed.

Lemma setdefault_well_grouped (weights : dict (list tier)) (k : string) (t : tier) :
  well_grouped weights -> well_grouped (setdefault_append weights k t).
Proof.
  intros [Hnd Hne]. split.
  - rewrite setdefault_keys.
    destruct (dict_contains weights k) eqn:E; auto.
    apply NoDup_snoc; auto. now apply dict_contains_keys.
  - intros m. rewrite tiers_in_setdefault, setdefault_keys.
    destruct (String.eqb k m) eqn:E.
    + apply String.eqb_eq in E. subst m. split.
      * intros _ H. now apply app_eq_nil in H as [_ H].
      * intros _. destruct (dict_contains weights k) eqn:Ec.
        -- destruct (In_dec string_dec k (dict_keys weights)) as [H|H]; auto.
           apply dict_contains_keys in H. congruence.
        -- rewrite in_app_iff. simpl. auto.
    + apply String.eqb_neq in E.
      destruct (dict_contains weights k); [apply Hne|].
      rewrite in_app_iff, <- Hne. simpl. intuition.
Qed.

Lemma load_weight_rows_groups (rows : list (list string)) (weights : dict (list tier)) :
  Forall (fun row => row_tier row <> None) rows ->
  well_grouped weights ->
  exists weights',
    load_weight_rows weights rows = Ok weights'
    /\ well_grouped weights'
    /\ forall m, tiers_in weights' m = (tiers_in weights m ++ tiers_for m rows)%list.
Proof.
  revert weights. induction rows as [|row rest IH]; intros weights Hrows Hw.
  - exists weights. repeat split; try apply Hw.
    intros m. simpl. now rewrite app_nil_r.
  - inversion Hrows as [|? ? Hrow Hrest]; subst.
    rewrite load_weight_rows_cons. cbn [tiers_for].
    destruct (row_tier row) as [[metric t]|]; [|congruence].
    destruct (IH (setdefault_append weights metric t) Hrest
                (setdefault_well_grouped _ _ _ Hw)) as (w' & Hload & Hw' & Hin).
    exists w'. split; [exact Hload|]. split; [exact Hw'|].
    intros m. rewrite Hin, tiers_in_setdefault.
    destruct (String.eqb metric m); [|reflexivity].
    now rewrite <- app_assoc.
Qed.

(** X7. From a weight file whose data rows all hold a metric and two
    numbers, the loader builds a table with distinct keys that gives
    each metric exactly its tiers, in the order of the rows; a metric is
    a key exactly when some row names it.  The header row is not
    read. *)
Theorem load_weights_groups_rows (header : list string) (rows : list (list string)) :
  Forall (fun row => row_tier row <> None) rows ->
  exists weights,
    load_weights (header :: rows) = Ok weights
    /\ NoDup (dict_keys weights)
    /\ forall m,
         tiers_in weights m = tiers_for m rows
         /\ (In m (dict_keys weights) <-> tiers_for m rows <> []).
Proof.
  intros Hrows.
  assert (Hnil : well_grouped []).
  { split; [constructor|]. intros m. simpl. unfold tiers_in. simpl.
    split; [intros []|congruence]. }
  destruct (load_weight_rows_groups rows [] Hrows Hnil)
    as (w & Hload & [Hnd Hne] & Hin).
  exists w. split; [exact Hload|]. split; [exact Hnd|].
  intros m. split.
  - rewrite Hin. reflexivity.
  - rewrite Hne, Hin. reflexivity.
Qed.

Lemma load_weights_groups_rows_witness :
  exists weights,
    load_weights [["metric"; "target"; "bonus"]; ["Kills"; "10"; "5"];
                  ["Deaths"; "3"; "1"]; ["Kills"; "0"; "0"]]
    = Ok weights
    /\ NoDup (dict_keys weights)
    /\ forall m,
         tiers_in weights m
         = tiers_for m [["Kills"; "10"; "5"]; ["Deaths"; "3"; "1"];
                        ["Kills"; "0"; "0"]]
         /\ (In m (dict_keys weights)
             <-> tiers_for m [["Kills"; "10"; "5"]; ["Deaths"; "3"; "1"];
                              ["Kills"; "0"; "0"]] <> []).
Proof.
  apply load_weights_groups_rows.
  repeat constructor; discriminate.
Defined.

(** X8. The loader rejects an empty weight file, which has no header
    to skip, with [StopIteration], and a file with a data row that does
    not hold exactly three cells, or whose target or bonus is not a
    number, with [ValueError]. *)
Theorem load_weights_rejects_bad_rows :
  load_weights [] = Raise StopIteration
  /\ forall header rows,
       Exists (fun row => row_tier row = None) rows ->
       load_weights (header :: rows) = Raise ValueError.
Proof.
  split; [reflexivity|].
  intros header rows Hbad. cbn [load_weights].
  generalize (@nil (string * list tier)).
  induction rows as [|row rest IH]; intros weights.
  - inversion Hbad.
  - rewrite load_weight_rows_cons.
    destruct (row_tier row) as [[metric t]|] eqn:E; [|reflexivity].
    apply IH. inversion Hbad; subst; [congruence|assumption].
Qed.

Lemma load_weights_rejects_bad_rows_witness :
  load_weights [["metric"; "target"; "bonus"]; ["Kills"; "10"; "5"];
                ["Deaths"; "three"; "1"]]
  = Raise ValueError.
Proof.
  apply (proj2 load_weights_rejects_bad_rows).
  apply Exists_cons_tl, Exists_cons_hd. reflexivity.
Defined.

(** ** Score texts *)

Lemma score_char_facts (c : ascii) :
  score_char c = true ->
  Py.is_space c = false /\ Ascii.eqb c "_" = false /\ Py.lower_char c = c.
Proof. by_cases_on_char c. Qed.

Lemma digit_char_more (c : ascii) :
  Py.is_digit c = true ->
  Ascii.eqb c "t" = false /\ Ascii.eqb c "f" = false /\ Ascii.eqb c "-" = false.
Proof. by_cases_on_char c. Qed.

Lemma rstrip_blank_score (s : string) :
  Py.all_chars score_char s = true -> Py.rstrip_blank s = s.
Proof.
  induction s as [|a r IH]; simpl; auto.
  rewrite andb_true_iff. intros [Ha Hr].
  destruct (score_char_facts _ Ha) as (Hs & _).
  now rewrite (blank_is_space _ Hs), (IH Hr).
Qed.

Lemma underscores_ok_score (s : string) (prev : bool) :
  Py.all_chars score_char s = true -> Py.underscores_ok prev s = true.
Proof.
  revert prev. induction s as [|a r IH]; simpl; auto.
  intros prev. rewrite andb_true_iff. intros [Ha Hr].
  destruct (score_char_facts _ Ha) as (_ & Hu & _).
  rewrite Hu. now apply IH.
Qed.

Lemma remove_underscores_score (s : string) :
  Py.all_chars score_char s = true -> Py.remove_underscores s = s.
Proof.
  induction s as [|a r IH]; simpl; auto.
  rewrite andb_true_iff. intros [Ha Hr].
  destruct (score_char_facts _ Ha) as (_ & Hu & _).
  now rewrite Hu, (IH Hr).
Qed.

Lemma digits_score (s : string) :
  Py.all_chars Py.is_digit s = true -> Py.all_chars score_char s = true.
Proof.
  apply all_chars_impl. intros c Hc. unfold score_char. now rewrite Hc.
Qed.

Lemma strip_blank_score (c : ascii) (r : string) :
  Py.is_digit c = true -> Py.all_chars score_char r = true ->
  Py.strip_blank (String c r) = String c r.
Proof.
  intros Hc Hr.
  destruct (digit_char _ Hc) as (Hs & _).
  unfold Py.strip_blank. cbn [Py.lstrip_blank]. rewrite (blank_is_space _ Hs).
  apply rstrip_blank_score.
  change (score_char c && Py.all_chars score_char r = true)%bool.
  unfold score_char at 1. now rewrite Hc, Hr.
Qed.

(** [int] reads a run of digits within the limit as its decimal
    value, and refuses a longer one. *)
Lemma int_of_digits (s : string) :
  digits s ->
  Py.int_of_string s
  = if Nat.leb (String.length s) Py.max_str_digits
    then Some (Py.digits_value 0 s) else None.
Proof.
  intros [Hne Hd]. destruct s as [|c r]; [congruence|].
  pose proof Hd as Hall. simpl in Hd. apply andb_true_iff in Hd.
  destruct Hd as [Hc Hr].
  unfold Py.int_of_string.
  rewrite (strip_blank_score _ _ Hc (digits_score _ Hr)).
  rewrite (underscores_ok_score _ false (digits_score _ Hall)).
  rewrite (remove_underscores_score _ (digits_score _ Hall)).
  rewrite (take_sign_digit _ _ Hc).
  rewrite Hall. cbn [Py.is_empty negb andb].
  now destruct (Nat.leb (String.length (String c r)) Py.max_str_digits).
Qed.

Lemma digits_no_dash (s : string) :
  Py.all_chars Py.is_digit s = true -> has_char "-" s = false.
Proof.
  induction s as [|a r IH]; simpl; auto.
  rewrite andb_true_iff. intros [Ha Hr].
  destruct (digit_char_more _ Ha) as (_ & _ & Hd).
  now rewrite Hd, IH.
Qed.

Lemma split_no_sep (sep : ascii) (s : string) :
  has_char sep s = false -> Py.split sep s = [s].
Proof.
  induction s as [|a r IH]; simpl; auto.
  intros H. apply orb_false_iff in H. destruct H as [Ha Hr].
  rewrite Ha, (IH Hr). reflexivity.
Qed.

Lemma split_at_sep (sep : ascii) (h a : string) :
  has_char sep h = false ->
  Py.split sep (h ++ String sep a) = h :: Py.split sep a.
Proof.
  induction h as [|c r IH]; simpl.
  - intros _. now rewrite Ascii.eqb_refl.
  - intros H. apply orb_false_iff in H. destruct H as [Hc Hr].
    rewrite Hc, (IH Hr). reflexivity.
Qed.

(** A text of digits, a dash and digits is not a number, nor a
    boolean: it is kept as a string. *)
Lemma parse_value_score (h a : string) :
  digits h -> digits a ->
  Parser.parse_value (h ++ "-" ++ a) = VStr (h ++ "-" ++ a).
Proof.
  intros [Hne Hh] [_ Ha].
  destruct h as [|c r]; [congruence|].
  pose proof Hh as Hall. simpl in Hh. apply andb_true_iff in Hh.
  destruct Hh as [Hc Hr].
  destruct (digit_char _ Hc) as (_ & _ & Hl & _ & Hi & Hn & _).
  destruct (digit_char_more _ Hc) as (Ht & Hf & _).
  assert (Hrest : Py.all_chars score_char (r ++ "-" ++ a) = true).
  { rewrite all_chars_app, (digits_score _ Hr). simpl.
    now rewrite (digits_score _ Ha). }
  assert (Hwhole : Py.all_chars score_char (String c (r ++ "-" ++ a)) = true).
  { change (score_char c && Py.all_chars score_char (r ++ "-" ++ a) = true)%bool.
    unfold score_char at 1. now rewrite Hc, Hrest. }
  unfold Parser.parse_value.
  change (String c r ++ "-" ++ a) with (String c (r ++ "-" ++ a)).
  cbn [Py.lower]. rewrite Hl.
  change (String.eqb (String c (Py.lower (r ++ "-" ++ a))) "true")
    with (Ascii.eqb c "t" && String.eqb (Py.lower (r ++ "-" ++ a)) "rue")%bool.
  change (String.eqb (String c (Py.lower (r ++ "-" ++ a))) "false")
    with (Ascii.eqb c "f" && String.eqb (Py.lower (r ++ "-" ++ a)) "alse")%bool.
  rewrite Ht, Hf. cbn [andb orb].
  unfold Py.float_of_string.
  rewrite (strip_blank_score _ _ Hc Hrest).
  rewrite (underscores_ok_score _ false Hwhole).
  rewrite (remove_underscores_score _ Hwhole).
  rewrite (take_sign_digit _ _ Hc).
  cbn [Py.lower]. rewrite Hl.
  change (String.eqb (String c (Py.lower (r ++ "-" ++ a))) "inf")
    with (Ascii.eqb c "i" && String.eqb (Py.lower (r ++ "-" ++ a)) "nf")%bool.
  change (String.eqb (String c (Py.lower (r ++ "-" ++ a))) "infinity")
    with (Ascii.eqb c "i" && String.eqb (Py.lower (r ++ "-" ++ a)) "nfinity")%bool.
  change (String.eqb (String c (Py.lower (r ++ "-" ++ a))) "nan")
    with (Ascii.eqb c "n" && String.eqb (Py.lower (r ++ "-" ++ a)) "an")%bool.
  rewrite Hi, Hn. cbn [andb orb].
  unfold Py.parse_decimal.
  change (String c (r ++ "-" ++ a)) with (String c r ++ String "-" a).
  rewrite (span_app Py.is_digit (String c r) (String "-" a) Hall eq_refl).
  reflexivity.
Qed.

(** X9. A [Score] line whose value is two runs of digits joined by a
    dash, neither longer than the 4300 digits [int] reads, sets
    [Round Differential] to the first number minus the second, as an
    int, whatever the record held before; when either run is longer the
    line is rejected with [ValueError]. *)
Theorem score_line_sets_round_differential
  (data : dict value) (line ktext vtext h a : string) :
  matches_pattern line ktext vtext ->
  Py.strip ktext = "Score" -> Py.strip vtext = h ++ "-" ++ a ->
  digits h -> digits a ->
  ((String.length h <= Py.max_str_digits)%nat ->
   (String.length a <= Py.max_str_digits)%nat ->
   exists data',
     Parser.parse_step data line = Ok data'
     /\ dict_get data' "Round Differential"
        = Some (VInt (Py.digits_value 0 h - Py.digits_value 0 a)))
  /\ ((Py.max_str_digits < String.length h)%nat
      \/ (Py.max_str_digits < String.length a)%nat ->
      Parser.parse_step data line = Raise ValueError).
Proof.
  intros Hm Hk Hv Hh Ha.
  split.
  2:{ intros Hlong. unfold Parser.parse_step.
      rewrite (parse_line_matches _ _ _ Hm), Hk, Hv. cbn [Py.is_empty].
      rewrite (parse_value_score _ _ Hh Ha).
      unfold Parser.parse_special_key. cbn [String.eqb Ascii.eqb Bool.eqb andb].
      change (h ++ "-" ++ a) with (h ++ String "-" a).
      rewrite (split_at_sep "-" h a (digits_no_dash _ (proj2 Hh))).
      rewrite (split_no_sep "-" a (digits_no_dash _ (proj2 Ha))).
      cbn [to_int]. rewrite (int_of_digits _ Hh), (int_of_digits _ Ha).
      destruct (Nat.leb (String.length h) Py.max_str_digits) eqn:Eh;
        [|reflexivity].
      destruct (Nat.leb (String.length a) Py.max_str_digits) eqn:Ea;
        [|reflexivity].
      apply Nat.leb_le in Eh, Ea. lia. }
  intros Lh La.
  apply Nat.leb_le in Lh, La.
  unfold Parser.parse_step.
  rewrite (parse_line_matches _ _ _ Hm), Hk, Hv. cbn [Py.is_empty].
  rewrite (parse_value_score _ _ Hh Ha).
  unfold Parser.parse_special_key. cbn [String.eqb Ascii.eqb Bool.eqb andb].
  change (h ++ "-" ++ a) with (h ++ String "-" a).
  rewrite (split_at_sep "-" h a (digits_no_dash _ (proj2 Hh))).
  rewrite (split_no_sep "-" a (digits_no_dash _ (proj2 Ha))).
  cbn [to_int]. rewrite (int_of_digits _ Hh), (int_of_digits _ Ha), Lh, La.
  cbn [bind]. eexists. split; [reflexivity|].
  destruct (dict_contains _ "Score").
  - apply dict_get_set_same.
  - rewrite dict_get_set_other by discriminate. apply dict_get_set_same.
Qed.

Lemma score_line_sets_round_differential_witness :
  exists data',
    Parser.parse_step [("Kills", VFloat (Py.lit 10))] "Score: 13-7" = Ok data'
    /\ dict_get data' "Round Differential"
       = Some (VInt (Py.digits_value 0 "13" - Py.digits_value 0 "7")).
Proof.
  refine (proj1 (score_line_sets_round_differential
                   _ "Score: 13-7" "Score" "13-7" "13" "7" _ _ _ _ _) _ _).
  - apply (Matches "Score" "13-7" ""); try discriminate; auto.
  - reflexivity.
  - reflexivity.
  - split; [discriminate|reflexivity].
  - split; [discriminate|reflexivity].
  - apply Nat.leb_le. reflexivity.
  - apply Nat.leb_le. reflexivity.
Defined.

(** A run of digits is read as a number. *)
Lemma parse_value_digits (h : string) :
  digits h -> exists f, Parser.parse_value h = VFloat f.
Proof.
  intros [Hne Hh].
  destruct (float_of_percent_text h) as [f Hf].
  { exists h, "". repeat split; auto. }
  exists f. unfold Parser.parse_value. rewrite Hf.
  destruct h as [|c r]; [congruence|].
  simpl in Hh. apply andb_true_iff in Hh. destruct Hh as [Hc _].
  destruct (digit_char _ Hc) as (_ & _ & Hl & _).
  destruct (digit_char_more _ Hc) as (Ht & Hfa & _).
  cbn [Py.lower]. rewrite Hl.
  change (String.eqb (String c (Py.lower r)) "true")
    with (Ascii.eqb c "t" && String.eqb (Py.lower r) "rue")%bool.
  change (String.eqb (String c (Py.lower r)) "false")
    with (Ascii.eqb c "f" && String.eqb (Py.lower r) "alse")%bool.
  now rewrite Ht, Hfa.
Qed.

(** X10. A [Score] line whose value is a plain run of digits, without
    a dash, is typed as a number, which has no [split]: the step raises
    [AttributeError] and a file with such a line does not parse. *)
Theorem score_line_without_dash_raises (line ktext vtext : string) :
  matches_pattern line ktext vtext ->
  Py.strip ktext = "Score" -> digits (Py.strip vtext) ->
  (forall data, Parser.parse_step data line = Raise AttributeError)
  /\ (forall lines, In line lines -> exists e, Parser.parse lines = Raise e).
Proof.
  intros Hm Hk Hd.
  assert (Hstep : forall data, Parser.parse_step data line = Raise AttributeError).
  { intros data. unfold Parser.parse_step.
    rewrite (parse_line_matches _ _ _ Hm), Hk. cbn [Py.is_empty].
    destruct (parse_value_digits _ Hd) as [f ->].
    reflexivity. }
  split; [exact Hstep|].
  intros lines Hin. unfold Parser.parse.
  destruct (parse_lines_raise lines line Hin
              (fun d => ex_intro _ AttributeError (Hstep d)) []) as [e He].
  rewrite He. cbn [bind]. eauto.
Qed.

Lemma score_line_without_dash_raises_witness :
  Parser.parse_step [] "Score: 13" = Raise AttributeError.
Proof.
  refine (proj1 (score_line_without_dash_raises "Score: 13" "Score" "13" _ _ _) []).
  - apply (Matches "Score" "13" ""); try discriminate; auto.
  - reflexivity.
  - split; [discriminate|reflexivity].
Defined.

(** ** The field names of a record *)

Lemma dict_keys_set {V} (d : dict V) (k : string) (v : V) :
  dict_keys (dict_set d k v)
  = if dict_contains d k then dict_keys d else (dict_keys d ++ [k])%list.
Proof.
  unfold dict_contains.
  induction d as [|[k' v'] r IH]; simpl; auto.
  destruct (String.eqb k' k) eqn:E; simpl; auto.
  rewrite IH. now destruct (dict_get r k).
Qed.

Lemma dict_set_good_keys (data : dict value) (k : string) (v : value) :
  k <> "" -> good_keys data -> good_keys (dict_set data k v).
Proof.
  intros Hk [Hnd Hne]. unfold good_keys. rewrite dict_keys_set.
  destruct (dict_contains data k) eqn:E; [auto|].
  split.
  - apply NoDup_snoc; auto. now apply dict_contains_keys.
  - rewrite in_app_iff. simpl. intros [H|[H|[]]]; [contradiction|congruence].
Qed.

Lemma parse_special_key_good_keys (data data' : dict value) (key : string) (v : value) :
  Parser.parse_special_key data key v = Ok data' ->
  good_keys data -> good_keys data'.
Proof.
  unfold Parser.parse_special_key.
  destruct (String.eqb key "Headshot").
  - destruct v as [b|n|f|s]; try discriminate.
    destruct (Parser.search_percent s); [|discriminate].
    destruct (Py.float_of_string s0); [|discriminate].
    intros H Hg. inversion H. apply dict_set_good_keys; [discriminate|exact Hg].
  - destruct (String.eqb key "Score").
    + destruct v as [b|n|f|s]; try discriminate.
      destruct (Py.split "-" s) as [|h [|a [|x l]]]; try discriminate.
      destruct (to_int (VStr h)); [|discriminate].
      destruct (to_int (VStr a)); [|discriminate].
      intros H Hg. inversion H. apply dict_set_good_keys; [discriminate|exact Hg].
    + intros H Hg. inversion H. now subst.
Qed.

Lemma parse_step_good_keys (data data' : dict value) (line : string) :
  Parser.parse_step data line = Ok data' -> good_keys data -> good_keys data'.
Proof.
  intros H Hg. apply parse_step_inv in H.
  destruct H as [-> | (key & v & d1 & Hl & Hne & Hs & ->)]; auto.
  pose proof (parse_special_key_good_keys _ _ _ _ Hs Hg) as Hg1.
  destruct (dict_contains d1 key); auto.
  now apply dict_set_good_keys.
Qed.

Lemma parse_lines_good_keys (lines : list string) (data data' : dict value) :
  Parser.parse_lines data lines = Ok data' -> good_keys data -> good_keys data'.
Proof.
  revert data. induction lines as [|line rest IH]; simpl; intros data H Hg.
  - inversion H; subst; auto.
  - destruct (Parser.parse_step data line) as [d1|e] eqn:E; [|discriminate].
    apply (IH d1 H). apply (parse_step_good_keys _ _ _ E Hg).
Qed.

Lemma derive_length_good_keys (data data' : dict value) :
  Parser.derive_length data = Ok data' -> good_keys data -> good_keys data'.
Proof.
  unfold Parser.derive_length.
  destruct (_ && _)%bool.
  - destruct (dict_item data "End Time (UNIX)") as [e|]; [|discriminate]. cbn [bind].
    destruct (to_int e); [|discriminate]. cbn [bind].
    destruct (dict_item data "Start Time (UNIX)") as [s|]; [|discriminate]. cbn [bind].
    destruct (to_int s); [|discriminate]. cbn [bind].
    intros H Hg. inversion H. apply dict_set_good_keys; [discriminate|exact Hg].
  - intros H Hg. inversion H. now subst.
Qed.

Lemma derive_damage_ratio_good_keys (data data' : dict value) :
  Parser.derive_damage_ratio data = Ok data' -> good_keys data -> good_keys data'.
Proof.
  unfold Parser.derive_damage_ratio.
  destruct (_ && _)%bool.
  - destruct (dict_item data "Damage Received") as [r|]; [|discriminate]. cbn [bind].
    destruct (ne_zero r).
    + destruct (dict_item data "Damage Made") as [m|]; [|discriminate]. cbn [bind].
      destruct (truediv m r); [|discriminate]. cbn [bind].
      intros H Hg. inversion H. apply dict_set_good_keys; [discriminate|exact Hg].
    + intros H Hg. inversion H. now subst.
  - intros H Hg. inversion H. now subst.
Qed.

Lemma calculate_additional_metrics_good_keys (data data' : dict value) :
  Parser.calculate_additional_metrics data = Ok data' ->
  good_keys data -> good_keys data'.
Proof.
  unfold Parser.calculate_additional_metrics.
  destruct (Parser.derive_length data) as [d1|] eqn:E; [|discriminate]. cbn [bind].
  intros H Hg.
  apply (derive_damage_ratio_good_keys _ _ H).
  apply (derive_length_good_keys _ _ E Hg).
Qed.

(** X11. The field names of every parsed record are distinct, and none
    of them is empty. *)
Theorem parsed_field_names_are_distinct (lines : list string) (data : dict value) :
  Parser.parse lines = Ok data -> good_keys data.
Proof.
  unfold Parser.parse.
  destruct (Parser.parse_lines [] lines) as [d|] eqn:E; [|discriminate].
  cbn [bind]. intros H.
  apply (calculate_additional_metrics_good_keys _ _ H).
  apply (parse_lines_good_keys _ _ _ E).
  split; [constructor|intros []].
Qed.

Lemma parsed_field_names_are_distinct_witness :
  good_keys [("Kills", VFloat (Py.lit 10)); ("Map", VStr "Ascent")].
Proof.
  apply (parsed_field_names_are_distinct ["Kills: 10"; "Map: Ascent"; "Kills: 12"]).
  vm_compute. reflexivity.
Defined.

(** ** The orchestrator, file by file *)

Section Processing.

Variable float_repr : Py.float -> string.
Variable format_2f : Py.float -> string.

(** X12. The record a file is turned into holds the fields of the
    parsed record and three more: [Score] is the rounded total,
    [Log] the breakdown entries joined by a semicolon and a space, and
    [Filename] the name of the file.  A [Score], [Log] or [Filename]
    field of the file itself is overwritten; the field names stay
    distinct. *)
Theorem processed_record (weights : dict (list tier)) (filename : string)
  (lines : list string) (d : dict value) :
  process_file float_repr format_2f weights filename lines = Ok d ->
  exists data score bd,
    Parser.parse lines = Ok data
    /\ calculate_score data weights = Ok (score, bd)
    /\ dict_get d "Score" = Some (VFloat score)
    /\ dict_get d "Log"
       = Some (VStr (Py.join "; " (map (entry_text float_repr format_2f) bd)))
    /\ dict_get d "Filename" = Some (VStr filename)
    /\ (forall k, k <> "Score" -> k <> "Log" -> k <> "Filename" ->
                  dict_get d k = dict_get data k)
    /\ good_keys d.
Proof.
  unfold process_file.
  destruct (Parser.parse lines) as [data|] eqn:Ep; [|discriminate]. cbn [bind].
  destruct (calculate_score data weights) as [[score bd]|] eqn:Es; [|discriminate].
  cbn [bind]. intros H. inversion H. subst d. clear H.
  exists data, score, bd.
  split; [first [exact Ep | reflexivity]|].
  split; [first [exact Es | reflexivity]|].
  split.
  { rewrite !dict_get_set_other by discriminate. apply dict_get_set_same. }
  split.
  { rewrite dict_get_set_other by discriminate. apply dict_get_set_same. }
  split.
  { apply dict_get_set_same. }
  split.
  { intros k H1 H2 H3. rewrite !dict_get_set_other by congruence. reflexivity. }
  repeat apply dict_set_good_keys; try discriminate.
  apply (parsed_field_names_are_distinct _ _ Ep).
Qed.

Lemma process_files_names (weights : dict (list tier))
  (processed_files : list (option string)) (files : list (string * list string))
  (acc results : list (dict value)) :
  process_files float_repr format_2f weights processed_files files acc = Ok results ->
  map (fun d => dict_get d "Filename") results
  = (map (fun d => dict_get d "Filename") acc
       ++ map (fun name => Some (VStr name)) (to_score processed_files files))%list.
Proof.
  unfold to_score.
  revert acc. induction files as [|[filename lines] rest IH]; intros acc.
  - simpl. intros H. inversion H. now rewrite app_nil_r.
  - cbn [process_files map filter fst].
    destruct (Py.endswith filename ".md" && negb (in_set filename processed_files))%bool.
    + destruct (process_file float_repr format_2f weights filename lines)
        as [d|] eqn:Ed; [|discriminate].
      cbn [bind]. intros H. rewrite (IH _ H).
      destruct (processed_record _ _ _ _ Ed)
        as (data & score & bd & _ & _ & _ & _ & Hn & _).
      rewrite map_app. cbn [map]. rewrite Hn, <- app_assoc. reflexivity.
    + apply IH.
Qed.

(** X13. A run scores exactly the files of the content directory whose
    name ends in [.md] and is not in the skip-set: one record for each,
    in the order of the listing, tagged with the name of its file. *)
Theorem scored_files_are_the_new_md_files (weights : dict (list tier))
  (processed_files : list (option string)) (files : list (string * list string))
  (results : list (dict value)) :
  process_files float_repr format_2f weights processed_files files [] = Ok results ->
  map (fun d => dict_get d "Filename") results
  = map (fun name => Some (VStr name)) (to_score processed_files files).
Proof. intros H. now rewrite (process_files_names _ _ _ _ _ H). Qed.

End Processing.

Lemma processed_record_witness :
  exists data score bd,
    Parser.parse ["Kills: 25"; "Score: 13-7"] = Ok data
    /\ calculate_score data [("Kills", example_tiers)] = Ok (score, bd)
    /\ dict_get
         [("Kills", VFloat (Py.lit 25)); ("Round Differential", VInt 6);
          ("Score", VFloat (Py.lit 10));
          ("Log", VStr "Kills: 0.0 (Tier: Kills:0.0:0.0, Bonus: 0.0)");
          ("Filename", VStr "a.md")] "Score" = Some (VFloat score)
    /\ dict_get
         [("Kills", VFloat (Py.lit 25)); ("Round Differential", VInt 6);
          ("Score", VFloat (Py.lit 10));
          ("Log", VStr "Kills: 0.0 (Tier: Kills:0.0:0.0, Bonus: 0.0)");
          ("Filename", VStr "a.md")] "Log"
       = Some (VStr (Py.join "; " (map (entry_text sample_repr sample_repr) bd)))
    /\ dict_get
         [("Kills", VFloat (Py.lit 25)); ("Round Differential", VInt 6);
          ("Score", VFloat (Py.lit 10));
          ("Log", VStr "Kills: 0.0 (Tier: Kills:0.0:0.0, Bonus: 0.0)");
          ("Filename", VStr "a.md")] "Filename" = Some (VStr "a.md")
    /\ (forall k, k <> "Score" -> k <> "Log" -> k <> "Filename" ->
                  dict_get
                    [("Kills", VFloat (Py.lit 25)); ("Round Differential", VInt 6);
                     ("Score", VFloat (Py.lit 10));
                     ("Log", VStr "Kills: 0.0 (Tier: Kills:0.0:0.0, Bonus: 0.0)");
                     ("Filename", VStr "a.md")] k
                  = dict_get data k)
    /\ good_keys
         [("Kills", VFloat (Py.lit 25)); ("Round Differential", VInt 6);
          ("Score", VFloat (Py.lit 10));
          ("Log", VStr "Kills: 0.0 (Tier: Kills:0.0:0.0, Bonus: 0.0)");
          ("Filename", VStr "a.md")].
Proof.
  apply (processed_record sample_repr sample_repr [("Kills", example_tiers)]
           "a.md" ["Kills: 25"; "Score: 13-7"]).
  vm_compute. reflexivity.
Defined.

Lemma scored_files_are_the_new_md_files_witness :
  map (fun d => dict_get d "Filename")
    [[("Kills", VFloat (Py.lit 10)); ("Deaths", VFloat (Py.lit 5));
      ("Score", VFloat (Py.lit 0)); ("Log", VStr ""); ("Filename", VStr "b.md")]]
  = map (fun name => Some (VStr name))
      (to_score [Some "a.md"] [file_a; ("notes.txt", ["x"]); file_b]).
Proof.
  apply (scored_files_are_the_new_md_files sample_repr sample_repr []).
  vm_compute. reflexivity.
Defined.

(** ** Reading the table back *)

Lemma fold_set_none_other (names : list string) (d : dict (option string))
  (k : string) :
  ~ In k names ->
  dict_get (fold_left (fun d name => dict_set d name None) names d) k
  = dict_get d k.
Proof.
  revert d. induction names as [|n ns IH]; intros d Hk; simpl; auto.
  rewrite IH by (intros H; apply Hk; simpl; auto).
  apply dict_get_set_other. intros ->. apply Hk. simpl. auto.
Qed.

(** A row never binds a name that is not a field name. *)
Lemma zip_row_other (fieldnames row : list string) (d : dict (option string))
  (k : string) :
  ~ In k fieldnames ->
  dict_get (zip_row fieldnames row d) k = dict_get d k.
Proof.
  revert row d. induction fieldnames as [|n ns IH]; intros row d Hk.
  - destruct row; reflexivity.
  - destruct row as [|c cs].
    + apply (fold_set_none_other (n :: ns) d k Hk).
    + cbn [zip_row]. rewrite IH by (intros H; apply Hk; simpl; auto).
      apply dict_get_set_other. intros ->. apply Hk. simpl. auto.
Qed.



Lemma existsb_eqb_In (k : string) (l : list string) :
  existsb (String.eqb k) l = true <-> In k l.
Proof.
  rewrite existsb_exists. split.
  - intros (x & Hx & E). apply String.eqb_eq in E. now subst.
  - intros H. exists k. split; [exact H|apply String.eqb_refl].
Qed.

Section Runs.

Variable float_repr : Py.float -> string.
Variable format_2f : Py.float -> string.





(** X15. An output table whose header has no [Filename] column and
    that holds a data row cannot be read: the lookup of [Filename] in
    its first data row raises [KeyError], and the run stops before it
    scores or writes anything. *)
Theorem table_without_filename_column (header : list string)
  (rows : list (list string)) :
  ~ In "Filename" header ->
  data_rows (Some (header :: rows)) <> [] ->
  load_existing_results (Some (header :: rows)) = Raise KeyError
  /\ forall w, output_file w = Some (header :: rows) ->
               exists e, main float_repr format_2f w = (w, Raise e).
Proof.
  intros Hno Hrows.
  assert (Hload : load_existing_results (Some (header :: rows)) = Raise KeyError).
  { unfold load_existing_results, dict_reader.
    unfold data_rows in Hrows. cbn [records tl] in Hrows.
    destruct (filter (fun row => negb (is_nil row)) rows) as [|row rest];
      [congruence|].
    cbn [map index_rows]. unfold dict_item.
    now rewrite (zip_row_other _ _ _ _ Hno). }
  split; [exact Hload|].
  intros w Hw. unfold main. rewrite Hw, Hload.
  destruct (load_weights (weights_file w)); cbn [bind]; eauto.
Qed.

(** X16. The write of a run succeeds exactly when every result has
    only fields that the first result has; a result with a field of its
    own makes it raise [ValueError]. *)
Theorem write_succeeds_iff_fields_of_first
  (processed_files : list (option string)) (first : dict value)
  (rest : list (dict value)) (output : csv_file) :
  (Forall (fun r => incl (dict_keys r) (dict_keys first)) rest ->
   snd (append_results float_repr processed_files (first :: rest) output) = Ok tt)
  /\ (Exists (fun r => ~ incl (dict_keys r) (dict_keys first)) rest ->
      snd (append_results float_repr processed_files (first :: rest) output)
      = Raise ValueError).
Proof.
  unfold append_results.
  set (fieldnames := dict_keys first).
  generalize (if is_nil processed_files
              then (records output ++ [fieldnames])%list else records output).
  assert (Hok : forall r, incl (dict_keys r) fieldnames ->
                          dict_to_list float_repr fieldnames r
                          = Ok (row_cells float_repr fieldnames r)).
  { intros r Hr. unfold dict_to_list.
    replace (forallb _ (dict_keys r)) with true; [reflexivity|].
    symmetry. apply forallb_forall. intros k Hk.
    apply existsb_eqb_In. now apply Hr. }
  assert (Hbad : forall r, ~ incl (dict_keys r) fieldnames ->
                           dict_to_list float_repr fieldnames r = Raise ValueError).
  { intros r Hr. unfold dict_to_list.
    destruct (forallb _ (dict_keys r)) eqn:E; [|reflexivity].
    exfalso. apply Hr. intros k Hk.
    rewrite forallb_forall in E. now apply existsb_eqb_In, E. }
  assert (Hfirst : incl (dict_keys first) fieldnames) by apply incl_refl.
  intros file. split.
  - intros Hall.
    assert (H : forall rows file0,
               Forall (fun r => incl (dict_keys r) fieldnames) rows ->
               snd (writerows float_repr fieldnames rows file0) = Ok tt).
    { induction rows as [|r rs IH]; intros file0 Hr; [reflexivity|].
      inversion Hr; subst. cbn [writerows]. rewrite Hok by assumption.
      now apply IH. }
    specialize (H (first :: rest) file (Forall_cons first Hfirst Hall)).
    destruct (writerows float_repr fieldnames (first :: rest) file). exact H.
  - intros Hex.
    assert (H : forall rows file0,
               Exists (fun r => ~ incl (dict_keys r) fieldnames) rows ->
               snd (writerows float_repr fieldnames rows file0) = Raise ValueError).
    { induction rows as [|r rs IH]; intros file0 Hr; [inversion Hr|].
      cbn [writerows].
      destruct (dict_to_list float_repr fieldnames r) as [cells|e] eqn:E.
      - apply IH. inversion Hr; subst; [|assumption].
        rewrite Hbad in E by assumption. discriminate.
      - unfold dict_to_list in E.
        destruct (forallb _ (dict_keys r)); inversion E. reflexivity. }
    specialize (H (first :: rest) file (Exists_cons_tl first Hex)).
    destruct (writerows float_repr fieldnames (first :: rest) file). exact H.
Qed.

Lemma process_files_raise (weights : dict (list tier))
  (processed_files : list (option string)) (files : list (string * list string))
  (filename : string) (lines : list string) (acc : list (dict value)) :
  In (filename, lines) files ->
  Py.endswith filename ".md" = true ->
  in_set filename processed_files = false ->
  (exists e, Parser.parse lines = Raise e) ->
  exists e,
    process_files float_repr format_2f weights processed_files files acc = Raise e.
Proof.
  intros Hin Hmd Hnew [e0 Hbad]. revert acc.
  induction files as [|[fn ls] rest IH]; [destruct Hin|].
  intros acc. cbn [process_files].
  destruct Hin as [Heq|Hin].
  - inversion Heq. subst fn ls. rewrite Hmd, Hnew. cbn [negb andb].
    unfold process_file. rewrite Hbad. cbn [bind]. eauto.
  - destruct (Py.endswith fn ".md" && negb (in_set fn processed_files))%bool; auto.
    destruct (process_file float_repr format_2f weights fn ls); cbn [bind]; eauto.
Qed.

(** X17. One file that does not parse loses the whole run: when a file
    the run has to score makes the parser raise, the run raises and
    leaves the world as it was, so that no row is written, not even for
    the files scored before the failing one. *)
Theorem unparsable_file_aborts_run (w : world) (filename : string)
  (lines : list string) :
  In (filename, lines) (content w) ->
  Py.endswith filename ".md" = true ->
  (forall existing, load_existing_results (output_file w) = Ok existing ->
                    in_set filename (map fst existing) = false) ->
  (exists e, Parser.parse lines = Raise e) ->
  exists e, main float_repr format_2f w = (w, Raise e).
Proof.
  intros Hin Hmd Hnew Hbad. unfold main.
  destruct (load_weights (weights_file w)) as [weights|]; cbn [bind]; eauto.
  destruct (load_existing_results (output_file w)) as [existing|] eqn:El;
    cbn [bind]; eauto.
  destruct (process_files_raise weights (map fst existing) (content w)
              filename lines [] Hin Hmd (Hnew _ eq_refl) Hbad) as [e He].
  rewrite He. cbn [bind]. eauto.
Qed.

End Runs.


Lemma table_without_filename_column_witness :
  load_existing_results (Some [["Kills"; "Score"]; ["10.0"; "0.0"]])
  = Raise KeyError.
Proof.
  refine (proj1 (table_without_filename_column sample_repr sample_repr
                   ["Kills"; "Score"] [["10.0"; "0.0"]] _ _)).
  - simpl. intros [H|[H|[]]]; discriminate H.
  - discriminate.
Defined.

Lemma write_succeeds_iff_fields_of_first_witness :
  snd (append_results sample_repr []
         [[("Kills", VFloat (Py.lit 10)); ("Filename", VStr "a.md")];
          [("Kills", VFloat (Py.lit 10)); ("Deaths", VFloat (Py.lit 5));
           ("Filename", VStr "b.md")]]
         None)
  = Raise ValueError.
Proof.
  refine (proj2 (write_succeeds_iff_fields_of_first sample_repr [] _ _ None) _).
  apply Exists_cons_hd. intros H.
  specialize (H "Deaths"). simpl in H.
  destruct H as [H|[H|[]]]; [auto | discriminate H | discriminate H].
Defined.

Lemma unparsable_file_aborts_run_witness :
  exists e,
    main sample_repr sample_repr
      {| content := [file_a; ("c.md", ["Headshot: none"])];
         weights_file := kills_weights;
         output_file := None |}
    = ({| content := [file_a; ("c.md", ["Headshot: none"])];
          weights_file := kills_weights;
          output_file := None |}, Raise e).
Proof.
  apply (unparsable_file_aborts_run sample_repr sample_repr _ "c.md"
           ["Headshot: none"]).
  - simpl. auto.
  - reflexivity.
  - intros existing H. inversion H. reflexivity.
  - eexists. vm_compute. reflexivity.
Defined.

(** ** Interpolation between adjacent tiers *)

(** The scan walks over the tiers the value reaches as long as it
    reaches the next one too. *)
Lemma scan_skips_reached (metric : string) (v : Py.float) (pre : list tier)
  (lo : tier) (rest : list tier) (i : nat) (acc : tally) :
  Forall (fun u => Py.fge v (fst u) = true) pre ->
  Py.fge v (fst lo) = true ->
  exists j, scan_tiers metric v i (pre ++ lo :: rest) acc
            = scan_tiers metric v j (lo :: rest) acc.
Proof.
  revert i. induction pre as [|[target bonus] r IH]; intros i Hpre Hlo.
  - exists i. reflexivity.
  - inversion Hpre as [|? ? Ht Hr]; subst. simpl in Ht.
    destruct (IH (S i) Hr Hlo) as [j Hj]. exists j. rewrite <- Hj.
    destruct r as [|u r'].
    + cbn [app]. apply scan_tiers_continue; [exact Ht|].
      now apply fge_not_flt.
    + cbn [app]. apply scan_tiers_continue; [exact Ht|].
      inversion Hr; subst. now apply fge_not_flt.
Qed.

(** X18. For a metric none of whose targets is NaN: when the value
    reaches the target of a tier and stays below the target of the tier
    that follows it in sorted order, having reached all the tiers
    before, the metric is awarded the bonus interpolated between these
    two adjacent tiers, with one interpolated entry in the breakdown. *)
Theorem value_between_adjacent_tiers (data : dict value) (metric : string)
  (v b : Py.float) (tiers pre post : list tier) (lo hi : tier)
  (score : Py.float) (bd : list entry) :
  Forall (fun u => Py.feq (fst u) (fst u) = true) tiers ->
  to_float (get_metric data metric) = Ok v ->
  sorted tiers = (pre ++ lo :: hi :: post)%list ->
  Forall (fun u => Py.fge v (fst u) = true) pre ->
  Py.fge v (fst lo) = true -> Py.flt v (fst hi) = true ->
  calculate_interpolated_bonus v (fst lo) (fst hi) (snd lo) (snd hi) = Ok b ->
  score_metric data (score, bd) (metric, tiers)
  = Ok (Py.fadd score b, (bd ++ [Interpolated metric v b])%list).
Proof.
  intros _ Hv Hs Hpre Hlo Hhi Hb.
  unfold score_metric. rewrite Hv. cbn [bind]. rewrite Hs.
  destruct (scan_skips_reached metric v pre lo (hi :: post) 0 (score, bd) Hpre Hlo)
    as [j ->].
  destruct lo as [target bonus], hi as [next_target next_bonus].
  simpl in Hlo, Hhi, Hb. cbn [scan_tiers].
  now rewrite Hlo, Hhi, Hb.
Qed.

Lemma value_between_adjacent_tiers_witness :
  score_metric [("Kills", VFloat (Py.lit 15))] (Py.lit 1, [])
    ("Kills", [(Py.lit 20, Py.lit 10); (Py.lit 0, Py.lit 0); (Py.lit 10, Py.lit 5)])
  = Ok (Py.fadd (Py.lit 1) (Py.lit 7.5),
        [Interpolated "Kills" (Py.lit 15) (Py.lit 7.5)]).
Proof.
  apply (value_between_adjacent_tiers
           [("Kills", VFloat (Py.lit 15))] "Kills" (Py.lit 15) (Py.lit 7.5)
           [(Py.lit 20, Py.lit 10); (Py.lit 0, Py.lit 0); (Py.lit 10, Py.lit 5)]
           [(Py.lit 0, Py.lit 0)] []
           (Py.lit 10, Py.lit 5) (Py.lit 20, Py.lit 10) (Py.lit 1) []).
  - repeat constructor.
  - reflexivity.
  - vm_compute. reflexivity.
  - repeat constructor.
  - reflexivity.
  - reflexivity.
  - vm_compute. reflexivity.
Defined.
